(** * IronTelemetry (Python SDK): capture pipeline, offline queue, transport

    A shallow embedding of [irontelemetry/types.py], [breadcrumbs.py],
    [queue.py], [journey.py], [config.py], [transport.py] and [client.py],
    followed by the properties of the specification that concern them.

    Conventions of the embedding.
    - Python objects of static type [Any] (JSON payloads, [extra], [data],
      [metadata]) are values of [pyval]; a [dict] is an association list in
      insertion order with first-match lookup.
    - A method that mutates [self] is a function from the old object to the
      new one; a method that may raise returns a [result].
    - [datetime] is the standard library's; it is kept abstract and comes
      with [isoformat] / [fromisoformat] and their documented inverse law.
    - A Python [float] that matters here ([sample_rate], the draw of
      [random.random()]) is a rational; only comparisons are performed on it.
    - [print] diagnostics under [debug] do not touch any modelled state and
      are left out.  [OfflineQueue._save] only writes the queue file and
      swallows every exception, so it is the identity on the in-memory
      object and is left out as well. *)

From Stdlib Require Import String List ZArith QArith Bool Lia DecimalString.
Import ListNotations.
Set Warnings "-register-all".
Open Scope string_scope.
Open Scope Z_scope.
Open Scope list_scope.

(** ** Python values and exceptions *)

Inductive pyval : Type :=
| PNone
| PBool (b : bool)
| PInt (z : Z)
| PStr (s : string)
| PList (l : list pyval)
| PDict (d : list (string * pyval)).

Definition pydict : Type := list (string * pyval).

Inductive pyexn : Type :=
| IndexError (msg : string)
| KeyError (key : string)
| ValueError (msg : string)
| TypeError (msg : string)
| AttributeError (msg : string)
| RuntimeError (msg : string).

Inductive result (A : Type) : Type :=
| Ok (a : A)
| Raise (e : pyexn).
Arguments Ok {A} a.
Arguments Raise {A} e.

Definition bind {A B} (r : result A) (k : A -> result B) : result B :=
  match r with
  | Ok a => k a
  | Raise e => Raise e
  end.

Declare Scope py_scope.
Notation "x <- r ;; k" := (bind r (fun x => k))
  (at level 61, r at next level, right associativity) : py_scope.
Open Scope py_scope.

Fixpoint mapM {A B} (f : A -> result B) (l : list A) : result (list B) :=
  match l with
  | [] => Ok []
  | a :: l' => b <- f a ;; bs <- mapM f l' ;; Ok (b :: bs)
  end.

(** [bool(v)]: Python truthiness. *)
Definition truthy (v : pyval) : bool :=
  match v with
  | PNone => false
  | PBool b => b
  | PInt z => negb (z =? 0)
  | PStr s => negb (String.eqb s "")
  | PList l => match l with [] => false | _ => true end
  | PDict d => match d with [] => false | _ => true end
  end.

(** [type(v).__name__] *)
Definition type_name (v : pyval) : string :=
  match v with
  | PNone => "NoneType"
  | PBool _ => "bool"
  | PInt _ => "int"
  | PStr _ => "str"
  | PList _ => "list"
  | PDict _ => "dict"
  end.

(** [d.get(k, default)], [d.get(k)] and [d[k]] on a dict. *)
Fixpoint dict_get_default (k : string) (d : pydict) (default : pyval) : pyval :=
  match d with
  | [] => default
  | (k', v) :: d' => if String.eqb k' k then v else dict_get_default k d' default
  end.

Definition dict_get (k : string) (d : pydict) : pyval :=
  dict_get_default k d PNone.

Fixpoint dict_item (k : string) (d : pydict) : result pyval :=
  match d with
  | [] => Raise (KeyError k)
  | (k', v) :: d' => if String.eqb k' k then Ok v else dict_item k d'
  end.

(** [d[k] = v]: overwrite in place, or append a new key. *)
Fixpoint dict_set (k : string) (v : pyval) (d : pydict) : pydict :=
  match d with
  | [] => [(k, v)]
  | (k', v') :: d' =>
      if String.eqb k' k then (k', v) :: d' else (k', v') :: dict_set k v d'
  end.

(** [d.update(other)] *)
Definition dict_update (d other : pydict) : pydict :=
  fold_left (fun acc kv => dict_set (fst kv) (snd kv) acc) other d.

(** ** List helpers: Python slices and the last [n] elements *)

(** [l[start:]] for an integer [start], negative indices counted from the
    end and clamped as Python does. *)
Definition slice_from {A} (start : Z) (l : list A) : list A :=
  let len := Z.of_nat (length l) in
  let s := if start <? 0 then Z.max (start + len) 0 else Z.min start len in
  skipn (Z.to_nat s) l.

(** The last [n] elements of [l], in order (all of [l] when it is shorter). *)
Definition lastn {A} (n : nat) (l : list A) : list A :=
  skipn (length l - n) l.

(** [l.pop(0)]: the list without its head; [IndexError] on an empty list. *)
Definition pop0 {A} (l : list A) : result (list A) :=
  match l with
  | [] => Raise (IndexError "pop from empty list")
  | _ :: l' => Ok l'
  end.

(** ** The [datetime] library interface *)

Class DateTimeLib : Type := {
  datetime : Type;
  isoformat : datetime -> string;
  (** [None] stands for the [ValueError] of an invalid string. *)
  fromisoformat : string -> option datetime;
  fromisoformat_isoformat : forall d, fromisoformat (isoformat d) = Some d
}.

(** ** types.py *)

Inductive SeverityLevel : Type := DEBUG | INFO | WARNING | ERROR | FATAL.

Inductive BreadcrumbCategory : Type :=
| UI | HTTP | NAVIGATION | CONSOLE | AUTH | BUSINESS | NOTIFICATION | CUSTOM.

(** [level.value] and [SeverityLevel(s)] *)
Definition SeverityLevel_value (l : SeverityLevel) : string :=
  match l with
  | DEBUG => "debug" | INFO => "info" | WARNING => "warning"
  | ERROR => "error" | FATAL => "fatal"
  end.

Definition SeverityLevel_of (s : string) : result SeverityLevel :=
  if String.eqb s "debug" then Ok DEBUG
  else if String.eqb s "info" then Ok INFO
  else if String.eqb s "warning" then Ok WARNING
  else if String.eqb s "error" then Ok ERROR
  else if String.eqb s "fatal" then Ok FATAL
  else Raise (ValueError (s ++ " is not a valid SeverityLevel")%string).

Definition BreadcrumbCategory_value (c : BreadcrumbCategory) : string :=
  match c with
  | UI => "ui" | HTTP => "http" | NAVIGATION => "navigation"
  | CONSOLE => "console" | AUTH => "auth" | BUSINESS => "business"
  | NOTIFICATION => "notification" | CUSTOM => "custom"
  end.

Definition BreadcrumbCategory_of (s : string) : result BreadcrumbCategory :=
  if String.eqb s "ui" then Ok UI
  else if String.eqb s "http" then Ok HTTP
  else if String.eqb s "navigation" then Ok NAVIGATION
  else if String.eqb s "console" then Ok CONSOLE
  else if String.eqb s "auth" then Ok AUTH
  else if String.eqb s "business" then Ok BUSINESS
  else if String.eqb s "notification" then Ok NOTIFICATION
  else if String.eqb s "custom" then Ok CUSTOM
  else Raise (ValueError (s ++ " is not a valid BreadcrumbCategory")%string).


Module User.
Record t : Type := {
  id : string;
  email : option string;
  name : option string;
  data : option pydict
}.
End User.

Module StackFrame.
Record t : Type := {
  function : option string;
  filename : option string;
  lineno : option Z;
  colno : option Z;
  context : option (list string)
}.
End StackFrame.

Module ExceptionInfo.
Record t : Type := {
  type : string;
  message : string;
  stacktrace : option (list StackFrame.t)
}.
End ExceptionInfo.

Module PlatformInfo.
Record t : Type := {
  name : string;
  version : option string;
  os : option string
}.
End PlatformInfo.

Module ParsedDsn.
Record t : Type := {
  public_key : string;
  host : string;
  protocol : string;
  api_base_url : string
}.
End ParsedDsn.

(** [SendResult.event_id] holds whatever object was stored in it: the local
    id ([PStr]), [PNone] (the default), or the JSON value the server sent. *)
Module SendResult.
Record t : Type := {
  success : bool;
  event_id : pyval;
  error : option string;
  queued : bool
}.
End SendResult.

Module Breadcrumb.
Section Def.
Context {DT : DateTimeLib}.
Record t : Type := {
  timestamp : datetime;
  category : BreadcrumbCategory;
  message : string;
  level : SeverityLevel;
  data : option pydict
}.
End Def.
End Breadcrumb.

Module JourneyContext.
Section Def.
Context {DT : DateTimeLib}.
Record t : Type := {
  journey_id : string;
  name : string;
  started_at : datetime;
  current_step : option string;
  metadata : pydict
}.
End Def.
End JourneyContext.

Module TelemetryEvent.
Section Def.
Context {DT : DateTimeLib}.
Record t : Type := {
  event_id : string;
  timestamp : datetime;
  level : SeverityLevel;
  platform : PlatformInfo.t;
  tags : pydict;
  extra : pydict;
  breadcrumbs : list Breadcrumb.t;
  message : option string;
  exception : option ExceptionInfo.t;
  user : option User.t;
  journey : option JourneyContext.t;
  environment : option string;
  app_version : option string
}.

(** [event.extra.update(extra)]: the only in-place change the client
    makes to an event it has built. *)
Definition update_extra (e : t) (other : pydict) : t :=
  {| event_id := event_id e; timestamp := timestamp e; level := level e;
     platform := platform e; tags := tags e;
     extra := dict_update (extra e) other;
     breadcrumbs := breadcrumbs e; message := message e;
     exception := exception e; user := user e; journey := journey e;
     environment := environment e; app_version := app_version e |}.
End Def.
End TelemetryEvent.

(** [before_send] is the hook as a function from the event it is given to
    what it returns, [None] for a drop. *)
Module TelemetryOptions.
Section Def.
Context {DT : DateTimeLib}.
Record t : Type := {
  dsn : string;
  environment : string;
  app_version : string;
  sample_rate : Q;
  max_breadcrumbs : Z;
  debug : bool;
  before_send : option (TelemetryEvent.t -> option TelemetryEvent.t);
  enable_offline_queue : bool;
  max_offline_queue_size : Z;
  api_base_url : option string
}.

(** [TelemetryOptions(dsn=dsn)]: the defaults of the dataclass. *)
Definition default (dsn : string) : t :=
  {| dsn := dsn; environment := "production"; app_version := "0.0.0";
     sample_rate := 1; max_breadcrumbs := 100; debug := false;
     before_send := None; enable_offline_queue := true;
     max_offline_queue_size := 500; api_base_url := None |}.
End Def.
End TelemetryOptions.

(** ** breadcrumbs.py *)

Module BreadcrumbManager.
Section Def.
Context {DT : DateTimeLib}.

Record t : Type := {
  _max_breadcrumbs : Z;
  _breadcrumbs : list Breadcrumb.t
}.

Definition init (max_breadcrumbs : Z) : t :=
  {| _max_breadcrumbs := max_breadcrumbs; _breadcrumbs := [] |}.

(** [add_breadcrumb]: append, then trim with the slice [[-max:]] when the
    buffer has grown past [_max_breadcrumbs]. *)
Definition add_breadcrumb (self : t) (breadcrumb : Breadcrumb.t) : t :=
  let l := _breadcrumbs self ++ [breadcrumb] in
  {| _max_breadcrumbs := _max_breadcrumbs self;
     _breadcrumbs :=
       if Z.of_nat (length l) >? _max_breadcrumbs self
       then slice_from (- _max_breadcrumbs self) l
       else l |}.

(** [add]; [now] is the value [datetime.now()] returns in the call. *)
Definition add (self : t) (now : datetime) (message : string)
    (category : BreadcrumbCategory) (level : SeverityLevel)
    (data : option pydict) : t :=
  add_breadcrumb self
    {| Breadcrumb.timestamp := now; Breadcrumb.category := category;
       Breadcrumb.message := message; Breadcrumb.level := level;
       Breadcrumb.data := data |}.

(** [get_all] returns [list(self._breadcrumbs)], a fresh list. *)
Definition get_all (self : t) : list Breadcrumb.t := _breadcrumbs self.

Definition clear (self : t) : t :=
  {| _max_breadcrumbs := _max_breadcrumbs self; _breadcrumbs := [] |}.

Definition count (self : t) : Z := Z.of_nat (length (_breadcrumbs self)).

(** One [add] call: its arguments and the clock value it reads. *)
Record add_call : Type := {
  call_now : datetime;
  call_message : string;
  call_category : BreadcrumbCategory;
  call_level : SeverityLevel;
  call_data : option pydict
}.

Definition breadcrumb_of (c : add_call) : Breadcrumb.t :=
  {| Breadcrumb.timestamp := call_now c;
     Breadcrumb.category := call_category c;
     Breadcrumb.message := call_message c;
     Breadcrumb.level := call_level c;
     Breadcrumb.data := call_data c |}.

Definition add_all (self : t) (calls : list add_call) : t :=
  fold_left
    (fun bm c => add bm (call_now c) (call_message c) (call_category c)
                   (call_level c) (call_data c))
    calls self.
End Def.
End BreadcrumbManager.

(** ** Dynamic access to Python values *)

Definition no_attribute (v : pyval) (attr : string) : pyexn :=
  AttributeError
    ("'" ++ type_name v ++ "' object has no attribute '" ++ attr ++ "'")%string.

(** [v.get(k, default)] and [v.get(k)] *)
Definition get_default (v : pyval) (k : string) (default : pyval)
  : result pyval :=
  match v with
  | PDict d => Ok (dict_get_default k d default)
  | _ => Raise (no_attribute v "get")
  end.

Definition get (v : pyval) (k : string) : result pyval :=
  get_default v k PNone.

(** [v[k]] for a string key [k] *)
Definition subscript (v : pyval) (k : string) : result pyval :=
  match v with
  | PDict d => dict_item k d
  | PStr _ => Raise (TypeError "string indices must be integers")
  | PList _ => Raise (TypeError "list indices must be integers or slices")
  | _ => Raise (TypeError ("'" ++ type_name v
                            ++ "' object is not subscriptable")%string)
  end.

(** The elements [for x in v] runs through: list items, dict keys, the
    characters of a string. *)
Definition py_iter (v : pyval) : result (list pyval) :=
  match v with
  | PList l => Ok l
  | PDict d => Ok (map (fun kv => PStr (fst kv)) d)
  | PStr s => Ok (map (fun c => PStr (String c "")) (list_ascii_of_string s))
  | _ => Raise (TypeError ("'" ++ type_name v
                            ++ "' object is not iterable")%string)
  end.

(** The dataclasses of [types.py] are not checked at run time, the records
    of the embedding are typed.  Where the source stores a value in a field
    unchanged, the embedding checks that it has the field's declared type
    and raises [TypeError] otherwise; Python would keep the ill-typed
    object.  The two agree on every payload written by the serializers. *)
Definition ill_typed {A} (v : pyval) (expected : string) : result A :=
  Raise (TypeError ("expected " ++ expected ++ ", got "
                      ++ type_name v)%string).

Definition expect_str (v : pyval) : result string :=
  match v with PStr s => Ok s | _ => ill_typed v "str" end.

Definition expect_opt_str (v : pyval) : result (option string) :=
  match v with
  | PNone => Ok None | PStr s => Ok (Some s)
  | _ => ill_typed v "Optional[str]"
  end.

Definition expect_opt_int (v : pyval) : result (option Z) :=
  match v with
  | PNone => Ok None | PInt z => Ok (Some z)
  | _ => ill_typed v "Optional[int]"
  end.

Definition expect_dict (v : pyval) : result pydict :=
  match v with PDict d => Ok d | _ => ill_typed v "dict" end.

Definition expect_opt_dict (v : pyval) : result (option pydict) :=
  match v with
  | PNone => Ok None | PDict d => Ok (Some d)
  | _ => ill_typed v "Optional[dict]"
  end.

Definition opt_str (o : option string) : pyval :=
  match o with Some s => PStr s | None => PNone end.

Definition opt_int (o : option Z) : pyval :=
  match o with Some z => PInt z | None => PNone end.

Definition opt_dict (o : option pydict) : pyval :=
  match o with Some d => PDict d | None => PNone end.

(** [datetime.fromisoformat(v)], [SeverityLevel(v)], [BreadcrumbCategory(v)] *)
Definition datetime_fromisoformat {DT : DateTimeLib} (v : pyval)
  : result datetime :=
  match v with
  | PStr s =>
      match fromisoformat s with
      | Some d => Ok d
      | None => Raise (ValueError ("Invalid isoformat string: " ++ s)%string)
      end
  | _ => Raise (TypeError "fromisoformat: argument must be str")
  end.

Definition SeverityLevel_call (v : pyval) : result SeverityLevel :=
  match v with
  | PStr s => SeverityLevel_of s
  | _ => Raise (ValueError (type_name v ++ " is not a valid SeverityLevel")%string)
  end.

Definition BreadcrumbCategory_call (v : pyval) : result BreadcrumbCategory :=
  match v with
  | PStr s => BreadcrumbCategory_of s
  | _ => Raise (ValueError (type_name v
                             ++ " is not a valid BreadcrumbCategory")%string)
  end.

(** ** queue.py *)

Module OfflineQueue.
Section Def.
Context {DT : DateTimeLib}.

Record t : Type := {
  _max_size : Z;
  _debug : bool;
  _queue : list TelemetryEvent.t
}.

Definition with_queue (self : t) (q : list TelemetryEvent.t) : t :=
  {| _max_size := _max_size self; _debug := _debug self; _queue := q |}.

(** *** Storage format *)

Definition _serialize_frame (f : StackFrame.t) : pyval :=
  PDict [("function", opt_str (StackFrame.function f));
         ("filename", opt_str (StackFrame.filename f));
         ("lineno", opt_int (StackFrame.lineno f))].

Definition _serialize_breadcrumb (b : Breadcrumb.t) : pyval :=
  PDict [("timestamp", PStr (isoformat (Breadcrumb.timestamp b)));
         ("category", PStr (BreadcrumbCategory_value (Breadcrumb.category b)));
         ("message", PStr (Breadcrumb.message b));
         ("level", PStr (SeverityLevel_value (Breadcrumb.level b)));
         ("data", opt_dict (Breadcrumb.data b))].

Definition _serialize_event (event : TelemetryEvent.t) : pyval :=
  PDict
    [("event_id", PStr (TelemetryEvent.event_id event));
     ("timestamp", PStr (isoformat (TelemetryEvent.timestamp event)));
     ("level", PStr (SeverityLevel_value (TelemetryEvent.level event)));
     ("message", opt_str (TelemetryEvent.message event));
     ("exception",
       match TelemetryEvent.exception event with
       | Some exc =>
           PDict
             [("type", PStr (ExceptionInfo.type exc));
              ("message", PStr (ExceptionInfo.message exc));
              ("stacktrace",
                match ExceptionInfo.stacktrace exc with
                | Some ((_ :: _) as frames) =>
                    PList (map _serialize_frame frames)
                | _ => PNone
                end)]
       | None => PNone
       end);
     ("user",
       match TelemetryEvent.user event with
       | Some u =>
           PDict [("id", PStr (User.id u));
                  ("email", opt_str (User.email u));
                  ("data", opt_dict (User.data u))]
       | None => PNone
       end);
     ("tags", PDict (TelemetryEvent.tags event));
     ("extra", PDict (TelemetryEvent.extra event));
     ("breadcrumbs",
       PList (map _serialize_breadcrumb (TelemetryEvent.breadcrumbs event)));
     ("journey",
       match TelemetryEvent.journey event with
       | Some j =>
           PDict
             [("journey_id", PStr (JourneyContext.journey_id j));
              ("name", PStr (JourneyContext.name j));
              ("current_step", opt_str (JourneyContext.current_step j));
              ("started_at", PStr (isoformat (JourneyContext.started_at j)));
              ("metadata", PDict (JourneyContext.metadata j))]
       | None => PNone
       end);
     ("environment", opt_str (TelemetryEvent.environment event));
     ("app_version", opt_str (TelemetryEvent.app_version event));
     ("platform",
       PDict
         [("name", PStr (PlatformInfo.name (TelemetryEvent.platform event)));
          ("version",
            opt_str (PlatformInfo.version (TelemetryEvent.platform event)));
          ("os", opt_str (PlatformInfo.os (TelemetryEvent.platform event)))])].

Definition _deserialize_frame (f : pyval) : result StackFrame.t :=
  fn <- get f "function" ;; fn <- expect_opt_str fn ;;
  file <- get f "filename" ;; file <- expect_opt_str file ;;
  line <- get f "lineno" ;; line <- expect_opt_int line ;;
  Ok {| StackFrame.function := fn; StackFrame.filename := file;
        StackFrame.lineno := line; StackFrame.colno := None;
        StackFrame.context := None |}.

Definition _deserialize_breadcrumb (b : pyval) : result Breadcrumb.t :=
  ts <- subscript b "timestamp" ;; ts <- datetime_fromisoformat ts ;;
  cat <- subscript b "category" ;; cat <- BreadcrumbCategory_call cat ;;
  msg <- subscript b "message" ;; msg <- expect_str msg ;;
  lvl <- subscript b "level" ;; lvl <- SeverityLevel_call lvl ;;
  dat <- get b "data" ;; dat <- expect_opt_dict dat ;;
  Ok {| Breadcrumb.timestamp := ts; Breadcrumb.category := cat;
        Breadcrumb.message := msg; Breadcrumb.level := lvl;
        Breadcrumb.data := dat |}.

Definition _deserialize_exception (data : pyval)
  : result (option ExceptionInfo.t) :=
  e <- get data "exception" ;;
  if truthy e then
    exc_data <- subscript data "exception" ;;
    st <- get exc_data "stacktrace" ;;
    stacktrace <-
      (if truthy st then
         frames <- subscript exc_data "stacktrace" ;;
         frames <- py_iter frames ;;
         frames <- mapM _deserialize_frame frames ;;
         Ok (Some frames)
       else Ok None) ;;
    ty <- subscript exc_data "type" ;; ty <- expect_str ty ;;
    msg <- subscript exc_data "message" ;; msg <- expect_str msg ;;
    Ok (Some {| ExceptionInfo.type := ty; ExceptionInfo.message := msg;
                ExceptionInfo.stacktrace := stacktrace |})
  else Ok None.

Definition _deserialize_user (data : pyval) : result (option User.t) :=
  u <- get data "user" ;;
  if truthy u then
    user_data <- subscript data "user" ;;
    uid <- subscript user_data "id" ;; uid <- expect_str uid ;;
    mail <- get user_data "email" ;; mail <- expect_opt_str mail ;;
    dat <- get user_data "data" ;; dat <- expect_opt_dict dat ;;
    Ok (Some {| User.id := uid; User.email := mail; User.name := None;
                User.data := dat |})
  else Ok None.

Definition _deserialize_journey (data : pyval)
  : result (option JourneyContext.t) :=
  j <- get data "journey" ;;
  if truthy j then
    j_data <- subscript data "journey" ;;
    jid <- subscript j_data "journey_id" ;; jid <- expect_str jid ;;
    nm <- subscript j_data "name" ;; nm <- expect_str nm ;;
    step <- get j_data "current_step" ;; step <- expect_opt_str step ;;
    started <- subscript j_data "started_at" ;;
    started <- datetime_fromisoformat started ;;
    meta <- get_default j_data "metadata" (PDict []) ;;
    meta <- expect_dict meta ;;
    Ok (Some {| JourneyContext.journey_id := jid; JourneyContext.name := nm;
                JourneyContext.started_at := started;
                JourneyContext.current_step := step;
                JourneyContext.metadata := meta |})
  else Ok None.

Definition _deserialize_platform (data : pyval) : result PlatformInfo.t :=
  platform_data <- get_default data "platform" (PDict []) ;;
  nm <- get_default platform_data "name" (PStr "python") ;;
  nm <- expect_str nm ;;
  ver <- get platform_data "version" ;; ver <- expect_opt_str ver ;;
  os <- get platform_data "os" ;; os <- expect_opt_str os ;;
  Ok {| PlatformInfo.name := nm; PlatformInfo.version := ver;
        PlatformInfo.os := os |}.

Definition _deserialize_event (data : pyval) : result TelemetryEvent.t :=
  exception <- _deserialize_exception data ;;
  user <- _deserialize_user data ;;
  journey <- _deserialize_journey data ;;
  bs <- get_default data "breadcrumbs" (PList []) ;;
  bs <- py_iter bs ;;
  breadcrumbs <- mapM _deserialize_breadcrumb bs ;;
  platform <- _deserialize_platform data ;;
  eid <- subscript data "event_id" ;; eid <- expect_str eid ;;
  ts <- subscript data "timestamp" ;; ts <- datetime_fromisoformat ts ;;
  lvl <- subscript data "level" ;; lvl <- SeverityLevel_call lvl ;;
  msg <- get data "message" ;; msg <- expect_opt_str msg ;;
  tags <- get_default data "tags" (PDict []) ;; tags <- expect_dict tags ;;
  extra <- get_default data "extra" (PDict []) ;; extra <- expect_dict extra ;;
  env <- get data "environment" ;; env <- expect_opt_str env ;;
  ver <- get data "app_version" ;; ver <- expect_opt_str ver ;;
  Ok {| TelemetryEvent.event_id := eid; TelemetryEvent.timestamp := ts;
        TelemetryEvent.level := lvl; TelemetryEvent.platform := platform;
        TelemetryEvent.tags := tags; TelemetryEvent.extra := extra;
        TelemetryEvent.breadcrumbs := breadcrumbs;
        TelemetryEvent.message := msg; TelemetryEvent.exception := exception;
        TelemetryEvent.user := user; TelemetryEvent.journey := journey;
        TelemetryEvent.environment := env;
        TelemetryEvent.app_version := ver |}.

(** *** What the storage format can hold

    The format has no slot for a stack frame's [colno] and [context] nor
    for a user's [name], and writes an empty [stacktrace] list as [None]
    (as the wire format of the transport does). *)

Definition frame_storable (f : StackFrame.t) : bool :=
  match StackFrame.colno f, StackFrame.context f with
  | None, None => true
  | _, _ => false
  end.

Definition exception_storable (exc : ExceptionInfo.t) : bool :=
  match ExceptionInfo.stacktrace exc with
  | None => true
  | Some [] => false
  | Some frames => forallb frame_storable frames
  end.

Definition user_storable (u : User.t) : bool :=
  match User.name u with
  | None => true
  | Some _ => false
  end.

Definition storable (event : TelemetryEvent.t) : bool :=
  match TelemetryEvent.exception event with
  | Some exc => exception_storable exc
  | None => true
  end
  && match TelemetryEvent.user event with
     | Some u => user_storable u
     | None => true
     end.

(** What an event looks like once it has been through the storage
    format: the fields without a slot are reset to their defaults. *)
Definition stored_frame (f : StackFrame.t) : StackFrame.t :=
  {| StackFrame.function := StackFrame.function f;
     StackFrame.filename := StackFrame.filename f;
     StackFrame.lineno := StackFrame.lineno f;
     StackFrame.colno := None;
     StackFrame.context := None |}.

Definition stored_exception (exc : ExceptionInfo.t) : ExceptionInfo.t :=
  {| ExceptionInfo.type := ExceptionInfo.type exc;
     ExceptionInfo.message := ExceptionInfo.message exc;
     ExceptionInfo.stacktrace :=
       match ExceptionInfo.stacktrace exc with
       | Some ((_ :: _) as frames) => Some (map stored_frame frames)
       | _ => None
       end |}.

Definition stored_user (u : User.t) : User.t :=
  {| User.id := User.id u; User.email := User.email u; User.name := None;
     User.data := User.data u |}.

Definition stored_form (event : TelemetryEvent.t) : TelemetryEvent.t :=
  {| TelemetryEvent.event_id := TelemetryEvent.event_id event;
     TelemetryEvent.timestamp := TelemetryEvent.timestamp event;
     TelemetryEvent.level := TelemetryEvent.level event;
     TelemetryEvent.platform := TelemetryEvent.platform event;
     TelemetryEvent.tags := TelemetryEvent.tags event;
     TelemetryEvent.extra := TelemetryEvent.extra event;
     TelemetryEvent.breadcrumbs := TelemetryEvent.breadcrumbs event;
     TelemetryEvent.message := TelemetryEvent.message event;
     TelemetryEvent.exception :=
       option_map stored_exception (TelemetryEvent.exception event);
     TelemetryEvent.user := option_map stored_user (TelemetryEvent.user event);
     TelemetryEvent.journey := TelemetryEvent.journey event;
     TelemetryEvent.environment := TelemetryEvent.environment event;
     TelemetryEvent.app_version := TelemetryEvent.app_version event |}.

(** *** Queue operations *)

(** [_load]: [stored] is what [json.load] read from the queue file, [None]
    when the file is missing, unreadable or not JSON.  Any exception leaves
    [_queue] as it was. *)
Definition _load (self : t) (stored : option pyval) : t :=
  match stored with
  | None => self
  | Some data =>
      match (items <- py_iter data ;; mapM _deserialize_event items) with
      | Ok q => with_queue self q
      | Raise _ => self
      end
  end.

Definition init (max_size : Z) (debug : bool) (stored : option pyval) : t :=
  _load {| _max_size := max_size; _debug := debug; _queue := [] |} stored.

(** [enqueue]: at capacity, [self._queue.pop(0)] first; then append. *)
Definition enqueue (self : t) (event : TelemetryEvent.t) : result t :=
  q <- (if Z.of_nat (length (_queue self)) >=? _max_size self
        then pop0 (_queue self)
        else Ok (_queue self)) ;;
  Ok (with_queue self (q ++ [event])).

Definition get_all (self : t) : list TelemetryEvent.t := _queue self.

Definition remove (self : t) (event_id : string) : t :=
  with_queue self
    (filter (fun e => negb (String.eqb (TelemetryEvent.event_id e) event_id))
            (_queue self)).

Definition clear (self : t) : t := with_queue self [].

Definition size (self : t) : Z := Z.of_nat (length (_queue self)).

Definition is_empty (self : t) : bool :=
  Z.of_nat (length (_queue self)) =? 0.

(** What [_save] hands to [json.dump]: the serialized events in queue
    order.  A later [_load] gets it back as [stored] when the file was
    written and read without error. *)
Definition _save_payload (self : t) : pyval :=
  PList (map _serialize_event (_queue self)).

(** Enqueue a sequence of events one after the other. *)
Fixpoint enqueue_all (self : t) (events : list TelemetryEvent.t) : result t :=
  match events with
  | [] => Ok self
  | e :: rest => q <- enqueue self e ;; enqueue_all q rest
  end.
End Def.
End OfflineQueue.

(** ** journey.py *)

(** A [Step] also keeps a reference to its parent journey; nothing reads it
    except [Step.get_journey], so the embedding leaves it out. *)
Module Step.
Section Def.
Context {DT : DateTimeLib}.

Record t : Type := {
  _name : string;
  _category : option string;
  _started_at : datetime;
  _ended_at : option datetime;
  _status : string;
  _data : pydict
}.

Definition init (name : string) (category : option string) (now : datetime)
  : t :=
  {| _name := name; _category := category; _started_at := now;
     _ended_at := None; _status := "in_progress"; _data := [] |}.

Definition finish (self : t) (status : string) (now : datetime) : t :=
  {| _name := _name self; _category := _category self;
     _started_at := _started_at self; _ended_at := Some now;
     _status := status; _data := _data self |}.

Definition complete (self : t) (now : datetime) : t :=
  finish self "completed" now.

Definition fail (self : t) (now : datetime) : t := finish self "failed" now.

Definition set_data (self : t) (key : string) (value : pyval) : t :=
  {| _name := _name self; _category := _category self;
     _started_at := _started_at self; _ended_at := _ended_at self;
     _status := _status self; _data := dict_set key value (_data self) |}.

Definition in_progress (self : t) : bool :=
  String.eqb (_status self) "in_progress".

(** [__exit__]: [raised] tells whether the [with] block raised. *)
Definition exit (self : t) (raised : bool) (now : datetime) : t :=
  if raised then fail self now
  else if in_progress self then complete self now
  else self.
End Def.
End Step.

Module Journey.
Section Def.
Context {DT : DateTimeLib}.

Record t : Type := {
  _id : string;
  _name : string;
  _started_at : datetime;
  _metadata : pydict;
  _user : option User.t;
  _current_step : option Step.t;
  _completed : bool;
  _failed : bool
}.

(** [Journey(name)]: [fresh_id] is the value of [generate_event_id()],
    [now] the value of [datetime.now()]. *)
Definition init (fresh_id : string) (now : datetime) (name : string) : t :=
  {| _id := fresh_id; _name := name; _started_at := now; _metadata := [];
     _user := None; _current_step := None; _completed := false;
     _failed := false |}.

Definition set_user (self : t) (id : string) (email : option string)
    (data : option pydict) : t :=
  {| _id := _id self; _name := _name self; _started_at := _started_at self;
     _metadata := _metadata self;
     _user := Some {| User.id := id; User.email := email;
                      User.name := None; User.data := data |};
     _current_step := _current_step self; _completed := _completed self;
     _failed := _failed self |}.

Definition set_metadata (self : t) (key : string) (value : pyval) : t :=
  {| _id := _id self; _name := _name self; _started_at := _started_at self;
     _metadata := dict_set key value (_metadata self);
     _user := _user self; _current_step := _current_step self;
     _completed := _completed self; _failed := _failed self |}.

Definition with_step (self : t) (step : option Step.t)
    (completed failed : bool) : t :=
  {| _id := _id self; _name := _name self; _started_at := _started_at self;
     _metadata := _metadata self; _user := _user self;
     _current_step := step; _completed := completed; _failed := failed |}.

(** The step a journey is on, closed with [status] when still in progress. *)
Definition close_step (self : t) (status : string) (now : datetime)
  : option Step.t :=
  match _current_step self with
  | Some s => if Step.in_progress s then Some (Step.finish s status now)
              else Some s
  | None => None
  end.

(** [start_step]: the running step is marked completed and then replaced;
    the journey no longer refers to it, so only the new step, opened at
    [now], shows in the journey. *)
Definition start_step (self : t) (now : datetime) (name : string)
    (category : option string) : t :=
  with_step self (Some (Step.init name category now))
            (_completed self) (_failed self).

Definition complete (self : t) (now : datetime) : t :=
  with_step self (close_step self "completed" now) true (_failed self).

Definition fail (self : t) (now : datetime) : t :=
  with_step self (close_step self "failed" now) (_completed self) true.

(** [get_context] hands out [self._metadata] itself, not a copy; the
    embedding has values only, so the context carries the metadata as it
    is at the time of the call. *)
Definition get_context (self : t) : JourneyContext.t :=
  {| JourneyContext.journey_id := _id self;
     JourneyContext.name := _name self;
     JourneyContext.current_step :=
       match _current_step self with
       | Some s => Some (Step._name s)
       | None => None
       end;
     JourneyContext.started_at := _started_at self;
     JourneyContext.metadata := _metadata self |}.

Definition get_user (self : t) : option User.t := _user self.

Definition is_complete (self : t) : bool := _completed self || _failed self.

(** What [JourneyScope.__exit__] does to its journey, before it runs the
    [on_complete] callback; [raised] tells whether the block raised. *)
Definition scope_exit (self : t) (raised : bool) (now : datetime) : t :=
  if raised then fail self now
  else if negb (is_complete self) then complete self now
  else self.
End Def.
End Journey.

(** ** config.py *)

Definition Qlt_bool (x y : Q) : bool := negb (Qle_bool y x).

(** [max(0.0, min(1.0, rate))] with Python's [min] and [max]: the first
    argument unless the second is strictly smaller (resp. larger). *)
Definition clamp_sample_rate (rate : Q) : Q :=
  let m := if Qlt_bool rate 1 then rate else 1%Q in
  if Qlt_bool 0 m then m else 0%Q.

Section Config.
Context {DT : DateTimeLib}.

(** [resolve_options]; [parsed_dsn] is the value of [parse_dsn(options.dsn)],
    a [ValueError] for a DSN without a [pk_] key.  [urlparse] is not
    modelled. *)
Definition resolve_options (options : TelemetryOptions.t)
    (parsed_dsn : result ParsedDsn.t)
  : result (TelemetryOptions.t * ParsedDsn.t) :=
  parsed <- parsed_dsn ;;
  Ok ({| TelemetryOptions.dsn := TelemetryOptions.dsn options;
         TelemetryOptions.environment := TelemetryOptions.environment options;
         TelemetryOptions.app_version := TelemetryOptions.app_version options;
         TelemetryOptions.sample_rate :=
           clamp_sample_rate (TelemetryOptions.sample_rate options);
         TelemetryOptions.max_breadcrumbs :=
           TelemetryOptions.max_breadcrumbs options;
         TelemetryOptions.debug := TelemetryOptions.debug options;
         TelemetryOptions.before_send := TelemetryOptions.before_send options;
         TelemetryOptions.enable_offline_queue :=
           TelemetryOptions.enable_offline_queue options;
         TelemetryOptions.max_offline_queue_size :=
           TelemetryOptions.max_offline_queue_size options;
         TelemetryOptions.api_base_url :=
           match TelemetryOptions.api_base_url options with
           | Some u => if String.eqb u "" then
                         Some (ParsedDsn.api_base_url parsed)
                       else Some u
           | None => Some (ParsedDsn.api_base_url parsed)
           end |},
      parsed).
End Config.

(** ** transport.py *)

(** [str(e)] *)
Definition exn_str (e : pyexn) : string :=
  match e with
  | KeyError k => ("'" ++ k ++ "'")%string
  | IndexError m | ValueError m | TypeError m | AttributeError m
  | RuntimeError m => m
  end.

(** [str(n)] for an integer *)
Definition str_of_Z (z : Z) : string := NilZero.string_of_int (Z.to_int z).

(** ** config.py: [parse_dsn] *)

(** What [urlparse(dsn)] gives [parse_dsn]: the [username] and [hostname]
    properties may raise on their own, [scheme] is a plain attribute. *)
Module UrlParts.
Record t : Type := {
  username : result (option string);
  scheme : string;
  hostname : result (option string)
}.
End UrlParts.

(** [sub in s] *)
Definition contains (sub s : string) : bool :=
  match String.index 0 sub s with
  | Some _ => true
  | None => false
  end.

(** [parse_dsn]; [urlparse] is the outcome of [urlparse(dsn)].  Any
    exception whose text does not mention [pk_] is replaced by the
    [Invalid DSN format] error. *)
Definition parse_dsn (dsn : string) (urlparse : result UrlParts.t)
  : result ParsedDsn.t :=
  match
    (parsed <- urlparse ;;
     public_key <- UrlParts.username parsed ;;
     match public_key with
     | Some pk =>
         if negb (String.eqb pk "") && String.prefix "pk_" pk then
           hostname <- UrlParts.hostname parsed ;;
           let protocol := UrlParts.scheme parsed in
           let host :=
             match hostname with
             | Some h => h
             | None => ""
             end in
           Ok {| ParsedDsn.public_key := pk;
                 ParsedDsn.host := host;
                 ParsedDsn.protocol := protocol;
                 ParsedDsn.api_base_url := (protocol ++ "://" ++ host)%string |}
         else
           Raise (ValueError
                    "DSN must contain a valid public key starting with pk_")
     | None =>
         Raise (ValueError
                  "DSN must contain a valid public key starting with pk_")
     end)
  with
  | Ok parsed_dsn => Ok parsed_dsn
  | Raise e =>
      if contains "pk_" (exn_str e) then Raise e
      else Raise (ValueError ("Invalid DSN format: " ++ dsn)%string)
  end.

(** What [httpx] hands back: [json] is the value of [response.json()], an
    exception when the body does not decode. *)
Module Response.
Record t : Type := {
  status_code : Z;
  text : string;
  json : result pyval
}.
End Response.

Module Request.
Record t : Type := {
  url : string;
  headers : list (string * string);
  body : option pyval
}.
End Request.

(** The far side of the network: how the [n]-th POST and the [n]-th GET of
    a run are answered, a raised exception standing for a transport-level
    failure.  Every behaviour of a server during one run is of this form. *)
Module Network.
Record t : Type := {
  post_reply : nat -> result Response.t;
  get_reply : nat -> result Response.t
}.
End Network.

(** The requests issued so far, oldest first. *)
Module World.
Record t : Type := {
  posts : list Request.t;
  gets : list Request.t
}.

Definition empty : t := {| posts := []; gets := [] |}.
End World.

Module Transport.
Section Def.
Context {DT : DateTimeLib}.

Record t : Type := {
  _api_base_url : string;
  _public_key : string;
  _debug : bool;
  _timeout : Q
}.

Definition init (parsed_dsn : ParsedDsn.t) (api_base_url : string)
    (debug : bool) : t :=
  {| _api_base_url := api_base_url;
     _public_key := ParsedDsn.public_key parsed_dsn;
     _debug := debug; _timeout := 30%Q |}.

(** *** Wire format *)

Definition _serialize_exception (exc : ExceptionInfo.t) : pyval :=
  PDict
    [("type", PStr (ExceptionInfo.type exc));
     ("message", PStr (ExceptionInfo.message exc));
     ("stacktrace",
       match ExceptionInfo.stacktrace exc with
       | Some ((_ :: _) as frames) =>
           PList
             (map (fun f =>
                     PDict [("function", opt_str (StackFrame.function f));
                            ("filename", opt_str (StackFrame.filename f));
                            ("lineno", opt_int (StackFrame.lineno f));
                            ("colno", opt_int (StackFrame.colno f))])
                  frames)
       | _ => PNone
       end)].

Definition _serialize_user (user : User.t) : pyval :=
  PDict [("id", PStr (User.id user));
         ("email", opt_str (User.email user));
         ("name", opt_str (User.name user));
         ("data", opt_dict (User.data user))].

Definition _serialize_breadcrumb (breadcrumb : Breadcrumb.t) : pyval :=
  PDict
    [("timestamp", PStr (isoformat (Breadcrumb.timestamp breadcrumb)));
     ("category",
       PStr (BreadcrumbCategory_value (Breadcrumb.category breadcrumb)));
     ("message", PStr (Breadcrumb.message breadcrumb));
     ("level", PStr (SeverityLevel_value (Breadcrumb.level breadcrumb)));
     ("data", opt_dict (Breadcrumb.data breadcrumb))].

Definition _serialize_journey (journey : JourneyContext.t) : pyval :=
  PDict
    [("journeyId", PStr (JourneyContext.journey_id journey));
     ("name", PStr (JourneyContext.name journey));
     ("currentStep", opt_str (JourneyContext.current_step journey));
     ("startedAt", PStr (isoformat (JourneyContext.started_at journey)));
     ("metadata", PDict (JourneyContext.metadata journey))].

Definition _serialize_event (event : TelemetryEvent.t) : pyval :=
  PDict
    [("eventId", PStr (TelemetryEvent.event_id event));
     ("timestamp", PStr (isoformat (TelemetryEvent.timestamp event)));
     ("level", PStr (SeverityLevel_value (TelemetryEvent.level event)));
     ("message", opt_str (TelemetryEvent.message event));
     ("exception",
       match TelemetryEvent.exception event with
       | Some exc => _serialize_exception exc
       | None => PNone
       end);
     ("user",
       match TelemetryEvent.user event with
       | Some u => _serialize_user u
       | None => PNone
       end);
     ("tags", PDict (TelemetryEvent.tags event));
     ("extra", PDict (TelemetryEvent.extra event));
     ("breadcrumbs",
       PList (map _serialize_breadcrumb (TelemetryEvent.breadcrumbs event)));
     ("journey",
       match TelemetryEvent.journey event with
       | Some j => _serialize_journey j
       | None => PNone
       end);
     ("environment", opt_str (TelemetryEvent.environment event));
     ("appVersion", opt_str (TelemetryEvent.app_version event));
     ("platform",
       PDict
         [("name", PStr (PlatformInfo.name (TelemetryEvent.platform event)));
          ("version",
            opt_str (PlatformInfo.version (TelemetryEvent.platform event)));
          ("os", opt_str (PlatformInfo.os (TelemetryEvent.platform event)))])].

(** *** Network operations *)

Definition failure (msg : string) : SendResult.t :=
  {| SendResult.success := false; SendResult.event_id := PNone;
     SendResult.error := Some msg; SendResult.queued := false |}.

(** The body of the [try] of [send], once the POST has been answered. *)
Definition interpret_reply (event : TelemetryEvent.t)
    (reply : result Response.t) : SendResult.t :=
  match reply with
  | Raise e => failure (exn_str e)
  | Ok response =>
      if Response.status_code response >=? 400 then
        failure ("HTTP " ++ str_of_Z (Response.status_code response)
                   ++ ": " ++ Response.text response)%string
      else
        match (r <- Response.json response ;;
               get_default r "eventId" (PStr (TelemetryEvent.event_id event)))
        with
        | Ok eid =>
            {| SendResult.success := true; SendResult.event_id := eid;
               SendResult.error := None; SendResult.queued := false |}
        | Raise e => failure (exn_str e)
        end
  end.

Definition post_request (self : t) (event : TelemetryEvent.t) : Request.t :=
  {| Request.url := (_api_base_url self ++ "/api/v1/events")%string;
     Request.headers := [("Content-Type", "application/json");
                         ("X-Public-Key", _public_key self)];
     Request.body := Some (_serialize_event event) |}.

(** [send]: one POST, answered by the network according to its rank. *)
Definition send (self : t) (net : Network.t) (w : World.t)
    (event : TelemetryEvent.t) : SendResult.t * World.t :=
  (interpret_reply event
     (Network.post_reply net (length (World.posts w))),
   {| World.posts := World.posts w ++ [post_request self event];
      World.gets := World.gets w |}).

(** [send_async] differs from [send] in suspending at the POST only. *)
Definition send_async := send.

Definition is_online (self : t) (net : Network.t) (w : World.t)
  : bool * World.t :=
  (match Network.get_reply net (length (World.gets w)) with
   | Ok response => Response.status_code response =? 200
   | Raise _ => false
   end,
   {| World.posts := World.posts w;
      World.gets :=
        World.gets w
          ++ [{| Request.url := (_api_base_url self ++ "/api/v1/health")%string;
                 Request.headers := [("X-Public-Key", _public_key self)];
                 Request.body := None |}] |}).
End Def.
End Transport.

(** ** client.py *)

(** What one call reads from the process around it: the clock, the UUID
    generator, the random generator, and the interpreter and OS names. *)
Module Ambient.
Section Def.
Context {DT : DateTimeLib}.
Record t : Type := {
  now : datetime;
  uuid4 : string;
  random : Q;
  python_version : string;
  system : string
}.
End Def.
End Ambient.

(** A raised Python exception as [_parse_exception] sees it:
    [type(error).__name__], [str(error)] and, when [error.__traceback__] is
    set, the frame summaries [traceback.extract_tb] yields. *)
Module BaseException.
Record frame_summary : Type := {
  fs_name : string;
  fs_filename : string;
  fs_lineno : option Z
}.

Record t : Type := {
  type_name : string;
  str : string;
  traceback : option (list frame_summary)
}.
End BaseException.

Module TelemetryClient.
Section Def.
Context {DT : DateTimeLib}.

Record t : Type := {
  _options : TelemetryOptions.t;
  _parsed_dsn : ParsedDsn.t;
  _transport : Transport.t;
  _queue : option OfflineQueue.t;
  _breadcrumbs : BreadcrumbManager.t;
  _tags : pydict;
  _extra : pydict;
  _user : option User.t;
  _current_journey : option Journey.t
}.

Definition with_queue (self : t) (q : option OfflineQueue.t) : t :=
  {| _options := _options self; _parsed_dsn := _parsed_dsn self;
     _transport := _transport self; _queue := q;
     _breadcrumbs := _breadcrumbs self; _tags := _tags self;
     _extra := _extra self; _user := _user self;
     _current_journey := _current_journey self |}.

Definition with_breadcrumbs (self : t) (b : BreadcrumbManager.t) : t :=
  {| _options := _options self; _parsed_dsn := _parsed_dsn self;
     _transport := _transport self; _queue := _queue self;
     _breadcrumbs := b; _tags := _tags self; _extra := _extra self;
     _user := _user self; _current_journey := _current_journey self |}.

Definition with_context (self : t) (tags extra : pydict) : t :=
  {| _options := _options self; _parsed_dsn := _parsed_dsn self;
     _transport := _transport self; _queue := _queue self;
     _breadcrumbs := _breadcrumbs self; _tags := tags; _extra := extra;
     _user := _user self; _current_journey := _current_journey self |}.

Definition with_user (self : t) (u : option User.t) : t :=
  {| _options := _options self; _parsed_dsn := _parsed_dsn self;
     _transport := _transport self; _queue := _queue self;
     _breadcrumbs := _breadcrumbs self; _tags := _tags self;
     _extra := _extra self; _user := u;
     _current_journey := _current_journey self |}.

Definition with_journey (self : t) (j : option Journey.t) : t :=
  {| _options := _options self; _parsed_dsn := _parsed_dsn self;
     _transport := _transport self; _queue := _queue self;
     _breadcrumbs := _breadcrumbs self; _tags := _tags self;
     _extra := _extra self; _user := _user self; _current_journey := j |}.

(** [x or y] on an optional string *)
Definition or_str (x : option string) (y : string) : string :=
  match x with
  | Some s => if String.eqb s "" then y else s
  | None => y
  end.

(** [TelemetryClient(options)]: [parsed_dsn] is what [parse_dsn] returns
    or raises, [stored] what the queue file holds (see
    [OfflineQueue._load]). *)
Definition init (options : TelemetryOptions.t)
    (parsed_dsn : result ParsedDsn.t) (stored : option pyval) : result t :=
  r <- resolve_options options parsed_dsn ;;
  let (opts, parsed) := r in
  Ok {| _options := opts; _parsed_dsn := parsed;
        _transport :=
          Transport.init parsed
            (or_str (TelemetryOptions.api_base_url opts)
                    (ParsedDsn.api_base_url parsed))
            (TelemetryOptions.debug opts);
        _queue :=
          if TelemetryOptions.enable_offline_queue opts
          then Some (OfflineQueue.init
                       (TelemetryOptions.max_offline_queue_size opts)
                       (TelemetryOptions.debug opts) stored)
          else None;
        _breadcrumbs :=
          BreadcrumbManager.init (TelemetryOptions.max_breadcrumbs opts);
        _tags := []; _extra := []; _user := None;
        _current_journey := None |}.

Definition add_breadcrumb (self : t) (now : datetime) (message : string)
    (category : BreadcrumbCategory) (level : SeverityLevel)
    (data : option pydict) : t :=
  with_breadcrumbs self
    (BreadcrumbManager.add (_breadcrumbs self) now message category level
                           data).

Definition set_user (self : t) (id : string) (email : option string)
    (data : option pydict) : t :=
  with_user self (Some {| User.id := id; User.email := email;
                          User.name := None; User.data := data |}).

Definition clear_user (self : t) : t := with_user self None.

Definition set_tag (self : t) (key value : string) : t :=
  with_context self (dict_set key (PStr value) (_tags self)) (_extra self).

Definition set_extra (self : t) (key : string) (value : pyval) : t :=
  with_context self (_tags self) (dict_set key value (_extra self)).

(** [start_journey]: a new journey replaces the current one; the client's
    user, when set, is copied into it. *)
Definition start_journey (self : t) (env : Ambient.t) (name : string) : t :=
  let j := Journey.init (Ambient.uuid4 env) (Ambient.now env) name in
  with_journey self
    (Some match _user self with
          | Some u => Journey.set_user j (User.id u) (User.email u)
                                       (User.data u)
          | None => j
          end).

(** The [on_complete] callback a [JourneyScope] runs when it exits. *)
Definition on_complete (self : t) : t := with_journey self None.

(** [journey.set_user(...)] on the active journey, reached through
    [JourneyScope.get_journey]. *)
Definition journey_set_user (self : t) (id : string)
    (email : option string) (data : option pydict) : t :=
  match _current_journey self with
  | Some j => with_journey self (Some (Journey.set_user j id email data))
  | None => self
  end.

(** [set_metadata], [complete] and [fail] on the active journey, reached
    the same way. *)
Definition journey_set_metadata (self : t) (key : string) (value : pyval)
  : t :=
  match _current_journey self with
  | Some j => with_journey self (Some (Journey.set_metadata j key value))
  | None => self
  end.

Definition journey_complete (self : t) (now : datetime) : t :=
  match _current_journey self with
  | Some j => with_journey self (Some (Journey.complete j now))
  | None => self
  end.

Definition journey_fail (self : t) (now : datetime) : t :=
  match _current_journey self with
  | Some j => with_journey self (Some (Journey.fail j now))
  | None => self
  end.

Definition start_step (self : t) (now : datetime) (name : string)
    (category : option string) : result t :=
  match _current_journey self with
  | None =>
      Raise (RuntimeError "No active journey. Call start_journey() first.")
  | Some j =>
      Ok (with_journey self (Some (Journey.start_step j now name category)))
  end.

Definition _get_platform_info (env : Ambient.t) : PlatformInfo.t :=
  {| PlatformInfo.name := "python";
     PlatformInfo.version := Some (Ambient.python_version env);
     PlatformInfo.os := Some (Ambient.system env) |}.

Definition _parse_exception (error : BaseException.t) : ExceptionInfo.t :=
  let frames :=
    match BaseException.traceback error with
    | Some tb =>
        map (fun fs =>
               {| StackFrame.function := Some (BaseException.fs_name fs);
                  StackFrame.filename := Some (BaseException.fs_filename fs);
                  StackFrame.lineno := BaseException.fs_lineno fs;
                  StackFrame.colno := None; StackFrame.context := None |})
            tb
    | None => []
    end in
  {| ExceptionInfo.type := BaseException.type_name error;
     ExceptionInfo.message := BaseException.str error;
     ExceptionInfo.stacktrace :=
       match frames with [] => None | _ => Some frames end |}.

Definition _create_event (self : t) (env : Ambient.t) (level : SeverityLevel)
    (message : option string) (exception : option ExceptionInfo.t)
  : TelemetryEvent.t :=
  let user :=
    match _current_journey self with
    | Some j => Journey.get_user j
    | None => _user self
    end in
  {| TelemetryEvent.event_id := Ambient.uuid4 env;
     TelemetryEvent.timestamp := Ambient.now env;
     TelemetryEvent.level := level;
     TelemetryEvent.message := message;
     TelemetryEvent.exception := exception;
     TelemetryEvent.user := user;
     TelemetryEvent.tags := _tags self;
     TelemetryEvent.extra := _extra self;
     TelemetryEvent.breadcrumbs := BreadcrumbManager.get_all (_breadcrumbs self);
     TelemetryEvent.journey :=
       match _current_journey self with
       | Some j => Some (Journey.get_context j)
       | None => None
       end;
     TelemetryEvent.environment :=
       Some (TelemetryOptions.environment (_options self));
     TelemetryEvent.app_version :=
       Some (TelemetryOptions.app_version (_options self));
     TelemetryEvent.platform := _get_platform_info env |}.

Definition dropped (event : TelemetryEvent.t) : SendResult.t :=
  {| SendResult.success := true;
     SendResult.event_id := PStr (TelemetryEvent.event_id event);
     SendResult.error := None; SendResult.queued := false |}.

(** Steps 3 and 4 of [_send_event]: the transport, then the queue. *)
Definition deliver (self : t) (net : Network.t) (w : World.t)
    (event : TelemetryEvent.t) : result (SendResult.t * t) * World.t :=
  let (result, w') := Transport.send (_transport self) net w event in
  match SendResult.success result, _queue self with
  | false, Some q =>
      (q' <- OfflineQueue.enqueue q event ;;
       Ok ({| SendResult.success := SendResult.success result;
              SendResult.event_id := PStr (TelemetryEvent.event_id event);
              SendResult.error := SendResult.error result;
              SendResult.queued := true |},
           with_queue self (Some q')),
       w')
  | _, _ => (Ok (result, self), w')
  end.

(** [_send_event]; [r] is the value [random.random()] returns. *)
Definition _send_event (self : t) (net : Network.t) (w : World.t) (r : Q)
    (event : TelemetryEvent.t) : result (SendResult.t * t) * World.t :=
  if Qlt_bool (TelemetryOptions.sample_rate (_options self)) r then
    (Ok (dropped event, self), w)
  else
    match TelemetryOptions.before_send (_options self) with
    | Some hook =>
        match hook event with
        | None => (Ok (dropped event, self), w)
        | Some event' => deliver self net w event'
        end
    | None => deliver self net w event
    end.

Definition _send_event_async := _send_event.

(** The event [capture_exception] hands to [_send_event]. *)
Definition exception_event (self : t) (env : Ambient.t)
    (error : BaseException.t) (extra : option pydict) : TelemetryEvent.t :=
  let exception := _parse_exception error in
  let event :=
    _create_event self env ERROR (Some (ExceptionInfo.message exception))
                  (Some exception) in
  match extra with
  | Some ((_ :: _) as d) => TelemetryEvent.update_extra event d
  | _ => event
  end.

Definition capture_exception (self : t) (net : Network.t) (w : World.t)
    (env : Ambient.t) (error : BaseException.t) (extra : option pydict)
  : result (SendResult.t * t) * World.t :=
  _send_event self net w (Ambient.random env)
              (exception_event self env error extra).

Definition capture_message (self : t) (net : Network.t) (w : World.t)
    (env : Ambient.t) (message : string) (level : SeverityLevel)
  : result (SendResult.t * t) * World.t :=
  _send_event self net w (Ambient.random env)
              (_create_event self env level (Some message) None).

Definition capture_exception_async := capture_exception.
Definition capture_message_async := capture_message.

(** The two capture entry points, with their arguments. *)
Inductive capture_call : Type :=
| Message (message : string) (level : SeverityLevel)
| Exception (error : BaseException.t) (extra : option pydict).

(** The event a capture call builds and hands to [_send_event]. *)
Definition captured_event (self : t) (env : Ambient.t) (call : capture_call)
  : TelemetryEvent.t :=
  match call with
  | Message message level =>
      _create_event self env level (Some message) None
  | Exception error extra => exception_event self env error extra
  end.

Definition capture (self : t) (net : Network.t) (w : World.t)
    (env : Ambient.t) (call : capture_call)
  : result (SendResult.t * t) * World.t :=
  match call with
  | Message message level => capture_message self net w env message level
  | Exception error extra => capture_exception self net w env error extra
  end.

(** The [for] loop of [_process_queue] over the snapshot [get_all()]. *)
Fixpoint _process_queue_loop (tr : Transport.t) (net : Network.t)
    (snapshot : list TelemetryEvent.t) (q : OfflineQueue.t) (w : World.t)
  : OfflineQueue.t * World.t :=
  match snapshot with
  | [] => (q, w)
  | event :: rest =>
      let (result, w') := Transport.send tr net w event in
      _process_queue_loop tr net rest
        (if SendResult.success result
         then OfflineQueue.remove q (TelemetryEvent.event_id event)
         else q)
        w'
  end.

Definition _process_queue (self : t) (net : Network.t) (w : World.t)
  : t * World.t :=
  match _queue self with
  | None => (self, w)
  | Some q =>
      if OfflineQueue.is_empty q then (self, w)
      else
        let (online, w1) := Transport.is_online (_transport self) net w in
        if negb online then (self, w1)
        else
          let (q', w2) :=
            _process_queue_loop (_transport self) net
                                (OfflineQueue.get_all q) q w1 in
          (with_queue self (Some q'), w2)
  end.

Definition flush := _process_queue.
Definition flush_async := _process_queue.

(** Whether the [i]-th [Transport.send] of a flush that starts in world
    [w] succeeds, for each queued event in turn. *)
Fixpoint send_outcomes (tr : Transport.t) (net : Network.t)
    (snapshot : list TelemetryEvent.t) (w : World.t) : list bool :=
  match snapshot with
  | [] => []
  | event :: rest =>
      let (result, w') := Transport.send tr net w event in
      SendResult.success result :: send_outcomes tr net rest w'
  end.

(** The ids of the events of [snapshot] whose send succeeded. *)
Definition sent_ids (snapshot : list TelemetryEvent.t)
    (outcomes : list bool) : list string :=
  map (fun p => TelemetryEvent.event_id (fst p))
      (filter snd (combine snapshot outcomes)).

(** The events of [snapshot] whose send did not succeed, in order. *)
Definition unsent (snapshot : list TelemetryEvent.t) (outcomes : list bool)
  : list TelemetryEvent.t :=
  map fst (filter (fun p => negb (snd p)) (combine snapshot outcomes)).

(** [close] releases the HTTP client of the transport; none of the modelled
    state changes. *)
Definition close (self : t) : t := self.

(** No user held by the client or by its active journey has a [name]:
    [set_user] of either never sets one. *)
Definition names_unset (c : t) : Prop :=
  match _user c with
  | Some u => User.name u = None
  | None => True
  end
  /\ match _current_journey c with
     | Some j =>
         match Journey._user j with
         | Some u => User.name u = None
         | None => True
         end
     | None => True
     end.

(** The clients a program can hold: built by the constructor, then driven
    through the methods above. *)
Inductive reachable : t -> Prop :=
| reach_init options parsed_dsn stored c :
    init options parsed_dsn stored = Ok c -> reachable c
| reach_add_breadcrumb c now message category level data :
    reachable c ->
    reachable (add_breadcrumb c now message category level data)
| reach_set_user c id email data :
    reachable c -> reachable (set_user c id email data)
| reach_clear_user c :
    reachable c -> reachable (clear_user c)
| reach_set_tag c key value :
    reachable c -> reachable (set_tag c key value)
| reach_set_extra c key value :
    reachable c -> reachable (set_extra c key value)
| reach_start_journey c env name :
    reachable c -> reachable (start_journey c env name)
| reach_on_complete c :
    reachable c -> reachable (on_complete c)
| reach_journey_set_user c id email data :
    reachable c -> reachable (journey_set_user c id email data)
| reach_journey_set_metadata c key value :
    reachable c -> reachable (journey_set_metadata c key value)
| reach_journey_complete c now :
    reachable c -> reachable (journey_complete c now)
| reach_journey_fail c now :
    reachable c -> reachable (journey_fail c now)
| reach_start_step c now name category c' :
    reachable c -> start_step c now name category = Ok c' -> reachable c'
| reach_capture c net w env call result c' :
    reachable c ->
    fst (capture c net w env call) = Ok (result, c') -> reachable c'
| reach_flush c net w :
    reachable c -> reachable (fst (flush c net w)).
End Def.
End TelemetryClient.

(** ** __init__.py: the module-level client *)

Module Global.
Section Def.
Context {DT : DateTimeLib}.

(** The module variable [_client]. *)
Definition t : Type := option TelemetryClient.t.

Definition not_initialized : SendResult.t :=
  {| SendResult.success := false; SendResult.event_id := PNone;
     SendResult.error := Some "Client not initialized";
     SendResult.queued := false |}.

Definition not_initialized_error : pyexn :=
  RuntimeError "[IronTelemetry] Client not initialized. Call init() first.".

(** [init(dsn_or_options)]; [urlparse] and [stored] are what the
    constructor finds (see [parse_dsn], [OfflineQueue._load]).  When the
    constructor raises, [_client] keeps its value. *)
Definition init (g : t) (dsn_or_options : string + TelemetryOptions.t)
    (urlparse : result UrlParts.t) (stored : option pyval)
  : result TelemetryClient.t * t :=
  let options :=
    match dsn_or_options with
    | inl dsn => TelemetryOptions.default dsn
    | inr options => options
    end in
  match TelemetryClient.init options
          (parse_dsn (TelemetryOptions.dsn options) urlparse) stored with
  | Ok c => (Ok c, Some c)
  | Raise e => (Raise e, g)
  end.

Definition get_client (g : t) : option TelemetryClient.t := g.

(** A forwarded capture: the result, and [_client] after the call. *)
Definition forward (g : t)
    (o : result (SendResult.t * TelemetryClient.t) * World.t)
  : result (SendResult.t * t) * World.t :=
  (match fst o with
   | Ok (r, c') => Ok (r, Some c')
   | Raise e => Raise e
   end,
   snd o).

Definition capture_exception (g : t) (net : Network.t) (w : World.t)
    (env : Ambient.t) (error : BaseException.t) (extra : option pydict)
  : result (SendResult.t * t) * World.t :=
  match g with
  | None => (Ok (not_initialized, g), w)
  | Some c =>
      forward g (TelemetryClient.capture_exception c net w env error extra)
  end.

Definition capture_message (g : t) (net : Network.t) (w : World.t)
    (env : Ambient.t) (message : string) (level : SeverityLevel)
  : result (SendResult.t * t) * World.t :=
  match g with
  | None => (Ok (not_initialized, g), w)
  | Some c =>
      forward g (TelemetryClient.capture_message c net w env message level)
  end.

Definition add_breadcrumb (g : t) (now : datetime) (message : string)
    (category : BreadcrumbCategory) (level : SeverityLevel)
    (data : option pydict) : t :=
  option_map
    (fun c => TelemetryClient.add_breadcrumb c now message category level
                                             data) g.

Definition set_user (g : t) (id : string) (email : option string)
    (data : option pydict) : t :=
  option_map (fun c => TelemetryClient.set_user c id email data) g.

Definition clear_user (g : t) : t :=
  option_map TelemetryClient.clear_user g.

Definition set_tag (g : t) (key value : string) : t :=
  option_map (fun c => TelemetryClient.set_tag c key value) g.

Definition set_extra (g : t) (key : string) (value : pyval) : t :=
  option_map (fun c => TelemetryClient.set_extra c key value) g.

Definition start_journey (g : t) (env : Ambient.t) (name : string)
  : result t :=
  match g with
  | None => Raise not_initialized_error
  | Some c => Ok (Some (TelemetryClient.start_journey c env name))
  end.

Definition start_step (g : t) (now : datetime) (name : string)
    (category : option string) : result t :=
  match g with
  | None => Raise not_initialized_error
  | Some c =>
      c' <- TelemetryClient.start_step c now name category ;; Ok (Some c')
  end.

Definition flush (g : t) (net : Network.t) (w : World.t) : t * World.t :=
  match g with
  | None => (g, w)
  | Some c =>
      let (c', w') := TelemetryClient.flush c net w in (Some c', w')
  end.

(** [close]: the client is closed and [_client] reset to [None]. *)
Definition close (g : t) : t := None.

(** The hook [use_unhandled_exception_handler] installs, up to its call of
    the original hook: capture the exception, then flush. *)
Definition exception_handler (g : t) (net : Network.t) (w : World.t)
    (env : Ambient.t) (error : BaseException.t)
  : result t * World.t :=
  match g with
  | None => (Ok g, w)
  | Some c =>
      let (r, w1) := TelemetryClient.capture_exception c net w env error None in
      match r with
      | Ok (_, c1) =>
          let (c2, w2) := TelemetryClient.flush c1 net w1 in
          (Ok (Some c2), w2)
      | Raise e => (Raise e, w1)
      end
  end.
End Def.
End Global.

(** ** A concrete clock and sample data *)

(** Datetimes represented by their ISO-8601 text. *)
Definition IsoText : DateTimeLib :=
  {| datetime := string;
     isoformat := fun s => s;
     fromisoformat := fun s => Some s;
     fromisoformat_isoformat := fun _ => eq_refl |}.

Module Examples.
#[local] Existing Instance IsoText.

Definition parsed_dsn : ParsedDsn.t :=
  {| ParsedDsn.public_key := "pk_live_abc";
     ParsedDsn.host := "example.com";
     ParsedDsn.protocol := "https";
     ParsedDsn.api_base_url := "https://example.com" |}.

(** [TelemetryOptions(dsn=..., sample_rate=..., before_send=...,
    max_offline_queue_size=...)], the other fields at their defaults. *)
Definition options (sample_rate : Q)
    (before_send : option (TelemetryEvent.t -> option TelemetryEvent.t))
    (max_offline_queue_size : Z) : TelemetryOptions.t :=
  {| TelemetryOptions.dsn := "https://pk_live_abc@example.com";
     TelemetryOptions.environment := "production";
     TelemetryOptions.app_version := "0.0.0";
     TelemetryOptions.sample_rate := sample_rate;
     TelemetryOptions.max_breadcrumbs := 100;
     TelemetryOptions.debug := false;
     TelemetryOptions.before_send := before_send;
     TelemetryOptions.enable_offline_queue := true;
     TelemetryOptions.max_offline_queue_size := max_offline_queue_size;
     TelemetryOptions.api_base_url := None |}.

(** The client [TelemetryClient(options)] builds when no queue file
    exists. *)
Definition client (opts : TelemetryOptions.t) : TelemetryClient.t :=
  {| TelemetryClient._options :=
       {| TelemetryOptions.dsn := TelemetryOptions.dsn opts;
          TelemetryOptions.environment := TelemetryOptions.environment opts;
          TelemetryOptions.app_version := TelemetryOptions.app_version opts;
          TelemetryOptions.sample_rate :=
            clamp_sample_rate (TelemetryOptions.sample_rate opts);
          TelemetryOptions.max_breadcrumbs :=
            TelemetryOptions.max_breadcrumbs opts;
          TelemetryOptions.debug := TelemetryOptions.debug opts;
          TelemetryOptions.before_send := TelemetryOptions.before_send opts;
          TelemetryOptions.enable_offline_queue := true;
          TelemetryOptions.max_offline_queue_size :=
            TelemetryOptions.max_offline_queue_size opts;
          TelemetryOptions.api_base_url := Some "https://example.com" |};
     TelemetryClient._parsed_dsn := parsed_dsn;
     TelemetryClient._transport :=
       Transport.init parsed_dsn "https://example.com" false;
     TelemetryClient._queue :=
       Some (OfflineQueue.init (TelemetryOptions.max_offline_queue_size opts)
                               false None);
     TelemetryClient._breadcrumbs := BreadcrumbManager.init 100;
     TelemetryClient._tags := [];
     TelemetryClient._extra := [];
     TelemetryClient._user := None;
     TelemetryClient._current_journey := None |}.

Definition env (now : string) (uuid4 : string) (random : Q) : Ambient.t :=
  {| Ambient.now := now; Ambient.uuid4 := uuid4; Ambient.random := random;
     Ambient.python_version := "3.11.4"; Ambient.system := "Linux" |}.

Definition transport : Transport.t :=
  Transport.init parsed_dsn "https://example.com" false.

(** A bare event with the given id and message. *)
Definition event (event_id message : string) : TelemetryEvent.t :=
  {| TelemetryEvent.event_id := event_id;
     TelemetryEvent.timestamp := "2024-05-01T12:00:00";
     TelemetryEvent.level := WARNING;
     TelemetryEvent.platform :=
       {| PlatformInfo.name := "python";
          PlatformInfo.version := Some "3.11.4";
          PlatformInfo.os := Some "Linux" |};
     TelemetryEvent.tags := [];
     TelemetryEvent.extra := [];
     TelemetryEvent.breadcrumbs := [];
     TelemetryEvent.message := Some message;
     TelemetryEvent.exception := None;
     TelemetryEvent.user := None;
     TelemetryEvent.journey := None;
     TelemetryEvent.environment := Some "production";
     TelemetryEvent.app_version := Some "0.0.0" |}.

(** An event with every nested part present: two breadcrumbs, an
    exception with a stack frame, a journey context and a user.  The
    frame's [context] and [colno] and the user's [name] are parameters. *)
Definition rich_event (context : option (list string)) (colno : option Z)
    (name : option string) : TelemetryEvent.t :=
  {| TelemetryEvent.event_id := "7f3c";
     TelemetryEvent.timestamp := "2024-05-01T12:00:00.250000";
     TelemetryEvent.level := ERROR;
     TelemetryEvent.platform :=
       {| PlatformInfo.name := "python";
          PlatformInfo.version := Some "3.11.4";
          PlatformInfo.os := Some "Linux" |};
     TelemetryEvent.tags := [("region", PStr "eu")];
     TelemetryEvent.extra := [("attempt", PInt 2)];
     TelemetryEvent.breadcrumbs :=
       [ {| Breadcrumb.timestamp := "2024-05-01T11:59:58";
            Breadcrumb.category := NAVIGATION;
            Breadcrumb.message := "opened /cart";
            Breadcrumb.level := INFO;
            Breadcrumb.data := None |};
         {| Breadcrumb.timestamp := "2024-05-01T11:59:59";
            Breadcrumb.category := HTTP;
            Breadcrumb.message := "POST /pay";
            Breadcrumb.level := WARNING;
            Breadcrumb.data := Some [("status", PInt 502)] |} ];
     TelemetryEvent.message := Some "payment failed";
     TelemetryEvent.exception :=
       Some {| ExceptionInfo.type := "ValueError";
               ExceptionInfo.message := "payment failed";
               ExceptionInfo.stacktrace :=
                 Some [ {| StackFrame.function := Some "pay";
                           StackFrame.filename := Some "shop.py";
                           StackFrame.lineno := Some 42;
                           StackFrame.colno := colno;
                           StackFrame.context := context |} ] |};
     TelemetryEvent.user :=
       Some {| User.id := "u1"; User.email := Some "ada@example.com";
               User.name := name; User.data := None |};
     TelemetryEvent.journey :=
       Some {| JourneyContext.journey_id := "j-1";
               JourneyContext.name := "checkout";
               JourneyContext.started_at := "2024-05-01T11:59:00";
               JourneyContext.current_step := Some "pay";
               JourneyContext.metadata := [("cart", PInt 3)] |};
     TelemetryEvent.environment := Some "production";
     TelemetryEvent.app_version := Some "1.2.0" |}.

Definition add_call (now message : string) : BreadcrumbManager.add_call :=
  {| BreadcrumbManager.call_now := now;
     BreadcrumbManager.call_message := message;
     BreadcrumbManager.call_category := CUSTOM;
     BreadcrumbManager.call_level := INFO;
     BreadcrumbManager.call_data := None |}.

(** *** Networks *)

Definition ok_json (status : Z) (body : pyval) : result Response.t :=
  Ok {| Response.status_code := status; Response.text := "";
        Response.json := Ok body |}.

Definition server_error : result Response.t :=
  Ok {| Response.status_code := 500; Response.text := "boom";
        Response.json := Raise (ValueError "Expecting value: line 1 column 1 (char 0)") |}.

(** A 2xx answer with an empty body: [response.json()] raises. *)
Definition empty_2xx : result Response.t :=
  Ok {| Response.status_code := 200; Response.text := "";
        Response.json := Raise (ValueError "Expecting value: line 1 column 1 (char 0)") |}.

Definition unreachable : result Response.t :=
  Raise (RuntimeError "[Errno 111] Connection refused").

(** Every POST accepted, health probe fine. *)
Definition net_up : Network.t :=
  {| Network.post_reply := fun _ => ok_json 200 (PDict []);
     Network.get_reply := fun _ => ok_json 200 (PDict []) |}.

(** Nothing reachable. *)
Definition net_down : Network.t :=
  {| Network.post_reply := fun _ => unreachable;
     Network.get_reply := fun _ => unreachable |}.

Definition net_empty_2xx : Network.t :=
  {| Network.post_reply := fun _ => empty_2xx;
     Network.get_reply := fun _ => ok_json 200 (PDict []) |}.

(** The first two POSTs fail, the third is accepted, the fourth fails;
    the health probe answers 200. *)
Definition net_flaky : Network.t :=
  {| Network.post_reply :=
       fun n => match n with
                | 2%nat => ok_json 200 (PDict [])
                | 3%nat => server_error
                | _ => unreachable
                end;
     Network.get_reply := fun _ => ok_json 200 (PDict []) |}.

(** *** A hook that gives every event the same id *)

Definition with_event_id (e : TelemetryEvent.t) (event_id : string)
  : TelemetryEvent.t :=
  {| TelemetryEvent.event_id := event_id;
     TelemetryEvent.timestamp := TelemetryEvent.timestamp e;
     TelemetryEvent.level := TelemetryEvent.level e;
     TelemetryEvent.platform := TelemetryEvent.platform e;
     TelemetryEvent.tags := TelemetryEvent.tags e;
     TelemetryEvent.extra := TelemetryEvent.extra e;
     TelemetryEvent.breadcrumbs := TelemetryEvent.breadcrumbs e;
     TelemetryEvent.message := TelemetryEvent.message e;
     TelemetryEvent.exception := TelemetryEvent.exception e;
     TelemetryEvent.user := TelemetryEvent.user e;
     TelemetryEvent.journey := TelemetryEvent.journey e;
     TelemetryEvent.environment := TelemetryEvent.environment e;
     TelemetryEvent.app_version := TelemetryEvent.app_version e |}.

Definition anonymise (e : TelemetryEvent.t) : option TelemetryEvent.t :=
  Some (with_event_id e "anonymous").

Definition drop_all (e : TelemetryEvent.t) : option TelemetryEvent.t := None.

(** The client after a call, the unchanged one when the call raised. *)
Definition after (self : TelemetryClient.t)
    (o : result (SendResult.t * TelemetryClient.t) * World.t)
  : TelemetryClient.t * World.t :=
  match fst o with
  | Ok (_, c) => (c, snd o)
  | Raise _ => (self, snd o)
  end.

(** Two captures while the network is down, under the [anonymise] hook:
    both events are queued, with the same id. *)
Definition twice_queued : TelemetryClient.t * World.t :=
  let c0 := client (options 1 (Some anonymise) 500) in
  let (c1, w1) :=
    after c0 (TelemetryClient.capture c0 net_flaky World.empty
                (env "2024-05-01T12:00:00" "id-1" (1 # 2))
                (TelemetryClient.Message "first" WARNING)) in
  after c1 (TelemetryClient.capture c1 net_flaky w1
              (env "2024-05-01T12:00:01" "id-2" (1 # 2))
              (TelemetryClient.Message "second" WARNING)).

(** A client whose queue holds the given events. *)
Definition client_with_queue (events : list TelemetryEvent.t)
  : TelemetryClient.t :=
  TelemetryClient.with_queue (client (options 1 None 500))
    (Some {| OfflineQueue._max_size := 500; OfflineQueue._debug := false;
             OfflineQueue._queue := events |}).

(** A journey started before any user is known, the user set afterwards. *)
Definition journey_then_user : TelemetryClient.t :=
  TelemetryClient.set_user
    (TelemetryClient.start_journey (client (options 1 None 500))
       (env "2024-05-01T12:00:00" "j-1" 0) "checkout")
    "u1" (Some "ada@example.com") None.

(** *** Small values for the further properties *)

Definition crumb (now message : string) : Breadcrumb.t :=
  BreadcrumbManager.breadcrumb_of (add_call now message).

Definition queue_of (max_size : Z) (events : list TelemetryEvent.t)
  : OfflineQueue.t :=
  {| OfflineQueue._max_size := max_size; OfflineQueue._debug := false;
     OfflineQueue._queue := events |}.

Definition ended_step : Step.t :=
  Step.fail (Step.init "pay" None "2024-05-01T12:00:01")
            "2024-05-01T12:00:02".

Definition journey_on_ended_step : Journey.t :=
  Journey.with_step (Journey.init "j-1" "2024-05-01T12:00:00" "checkout")
                    (Some ended_step) false false.

Definition good_url : UrlParts.t :=
  {| UrlParts.username := Ok (Some "pk_live_abc");
     UrlParts.scheme := "https";
     UrlParts.hostname := Ok (Some "example.com") |}.

Definition url_without_key : UrlParts.t :=
  {| UrlParts.username := Ok (Some "nopk");
     UrlParts.scheme := "https";
     UrlParts.hostname := Ok (Some "example.com") |}.
End Examples.

(** * Properties *)

(** ** Lists: the last [n] elements *)

Section ListFacts.
Context {A : Type}.
Implicit Types l : list A.

Lemma lastn_length (n : nat) l : length (lastn n l) = Nat.min n (length l).
Proof. unfold lastn. rewrite length_skipn. lia. Qed.

Lemma lastn_all (n : nat) l : (length l <= n)%nat -> lastn n l = l.
Proof.
  intros H. unfold lastn.
  replace (length l - n)%nat with 0%nat by lia. reflexivity.
Qed.

Lemma lastn_app_r (n : nat) l l' :
  (n <= length l')%nat -> lastn n (l ++ l') = lastn n l'.
Proof.
  intros H. unfold lastn. rewrite skipn_app, length_app.
  rewrite (skipn_all2 l) by lia.
  simpl. f_equal. lia.
Qed.

(** Trimming early does not change what is left after a later trim. *)
Lemma lastn_app_lastn (n : nat) l l' :
  lastn n (lastn n l ++ l') = lastn n (l ++ l').
Proof.
  destruct (Nat.le_gt_cases (length l) n) as [Hle | Hgt].
  - now rewrite (lastn_all n l).
  - unfold lastn at 1 3. rewrite !skipn_app, !length_app.
    rewrite lastn_length. unfold lastn. rewrite skipn_skipn.
    f_equal; f_equal; lia.
Qed.

(** The slice [l[-n:]] is the last [n] elements, for a positive [n]. *)
Lemma slice_from_neg (n : Z) l :
  1 <= n -> slice_from (- n) l = lastn (Z.to_nat n) l.
Proof.
  intros Hn. unfold slice_from, lastn.
  destruct (Z.ltb_spec (- n) 0) as [_ | H]; [ | lia ].
  f_equal. lia.
Qed.

Lemma filter_all_true (f : A -> bool) l :
  (forall x, In x l -> f x = true) -> filter f l = l.
Proof.
  induction l as [ | a l IH ]; simpl; intros H; [ reflexivity | ].
  rewrite (H a) by now left.
  f_equal. apply IH. intros x Hx. apply H. now right.
Qed.

Lemma filter_filter (f g : A -> bool) l :
  filter f (filter g l) = filter (fun x => g x && f x) l.
Proof.
  induction l as [ | a l IH ]; simpl; [ reflexivity | ].
  destruct (g a); simpl; [ | exact IH ].
  destruct (f a); now rewrite IH.
Qed.
End ListFacts.

Section Properties.
Context {DT : DateTimeLib}.

(** ** Breadcrumb ring buffer *)

Lemma add_breadcrumb_lastn (self : BreadcrumbManager.t) (b : Breadcrumb.t) :
  1 <= BreadcrumbManager._max_breadcrumbs self ->
  BreadcrumbManager._breadcrumbs (BreadcrumbManager.add_breadcrumb self b)
  = lastn (Z.to_nat (BreadcrumbManager._max_breadcrumbs self))
          (BreadcrumbManager._breadcrumbs self ++ [b]).
Proof.
  intros Hmax. unfold BreadcrumbManager.add_breadcrumb. simpl.
  destruct (Z.gtb_spec
              (Z.of_nat (length (BreadcrumbManager._breadcrumbs self ++ [b])))
              (BreadcrumbManager._max_breadcrumbs self)) as [Hgt | Hle].
  - now apply slice_from_neg.
  - symmetry. apply lastn_all. lia.
Qed.

Lemma add_all_from_trimmed (calls : list BreadcrumbManager.add_call) :
  forall (self : BreadcrumbManager.t) (history : list Breadcrumb.t),
    1 <= BreadcrumbManager._max_breadcrumbs self ->
    BreadcrumbManager._breadcrumbs self
    = lastn (Z.to_nat (BreadcrumbManager._max_breadcrumbs self)) history ->
    BreadcrumbManager._breadcrumbs (BreadcrumbManager.add_all self calls)
    = lastn (Z.to_nat (BreadcrumbManager._max_breadcrumbs self))
            (history ++ map BreadcrumbManager.breadcrumb_of calls).
Proof.
  induction calls as [ | c calls IH ]; intros self history Hmax Hbuf.
  - simpl. now rewrite app_nil_r.
  - change (BreadcrumbManager.add_all self (c :: calls))
      with (BreadcrumbManager.add_all
              (BreadcrumbManager.add_breadcrumb
                 self (BreadcrumbManager.breadcrumb_of c)) calls).
    rewrite (IH _ (history ++ [BreadcrumbManager.breadcrumb_of c])).
    + simpl. now rewrite <- app_assoc.
    + exact Hmax.
    + rewrite add_breadcrumb_lastn by exact Hmax.
      rewrite Hbuf. apply lastn_app_lastn.
Qed.

(** C6. After more than [max_breadcrumbs] calls of [add] (with
    [max_breadcrumbs >= 1]), [get_all()] returns exactly [max_breadcrumbs]
    breadcrumbs: the most recently added ones, in insertion order. *)
Theorem breadcrumbs_keep_most_recent
    (self : BreadcrumbManager.t) (calls : list BreadcrumbManager.add_call) :
  1 <= BreadcrumbManager._max_breadcrumbs self ->
  BreadcrumbManager._max_breadcrumbs self < Z.of_nat (length calls) ->
  BreadcrumbManager.get_all (BreadcrumbManager.add_all self calls)
  = lastn (Z.to_nat (BreadcrumbManager._max_breadcrumbs self))
          (map BreadcrumbManager.breadcrumb_of calls)
  /\ Z.of_nat (length (BreadcrumbManager.get_all
                         (BreadcrumbManager.add_all self calls)))
     = BreadcrumbManager._max_breadcrumbs self.
Proof.
  intros Hmax Hlen.
  assert (Hall :
    BreadcrumbManager.get_all (BreadcrumbManager.add_all self calls)
    = lastn (Z.to_nat (BreadcrumbManager._max_breadcrumbs self))
            (map BreadcrumbManager.breadcrumb_of calls)).
  { destruct calls as [ | c calls ]; [ simpl in Hlen; lia | ].
    unfold BreadcrumbManager.get_all.
    change (BreadcrumbManager.add_all self (c :: calls))
      with (BreadcrumbManager.add_all
              (BreadcrumbManager.add_breadcrumb
                 self (BreadcrumbManager.breadcrumb_of c)) calls).
    rewrite (add_all_from_trimmed calls _
               (BreadcrumbManager._breadcrumbs self
                  ++ [BreadcrumbManager.breadcrumb_of c])).
    - simpl BreadcrumbManager._max_breadcrumbs.
      rewrite <- app_assoc. apply lastn_app_r.
      simpl. rewrite length_map. simpl in Hlen. lia.
    - exact Hmax.
    - rewrite add_breadcrumb_lastn by exact Hmax. reflexivity. }
  split; [ exact Hall | ].
  rewrite Hall, lastn_length, length_map. lia.
Qed.
(** ** Offline queue: bounded FIFO *)

(** With room for at least one event, [enqueue] returns normally, whatever
    the queue holds. *)
Lemma enqueue_total (self : OfflineQueue.t) (event : TelemetryEvent.t) :
  1 <= OfflineQueue._max_size self ->
  exists q, OfflineQueue.enqueue self event = Ok q.
Proof.
  intros Hmax. unfold OfflineQueue.enqueue.
  destruct (Z.geb_spec (Z.of_nat (length (OfflineQueue._queue self)))
                       (OfflineQueue._max_size self)) as [Hfull | Hroom].
  - destruct (OfflineQueue._queue self) as [ | e q ];
      [ simpl in Hfull; lia | ].
    simpl. eauto.
  - simpl. eauto.
Qed.

Lemma enqueue_lastn (self : OfflineQueue.t) (event : TelemetryEvent.t) :
  1 <= OfflineQueue._max_size self ->
  Z.of_nat (length (OfflineQueue._queue self)) <= OfflineQueue._max_size self ->
  OfflineQueue.enqueue self event
  = Ok (OfflineQueue.with_queue self
          (lastn (Z.to_nat (OfflineQueue._max_size self))
                 (OfflineQueue._queue self ++ [event]))).
Proof.
  intros Hmax Hinv. unfold OfflineQueue.enqueue.
  destruct (Z.geb_spec (Z.of_nat (length (OfflineQueue._queue self)))
                       (OfflineQueue._max_size self)) as [Hfull | Hroom].
  - destruct (OfflineQueue._queue self) as [ | e q ] eqn:Hq;
      [ simpl in Hfull; lia | ].
    simpl. do 2 f_equal. unfold lastn.
    replace (length (e :: q ++ [event])
             - Z.to_nat (OfflineQueue._max_size self))%nat with 1%nat.
    + reflexivity.
    + cbn [length] in *. rewrite length_app. cbn [length]. lia.
  - simpl. do 2 f_equal. symmetry. apply lastn_all.
    rewrite length_app. simpl. lia.
Qed.

Lemma enqueue_all_lastn (events : list TelemetryEvent.t) :
  forall self : OfflineQueue.t,
    1 <= OfflineQueue._max_size self ->
    Z.of_nat (length (OfflineQueue._queue self))
    <= OfflineQueue._max_size self ->
    OfflineQueue.enqueue_all self events
    = Ok (OfflineQueue.with_queue self
            (lastn (Z.to_nat (OfflineQueue._max_size self))
                   (OfflineQueue._queue self ++ events))).
Proof.
  induction events as [ | e events IH ]; intros self Hmax Hinv.
  - simpl. rewrite app_nil_r, lastn_all by lia.
    now destruct self.
  - simpl. rewrite enqueue_lastn by assumption. simpl bind.
    rewrite IH.
    + simpl. rewrite lastn_app_lastn, <- app_assoc. reflexivity.
    + exact Hmax.
    + simpl. rewrite lastn_length. lia.
Qed.

(** C5. Starting from an empty queue with [max_size >= 1], enqueueing
    [max_size + k] events ([k >= 1]) returns normally and leaves exactly
    [max_size] entries: the last [max_size] events enqueued, in insertion
    order. *)
Theorem enqueue_overflow_keeps_last
    (self : OfflineQueue.t) (events : list TelemetryEvent.t) (k : Z) :
  OfflineQueue._queue self = [] ->
  1 <= OfflineQueue._max_size self ->
  1 <= k ->
  Z.of_nat (length events) = OfflineQueue._max_size self + k ->
  exists q,
    OfflineQueue.enqueue_all self events = Ok q
    /\ OfflineQueue.get_all q
       = lastn (Z.to_nat (OfflineQueue._max_size self)) events
    /\ OfflineQueue.size q = OfflineQueue._max_size self.
Proof.
  intros Hempty Hmax Hk Hlen.
  rewrite enqueue_all_lastn by (rewrite ?Hempty; simpl; lia).
  rewrite Hempty. simpl app.
  eexists. split; [ reflexivity | ].
  unfold OfflineQueue.get_all, OfflineQueue.size. simpl.
  split; [ reflexivity | ].
  rewrite lastn_length. lia.
Qed.

(** C10. On a queue built with [max_size <= 0], the first [enqueue] on the
    empty queue raises [IndexError] (the [pop(0)] of an empty list): it
    neither appends the event nor returns normally.  [enqueue_total] is
    the other half: with [max_size >= 1] the call always returns. *)
Theorem enqueue_without_capacity_raises
    (self : OfflineQueue.t) (event : TelemetryEvent.t) :
  OfflineQueue._max_size self <= 0 ->
  OfflineQueue._queue self = [] ->
  OfflineQueue.enqueue self event = Raise (IndexError "pop from empty list")
  /\ forall q, OfflineQueue.enqueue self event <> Ok q.
Proof.
  intros Hmax Hempty.
  assert (H : OfflineQueue.enqueue self event
              = Raise (IndexError "pop from empty list")).
  { unfold OfflineQueue.enqueue. rewrite Hempty. simpl length.
    destruct (Z.geb_spec (Z.of_nat 0) (OfflineQueue._max_size self));
      [ reflexivity | simpl in *; lia ]. }
  split; [ exact H | ].
  intros q Hq. rewrite H in Hq. discriminate.
Qed.

(** ** Transport *)

Lemma send_posts (tr : Transport.t) (net : Network.t) (w : World.t)
    (event : TelemetryEvent.t) :
  World.posts (snd (Transport.send tr net w event))
  = World.posts w ++ [Transport.post_request tr event].
Proof. reflexivity. Qed.

Lemma dict_get_default_absent (k : string) (d : pydict) (default : pyval) :
  ~ In k (map fst d) -> dict_get_default k d default = default.
Proof.
  induction d as [ | [k' v] d IH ]; simpl; intros Hnotin; [ reflexivity | ].
  destruct (String.eqb_spec k' k) as [Heq | Hneq].
  - exfalso. apply Hnotin. now left.
  - apply IH. intros Hin. apply Hnotin. now right.
Qed.

Lemma dict_get_default_present (k : string) (d : pydict) (default v : pyval) :
  dict_item k d = Ok v -> dict_get_default k d default = v.
Proof.
  induction d as [ | [k' v'] d IH ]; simpl; intros Hitem; [ discriminate | ].
  destruct (String.eqb k' k); [ congruence | now apply IH ].
Qed.

(** A reply below 400 whose body decodes to a JSON object is a success
    and carries [body.get("eventId", event.event_id)]. *)
Lemma send_json_object_result (tr : Transport.t) (net : Network.t)
    (w : World.t) (event : TelemetryEvent.t) (response : Response.t)
    (body : pydict) :
  Network.post_reply net (length (World.posts w)) = Ok response ->
  Response.status_code response < 400 ->
  Response.json response = Ok (PDict body) ->
  fst (Transport.send tr net w event)
  = {| SendResult.success := true;
       SendResult.event_id :=
         dict_get_default "eventId" body
                          (PStr (TelemetryEvent.event_id event));
       SendResult.error := None;
       SendResult.queued := false |}.
Proof.
  intros Hreply Hstatus Hjson.
  unfold Transport.send, Transport.interpret_reply. simpl fst.
  rewrite Hreply.
  destruct (Z.geb_spec (Response.status_code response) 400); [ lia | ].
  rewrite Hjson. reflexivity.
Qed.

(** C8 (as the code has it). When the POST is answered with a status
    below 400 and a body that decodes to a JSON object, [send] returns
    [success=True]; its [event_id] is the object's [eventId] field when
    the object has one, and the event's local id when it has none. *)
Theorem send_json_object (tr : Transport.t) (net : Network.t) (w : World.t)
    (event : TelemetryEvent.t) (response : Response.t) (body : pydict) :
  Network.post_reply net (length (World.posts w)) = Ok response ->
  Response.status_code response < 400 ->
  Response.json response = Ok (PDict body) ->
  SendResult.success (fst (Transport.send tr net w event)) = true
  /\ (forall v,
        dict_item "eventId" body = Ok v ->
        SendResult.event_id (fst (Transport.send tr net w event)) = v)
  /\ (~ In "eventId" (map fst body) ->
      SendResult.event_id (fst (Transport.send tr net w event))
      = PStr (TelemetryEvent.event_id event)).
Proof.
  intros Hreply Hstatus Hjson.
  rewrite (send_json_object_result tr net w event response body)
    by assumption.
  cbn [SendResult.success SendResult.event_id].
  split; [ reflexivity | ]. split.
  - intros v Hv. now apply dict_get_default_present.
  - intros Habsent. now apply dict_get_default_absent.
Qed.

(** A reply below 400 whose body decodes to something else than an
    object (a list, a string, a number) is reported as a failure. *)
Lemma send_json_non_object (tr : Transport.t) (net : Network.t)
    (w : World.t) (event : TelemetryEvent.t) (response : Response.t)
    (body : pyval) :
  Network.post_reply net (length (World.posts w)) = Ok response ->
  Response.status_code response < 400 ->
  Response.json response = Ok body ->
  (forall d, body <> PDict d) ->
  fst (Transport.send tr net w event)
  = Transport.failure (exn_str (no_attribute body "get")).
Proof.
  intros Hreply Hstatus Hjson Hnot.
  unfold Transport.send, Transport.interpret_reply. simpl fst.
  rewrite Hreply.
  destruct (Z.geb_spec (Response.status_code response) 400); [ lia | ].
  rewrite Hjson.
  destruct body; try reflexivity.
  now destruct (Hnot d).
Qed.

(** A reply of 400 or above is a failure that quotes status and body. *)
Lemma send_http_error (tr : Transport.t) (net : Network.t) (w : World.t)
    (event : TelemetryEvent.t) (response : Response.t) :
  Network.post_reply net (length (World.posts w)) = Ok response ->
  400 <= Response.status_code response ->
  fst (Transport.send tr net w event)
  = Transport.failure
      ("HTTP " ++ str_of_Z (Response.status_code response) ++ ": "
         ++ Response.text response)%string.
Proof.
  intros Hreply Hstatus.
  unfold Transport.send, Transport.interpret_reply. simpl fst.
  rewrite Hreply.
  destruct (Z.geb_spec (Response.status_code response) 400); [ | lia ].
  reflexivity.
Qed.

(** A reply below 400 whose body does not decode is reported as a
    failure. *)
Lemma send_undecodable_body (tr : Transport.t) (net : Network.t)
    (w : World.t) (event : TelemetryEvent.t) (response : Response.t)
    (e : pyexn) :
  Network.post_reply net (length (World.posts w)) = Ok response ->
  Response.status_code response < 400 ->
  Response.json response = Raise e ->
  fst (Transport.send tr net w event) = Transport.failure (exn_str e).
Proof.
  intros Hreply Hstatus Hjson.
  unfold Transport.send, Transport.interpret_reply. simpl fst.
  rewrite Hreply.
  destruct (Z.geb_spec (Response.status_code response) 400); [ lia | ].
  rewrite Hjson. reflexivity.
Qed.

(** ** Capture pipeline *)

Lemma sampled_out (self : TelemetryClient.t) (net : Network.t)
    (w : World.t) (r : Q) (event : TelemetryEvent.t) :
  (TelemetryOptions.sample_rate (TelemetryClient._options self) < r)%Q ->
  TelemetryClient._send_event self net w r event
  = (Ok (TelemetryClient.dropped event, self), w).
Proof.
  intros Hlt. unfold TelemetryClient._send_event, Qlt_bool.
  destruct (Qle_bool r _) eqn:Hle; [ | reflexivity ].
  apply Qle_bool_iff in Hle.
  exfalso. exact (Qlt_not_le _ _ Hlt Hle).
Qed.

Lemma not_sampled_out (self : TelemetryClient.t) (net : Network.t)
    (w : World.t) (r : Q) (event : TelemetryEvent.t) :
  (r <= TelemetryOptions.sample_rate (TelemetryClient._options self))%Q ->
  TelemetryClient._send_event self net w r event
  = match TelemetryOptions.before_send (TelemetryClient._options self) with
    | Some hook =>
        match hook event with
        | None => (Ok (TelemetryClient.dropped event, self), w)
        | Some event' => TelemetryClient.deliver self net w event'
        end
    | None => TelemetryClient.deliver self net w event
    end.
Proof.
  intros Hle. unfold TelemetryClient._send_event, Qlt_bool.
  apply Qle_bool_iff in Hle. now rewrite Hle.
Qed.

(** Delivery always issues exactly one POST, for the event it is given. *)
Lemma deliver_posts (self : TelemetryClient.t) (net : Network.t)
    (w : World.t) (event : TelemetryEvent.t) :
  World.posts (snd (TelemetryClient.deliver self net w event))
  = World.posts w
      ++ [Transport.post_request (TelemetryClient._transport self) event].
Proof.
  unfold TelemetryClient.deliver, Transport.send.
  destruct (SendResult.success _); [ reflexivity | ].
  destruct (TelemetryClient._queue self); reflexivity.
Qed.

Lemma capture_send_event (self : TelemetryClient.t) (net : Network.t)
    (w : World.t) (env : Ambient.t) (call : TelemetryClient.capture_call) :
  TelemetryClient.capture self net w env call
  = TelemetryClient._send_event self net w (Ambient.random env)
      (TelemetryClient.captured_event self env call).
Proof. destruct call; reflexivity. Qed.

(** With [sample_rate] 0.0, every draw other than 0.0 drops the event
    before the hook and the transport. *)
Lemma sample_rate_zero_positive_draw (self : TelemetryClient.t)
    (net : Network.t) (w : World.t) (env : Ambient.t)
    (call : TelemetryClient.capture_call) :
  (TelemetryOptions.sample_rate (TelemetryClient._options self) == 0)%Q ->
  (0 < Ambient.random env)%Q ->
  TelemetryClient.capture self net w env call
  = (Ok (TelemetryClient.dropped
           (TelemetryClient.captured_event self env call), self), w).
Proof.
  intros Hrate Hdraw. rewrite capture_send_event.
  apply sampled_out. now rewrite Hrate.
Qed.

(** With [sample_rate] 0.0 and no hook, the draw 0.0 is not greater than
    the rate: the event goes to the transport. *)
Lemma sample_rate_zero_draw_zero (self : TelemetryClient.t)
    (net : Network.t) (w : World.t) (env : Ambient.t)
    (call : TelemetryClient.capture_call) :
  (TelemetryOptions.sample_rate (TelemetryClient._options self) == 0)%Q ->
  (Ambient.random env == 0)%Q ->
  TelemetryOptions.before_send (TelemetryClient._options self) = None ->
  World.posts (snd (TelemetryClient.capture self net w env call))
  = World.posts w
      ++ [Transport.post_request (TelemetryClient._transport self)
            (TelemetryClient.captured_event self env call)].
Proof.
  intros Hrate Hdraw Hhook. rewrite capture_send_event.
  rewrite not_sampled_out by (rewrite Hrate, Hdraw; apply Qle_refl).
  rewrite Hhook. apply deliver_posts.
Qed.

(** C7. When the [before_send] hook returns [None] for the event of a
    capture call ([capture_message] or [capture_exception]), the call
    returns [success=True] and [queued=False], and issues no POST:
    [Transport.send] is not invoked; client and queue are left as they
    were. *)
Theorem before_send_drop
    (self : TelemetryClient.t) (net : Network.t) (w : World.t)
    (env : Ambient.t) (call : TelemetryClient.capture_call)
    (hook : TelemetryEvent.t -> option TelemetryEvent.t) :
  TelemetryOptions.before_send (TelemetryClient._options self) = Some hook ->
  hook (TelemetryClient.captured_event self env call) = None ->
  exists result,
    TelemetryClient.capture self net w env call = (Ok (result, self), w)
    /\ SendResult.success result = true
    /\ SendResult.queued result = false.
Proof.
  intros Hhook Hdrop.
  exists (TelemetryClient.dropped
            (TelemetryClient.captured_event self env call)).
  split; [ | split; reflexivity ].
  rewrite capture_send_event. unfold TelemetryClient._send_event.
  destruct (Qlt_bool _ _); [ reflexivity | ].
  now rewrite Hhook, Hdrop.
Qed.

(** C4 (as the code has it). While a journey is active the event of a
    capture carries the journey's user, none when the journey has none,
    whatever the client's own user is; with no active journey it carries
    the client's current user. *)
Theorem event_user_of_journey
    (self : TelemetryClient.t) (env : Ambient.t)
    (call : TelemetryClient.capture_call) :
  TelemetryEvent.user (TelemetryClient.captured_event self env call)
  = match TelemetryClient._current_journey self with
    | Some j => Journey.get_user j
    | None => TelemetryClient._user self
    end.
Proof.
  destruct call as [ message level | error extra ]; [ reflexivity | ].
  unfold TelemetryClient.captured_event, TelemetryClient.exception_event.
  destruct extra as [ [ | kv d ] | ]; reflexivity.
Qed.

(** A journey started while the client has a user gets a copy of it. *)
Lemma start_journey_copies_user (self : TelemetryClient.t) (env : Ambient.t)
    (name : string) (u : User.t) :
  TelemetryClient._user self = Some u ->
  User.name u = None ->
  option_map Journey.get_user
    (TelemetryClient._current_journey
       (TelemetryClient.start_journey self env name))
  = Some (Some u).
Proof.
  intros Hu Hname. unfold TelemetryClient.start_journey. rewrite Hu.
  destruct u as [i e n d]. simpl in *. now subst n.
Qed.

(** ** Flush *)

(** C9. When [Transport.is_online()] returns false, [flush()] leaves the
    client, and with it the offline queue (length and contents), as it
    was, and issues no POST: [Transport.send] is not invoked. *)
Theorem flush_offline_is_noop
    (self : TelemetryClient.t) (net : Network.t) (w : World.t) :
  fst (Transport.is_online (TelemetryClient._transport self) net w) = false ->
  fst (TelemetryClient.flush self net w) = self
  /\ World.posts (snd (TelemetryClient.flush self net w)) = World.posts w.
Proof.
  intros Hoff. unfold TelemetryClient.flush, TelemetryClient._process_queue.
  destruct (TelemetryClient._queue self) as [ q | ]; [ | now split ].
  destruct (OfflineQueue.is_empty q); [ now split | ].
  destruct (Transport.is_online _ net w) as [online w1] eqn:Hprobe.
  simpl in Hoff. subst online. simpl.
  split; [ reflexivity | ].
  unfold Transport.is_online in Hprobe. now inversion Hprobe.
Qed.

Lemma remove_absent (q : OfflineQueue.t) (event_id : string) :
  ~ In event_id (map TelemetryEvent.event_id (OfflineQueue._queue q)) ->
  OfflineQueue.remove q event_id = q.
Proof.
  intros Hnotin. unfold OfflineQueue.remove.
  rewrite filter_all_true; [ now destruct q | ].
  intros e He.
  destruct (String.eqb_spec (TelemetryEvent.event_id e) event_id) as [Heq | ];
    [ | reflexivity ].
  exfalso. apply Hnotin. rewrite <- Heq. now apply in_map.
Qed.

Lemma remove_middle (q : OfflineQueue.t)
    (before after : list TelemetryEvent.t) (event : TelemetryEvent.t) :
  NoDup (map TelemetryEvent.event_id (before ++ event :: after)) ->
  OfflineQueue.remove (OfflineQueue.with_queue q (before ++ event :: after))
                      (TelemetryEvent.event_id event)
  = OfflineQueue.with_queue q (before ++ after).
Proof.
  intros Hnodup. unfold OfflineQueue.remove, OfflineQueue.with_queue.
  simpl. f_equal.
  rewrite map_app in Hnodup. simpl in Hnodup.
  pose proof (NoDup_remove_2 _ _ _ Hnodup) as Hnotin.
  rewrite filter_app. simpl. rewrite String.eqb_refl. simpl.
  rewrite <- filter_app. apply filter_all_true.
  intros e He.
  destruct (String.eqb_spec (TelemetryEvent.event_id e)
                            (TelemetryEvent.event_id event)) as [Heq | ];
    [ | reflexivity ].
  exfalso. apply Hnotin. rewrite <- Heq, <- map_app. now apply in_map.
Qed.

Lemma process_queue_loop_cons (tr : Transport.t) (net : Network.t)
    (event : TelemetryEvent.t) (rest : list TelemetryEvent.t)
    (q : OfflineQueue.t) (w : World.t) :
  TelemetryClient._process_queue_loop tr net (event :: rest) q w
  = TelemetryClient._process_queue_loop tr net rest
      (if SendResult.success (fst (Transport.send tr net w event))
       then OfflineQueue.remove q (TelemetryEvent.event_id event)
       else q)
      (snd (Transport.send tr net w event)).
Proof. reflexivity. Qed.

Lemma send_outcomes_cons (tr : Transport.t) (net : Network.t)
    (event : TelemetryEvent.t) (rest : list TelemetryEvent.t) (w : World.t) :
  TelemetryClient.send_outcomes tr net (event :: rest) w
  = SendResult.success (fst (Transport.send tr net w event))
      :: TelemetryClient.send_outcomes tr net rest
           (snd (Transport.send tr net w event)).
Proof. reflexivity. Qed.

(** What the loop of [_process_queue] does in general: it takes out of
    the queue every event whose id is the id of an event that was sent
    successfully. *)
Lemma process_queue_loop_by_id (tr : Transport.t) (net : Network.t)
    (rest : list TelemetryEvent.t) :
  forall (q : OfflineQueue.t) (w : World.t),
    fst (TelemetryClient._process_queue_loop tr net rest q w)
    = OfflineQueue.with_queue q
        (filter
           (fun e =>
              negb (existsb (String.eqb (TelemetryEvent.event_id e))
                      (TelemetryClient.sent_ids rest
                         (TelemetryClient.send_outcomes tr net rest w))))
           (OfflineQueue._queue q)).
Proof.
  induction rest as [ | event rest IH ]; intros q w.
  - simpl. rewrite filter_all_true by reflexivity. now destruct q.
  - rewrite process_queue_loop_cons, send_outcomes_cons.
    destruct (SendResult.success (fst (Transport.send tr net w event)));
      rewrite IH.
    + unfold OfflineQueue.remove, OfflineQueue.with_queue. simpl.
      f_equal. rewrite filter_filter. apply filter_ext.
      intros e. unfold TelemetryClient.sent_ids. simpl.
      now rewrite negb_orb.
    + reflexivity.
Qed.

(** The loop of [_process_queue]: with distinct ids, the events before the
    cursor that failed stay, and so do those after it that will fail. *)
Lemma process_queue_loop_unsent (tr : Transport.t) (net : Network.t)
    (q : OfflineQueue.t) (rest : list TelemetryEvent.t) :
  forall (kept : list TelemetryEvent.t) (w : World.t),
    NoDup (map TelemetryEvent.event_id (kept ++ rest)) ->
    fst (TelemetryClient._process_queue_loop tr net rest
           (OfflineQueue.with_queue q (kept ++ rest)) w)
    = OfflineQueue.with_queue q
        (kept ++ TelemetryClient.unsent rest
                   (TelemetryClient.send_outcomes tr net rest w)).
Proof.
  induction rest as [ | event rest IH ]; intros kept w Hnodup.
  - reflexivity.
  - rewrite process_queue_loop_cons, send_outcomes_cons.
    destruct (SendResult.success (fst (Transport.send tr net w event))).
    + rewrite remove_middle by exact Hnodup.
      rewrite IH; [ reflexivity | ].
      rewrite map_app in *. simpl in Hnodup.
      now apply NoDup_remove_1 in Hnodup.
    + replace (kept ++ event :: rest) with ((kept ++ [event]) ++ rest)
        by now rewrite <- app_assoc.
      rewrite IH by now rewrite <- app_assoc.
      unfold TelemetryClient.unsent. simpl.
      now rewrite <- app_assoc.
Qed.

(** C2 (as the code has it). On a non-empty queue whose events have
    pairwise distinct ids, a [flush()] that finds the transport online
    leaves in the queue exactly the events whose [Transport.send] did not
    succeed, in their original relative order. *)
Theorem flush_removes_sent
    (self : TelemetryClient.t) (net : Network.t) (w : World.t)
    (q : OfflineQueue.t) :
  TelemetryClient._queue self = Some q ->
  OfflineQueue._queue q <> [] ->
  fst (Transport.is_online (TelemetryClient._transport self) net w) = true ->
  NoDup (map TelemetryEvent.event_id (OfflineQueue._queue q)) ->
  TelemetryClient._queue (fst (TelemetryClient.flush self net w))
  = Some (OfflineQueue.with_queue q
            (TelemetryClient.unsent (OfflineQueue._queue q)
               (TelemetryClient.send_outcomes
                  (TelemetryClient._transport self) net (OfflineQueue._queue q)
                  (snd (Transport.is_online
                          (TelemetryClient._transport self) net w))))).
Proof.
  intros Hq Hnonempty Honline Hnodup.
  unfold TelemetryClient.flush, TelemetryClient._process_queue.
  rewrite Hq.
  assert (Hne : OfflineQueue.is_empty q = false).
  { unfold OfflineQueue.is_empty.
    destruct (OfflineQueue._queue q); [ congruence | reflexivity ]. }
  rewrite Hne.
  destruct (Transport.is_online _ net w) as [online w1].
  simpl in Honline. subst online. simpl negb. cbv iota.
  unfold OfflineQueue.get_all.
  pose proof (process_queue_loop_unsent
                (TelemetryClient._transport self) net q
                (OfflineQueue._queue q) [] w1 Hnodup) as Hloop.
  simpl app in Hloop.
  replace (OfflineQueue.with_queue q (OfflineQueue._queue q)) with q in Hloop
    by now destruct q.
  destruct (TelemetryClient._process_queue_loop _ net _ q w1) as [q' w2].
  simpl in Hloop. subst q'. reflexivity.
Qed.
(** ** Storage format of the offline queue *)

Lemma expect_opt_str_opt_str (o : option string) :
  expect_opt_str (opt_str o) = Ok o.
Proof. now destruct o. Qed.

Lemma expect_opt_int_opt_int (o : option Z) :
  expect_opt_int (opt_int o) = Ok o.
Proof. now destruct o. Qed.

Lemma expect_opt_dict_opt_dict (o : option pydict) :
  expect_opt_dict (opt_dict o) = Ok o.
Proof. now destruct o. Qed.

Lemma SeverityLevel_call_value (l : SeverityLevel) :
  SeverityLevel_call (PStr (SeverityLevel_value l)) = Ok l.
Proof. now destruct l. Qed.

Lemma BreadcrumbCategory_call_value (c : BreadcrumbCategory) :
  BreadcrumbCategory_call (PStr (BreadcrumbCategory_value c)) = Ok c.
Proof. now destruct c. Qed.

Lemma datetime_fromisoformat_isoformat (d : datetime) :
  datetime_fromisoformat (PStr (isoformat d)) = Ok d.
Proof. unfold datetime_fromisoformat. now rewrite fromisoformat_isoformat. Qed.

(** Look the keys up in the literal dict, then undo each field encoding. *)
Ltac lookup :=
  cbn - [opt_str opt_int opt_dict expect_opt_str expect_opt_int
         expect_opt_dict SeverityLevel_call SeverityLevel_value
         BreadcrumbCategory_call BreadcrumbCategory_value
         datetime_fromisoformat isoformat mapM map truthy].

Ltac decode :=
  repeat (lookup;
          rewrite ?expect_opt_str_opt_str, ?expect_opt_int_opt_int,
            ?expect_opt_dict_opt_dict, ?SeverityLevel_call_value,
            ?BreadcrumbCategory_call_value,
            ?datetime_fromisoformat_isoformat).

Lemma deserialize_frames (frames : list StackFrame.t) :
  mapM OfflineQueue._deserialize_frame
       (map OfflineQueue._serialize_frame frames)
  = Ok (map OfflineQueue.stored_frame frames).
Proof.
  induction frames as [ | f frames IH ]; [ reflexivity | ].
  cbn [map mapM]. rewrite IH.
  destruct f as [fn file line col ctx].
  unfold OfflineQueue._deserialize_frame, OfflineQueue._serialize_frame.
  decode. reflexivity.
Qed.

Lemma deserialize_breadcrumbs (bs : list Breadcrumb.t) :
  mapM OfflineQueue._deserialize_breadcrumb
       (map OfflineQueue._serialize_breadcrumb bs)
  = Ok bs.
Proof.
  induction bs as [ | b bs IH ]; [ reflexivity | ].
  cbn [map mapM]. rewrite IH.
  destruct b as [ts cat msg lvl dat].
  unfold OfflineQueue._deserialize_breadcrumb,
    OfflineQueue._serialize_breadcrumb.
  decode. reflexivity.
Qed.

Lemma deserialize_exception (event : TelemetryEvent.t) :
  OfflineQueue._deserialize_exception (OfflineQueue._serialize_event event)
  = Ok (option_map OfflineQueue.stored_exception
          (TelemetryEvent.exception event)).
Proof.
  unfold OfflineQueue._deserialize_exception, OfflineQueue._serialize_event.
  destruct (TelemetryEvent.exception event) as [ [ty msg st] | ];
    [ | reflexivity ].
  destruct st as [ [ | f frames ] | ]; [ reflexivity | | reflexivity ].
  lookup. cbn [truthy map]. lookup.
  change (OfflineQueue._serialize_frame f
            :: map OfflineQueue._serialize_frame frames)
    with (map OfflineQueue._serialize_frame (f :: frames)).
  rewrite deserialize_frames. reflexivity.
Qed.

Lemma deserialize_user (event : TelemetryEvent.t) :
  OfflineQueue._deserialize_user (OfflineQueue._serialize_event event)
  = Ok (option_map OfflineQueue.stored_user (TelemetryEvent.user event)).
Proof.
  unfold OfflineQueue._deserialize_user, OfflineQueue._serialize_event.
  destruct (TelemetryEvent.user event) as [ [uid mail nm dat] | ];
    [ | reflexivity ].
  lookup. cbn [truthy]. decode. reflexivity.
Qed.

Lemma deserialize_journey (event : TelemetryEvent.t) :
  OfflineQueue._deserialize_journey (OfflineQueue._serialize_event event)
  = Ok (TelemetryEvent.journey event).
Proof.
  unfold OfflineQueue._deserialize_journey, OfflineQueue._serialize_event.
  destruct (TelemetryEvent.journey event) as [ [jid nm started step meta] | ];
    [ | reflexivity ].
  lookup. cbn [truthy]. decode. reflexivity.
Qed.

Lemma deserialize_platform (event : TelemetryEvent.t) :
  OfflineQueue._deserialize_platform (OfflineQueue._serialize_event event)
  = Ok (TelemetryEvent.platform event).
Proof.
  unfold OfflineQueue._deserialize_platform, OfflineQueue._serialize_event.
  destruct (TelemetryEvent.platform event) as [nm ver os].
  decode. reflexivity.
Qed.

(** The round trip never raises, and returns the event with exactly the
    slot-less fields reset. *)
Lemma deserialize_serialize_stored_form (event : TelemetryEvent.t) :
  OfflineQueue._deserialize_event (OfflineQueue._serialize_event event)
  = Ok (OfflineQueue.stored_form event).
Proof.
  unfold OfflineQueue._deserialize_event.
  rewrite deserialize_exception, deserialize_user, deserialize_journey,
    deserialize_platform.
  cbn [bind].
  unfold OfflineQueue._serialize_event.
  lookup. rewrite deserialize_breadcrumbs.
  decode. reflexivity.
Qed.

Lemma stored_frames_fixed (frames : list StackFrame.t) :
  map OfflineQueue.stored_frame frames = frames
  <-> forallb OfflineQueue.frame_storable frames = true.
Proof.
  induction frames as [ | f frames IH ]; [ now split | ].
  cbn [map forallb]. rewrite andb_true_iff, <- IH.
  destruct f as [fn file line [col | ] [ctx | ]];
    unfold OfflineQueue.stored_frame, OfflineQueue.frame_storable; simpl;
    split; intros H;
    try (injection H as H; now split);
    try (destruct H as [H _]; discriminate H);
    try (injection H; intros; discriminate).
  destruct H as [_ H]. now rewrite H.
Qed.

Lemma stored_exception_fixed (exc : ExceptionInfo.t) :
  OfflineQueue.stored_exception exc = exc
  <-> OfflineQueue.exception_storable exc = true.
Proof.
  destruct exc as [ty msg [ [ | f frames ] | ]];
    unfold OfflineQueue.stored_exception, OfflineQueue.exception_storable;
    cbn [ExceptionInfo.stacktrace ExceptionInfo.type ExceptionInfo.message].
  - split; intros H; discriminate H.
  - rewrite <- stored_frames_fixed.
    split; intros H; congruence.
  - now split.
Qed.

Lemma stored_user_fixed (u : User.t) :
  OfflineQueue.stored_user u = u <-> OfflineQueue.user_storable u = true.
Proof.
  destruct u as [uid mail [nm | ] dat];
    unfold OfflineQueue.stored_user, OfflineQueue.user_storable; simpl;
    split; intros H; try discriminate H; reflexivity.
Qed.

Lemma stored_form_fixed (event : TelemetryEvent.t) :
  OfflineQueue.stored_form event = event
  <-> OfflineQueue.storable event = true.
Proof.
  unfold OfflineQueue.storable. rewrite andb_true_iff.
  destruct event as [eid ts lvl plat tg ex bs msg exc usr jrn env ver].
  unfold OfflineQueue.stored_form. simpl.
  split.
  - intros H. injection H as Hexc Husr. split.
    + destruct exc as [exc | ]; [ | reflexivity ].
      apply stored_exception_fixed. simpl in Hexc. now injection Hexc.
    + destruct usr as [usr | ]; [ | reflexivity ].
      apply stored_user_fixed. simpl in Husr. now injection Husr.
  - intros [Hexc Husr]. f_equal.
    + destruct exc as [exc | ]; [ | reflexivity ].
      simpl. f_equal. now apply stored_exception_fixed.
    + destruct usr as [usr | ]; [ | reflexivity ].
      simpl. f_equal. now apply stored_user_fixed.
Qed.

(** C1 (as the code has it). [_deserialize_event] applied to
    [_serialize_event] returns the original event, breadcrumbs, exception
    with its stack frames, journey context and user included, for every
    event the storage format can hold: no frame has a [context] or a
    [colno], the user has no [name], and the stack trace is not an empty
    list. *)
Theorem deserialize_serialize (event : TelemetryEvent.t) :
  OfflineQueue.storable event = true ->
  OfflineQueue._deserialize_event (OfflineQueue._serialize_event event)
  = Ok event.
Proof.
  intros Hok. rewrite deserialize_serialize_stored_form.
  f_equal. now apply stored_form_fixed.
Qed.

(** These are the only events that come back unchanged. *)
Lemma deserialize_serialize_only_storable (event : TelemetryEvent.t) :
  OfflineQueue._deserialize_event (OfflineQueue._serialize_event event)
  = Ok event ->
  OfflineQueue.storable event = true.
Proof.
  rewrite deserialize_serialize_stored_form. intros H.
  apply stored_form_fixed. now injection H.
Qed.
End Properties.

(** * Further properties of the code *)

Section MoreListFacts.
Context {A : Type}.
Implicit Types l : list A.

Lemma lastn_snoc (n : nat) l (x : A) :
  (1 <= n)%nat -> lastn n (l ++ [x]) = lastn (n - 1) l ++ [x].
Proof.
  intros Hn. unfold lastn. rewrite skipn_app, length_app. cbn [length].
  replace (length l + 1 - n - length l)%nat with 0%nat by lia.
  cbn [skipn]. do 2 f_equal. lia.
Qed.

Lemma mapM_map {B C : Type} (f : A -> B) (g : B -> result C) l :
  mapM g (map f l) = mapM (fun a => g (f a)) l.
Proof.
  induction l as [ | a l IH ]; [ reflexivity | ].
  cbn [map mapM]. now rewrite IH.
Qed.

Lemma mapM_ok {B : Type} (f : A -> result B) (h : A -> B) l :
  (forall a, In a l -> f a = Ok (h a)) -> mapM f l = Ok (map h l).
Proof.
  induction l as [ | a l IH ]; intros H; [ reflexivity | ].
  cbn [map mapM]. rewrite (H a) by now left.
  rewrite IH by (intros b Hb; apply H; now right).
  reflexivity.
Qed.

End MoreListFacts.

Section MoreProperties.
Context {DT : DateTimeLib}.

(** ** Breadcrumb buffer: bound and degenerate capacities *)

(** X1. With [max_breadcrumbs >= 1], the buffer holds at most
    [max_breadcrumbs] entries after any call of [add_breadcrumb], whatever
    it held before, and the entry just added is the last one. *)
Theorem add_breadcrumb_bounded
    (self : BreadcrumbManager.t) (b : Breadcrumb.t) :
  1 <= BreadcrumbManager._max_breadcrumbs self ->
  BreadcrumbManager.count (BreadcrumbManager.add_breadcrumb self b)
  <= BreadcrumbManager._max_breadcrumbs self
  /\ exists older,
      BreadcrumbManager.get_all (BreadcrumbManager.add_breadcrumb self b)
      = older ++ [b].
Proof.
  intros Hmax. unfold BreadcrumbManager.count, BreadcrumbManager.get_all.
  rewrite add_breadcrumb_lastn by exact Hmax. split.
  - rewrite lastn_length. lia.
  - rewrite lastn_snoc by lia. eauto.
Qed.

Lemma add_breadcrumb_zero_capacity
    (self : BreadcrumbManager.t) (b : Breadcrumb.t) :
  BreadcrumbManager._max_breadcrumbs self = 0 ->
  BreadcrumbManager.add_breadcrumb self b
  = {| BreadcrumbManager._max_breadcrumbs := 0;
       BreadcrumbManager._breadcrumbs :=
         BreadcrumbManager._breadcrumbs self ++ [b] |}.
Proof.
  intros Hmax. unfold BreadcrumbManager.add_breadcrumb. rewrite Hmax.
  f_equal.
  destruct (Z.of_nat _ >? 0); [ | reflexivity ].
  unfold slice_from. cbn [Z.opp Z.ltb Z.compare].
  rewrite Z.min_l by lia. reflexivity.
Qed.

(** X2. With [max_breadcrumbs = 0] the trim [[-0:]] is the whole list:
    nothing is ever dropped and the buffer grows with every [add]. *)
Theorem breadcrumbs_zero_capacity_keeps_all
    (calls : list BreadcrumbManager.add_call) :
  forall self : BreadcrumbManager.t,
    BreadcrumbManager._max_breadcrumbs self = 0 ->
    BreadcrumbManager.get_all (BreadcrumbManager.add_all self calls)
    = BreadcrumbManager.get_all self
        ++ map BreadcrumbManager.breadcrumb_of calls.
Proof.
  unfold BreadcrumbManager.get_all.
  induction calls as [ | c calls IH ]; intros self Hmax.
  - simpl. now rewrite app_nil_r.
  - change (BreadcrumbManager.add_all self (c :: calls))
      with (BreadcrumbManager.add_all
              (BreadcrumbManager.add_breadcrumb
                 self (BreadcrumbManager.breadcrumb_of c)) calls).
    rewrite add_breadcrumb_zero_capacity by exact Hmax.
    rewrite IH by reflexivity.
    cbn [BreadcrumbManager._breadcrumbs map].
    now rewrite <- app_assoc.
Qed.

(** X3. With a negative [max_breadcrumbs], a manager that starts empty
    never keeps a breadcrumb: the slice [[-max:]] starts past the end. *)
Theorem breadcrumbs_negative_capacity_keeps_none
    (calls : list BreadcrumbManager.add_call) :
  forall self : BreadcrumbManager.t,
    BreadcrumbManager._max_breadcrumbs self < 0 ->
    BreadcrumbManager.get_all self = [] ->
    BreadcrumbManager.get_all (BreadcrumbManager.add_all self calls) = [].
Proof.
  unfold BreadcrumbManager.get_all.
  induction calls as [ | c calls IH ]; intros self Hmax Hempty.
  - exact Hempty.
  - change (BreadcrumbManager.add_all self (c :: calls))
      with (BreadcrumbManager.add_all
              (BreadcrumbManager.add_breadcrumb
                 self (BreadcrumbManager.breadcrumb_of c)) calls).
    apply IH; [ exact Hmax | ].
    unfold BreadcrumbManager.add_breadcrumb.
    cbn [BreadcrumbManager._breadcrumbs]. rewrite Hempty. cbn [app length].
    destruct (Z.gtb_spec (Z.of_nat 1) (BreadcrumbManager._max_breadcrumbs self))
      as [ _ | H ]; [ | lia ].
    unfold slice_from. cbn [length].
    destruct (Z.ltb_spec (- BreadcrumbManager._max_breadcrumbs self) 0);
      [ lia | ].
    rewrite Z.min_r by lia. reflexivity.
Qed.

(** ** Offline queue *)

(** X4. At or above capacity (with [max_size >= 1]), [enqueue] drops
    exactly the oldest entry and appends the new event: the size does not
    change. *)
Theorem enqueue_at_capacity_evicts_oldest
    (self : OfflineQueue.t) (event oldest : TelemetryEvent.t)
    (rest : list TelemetryEvent.t) :
  OfflineQueue._queue self = oldest :: rest ->
  OfflineQueue._max_size self <= OfflineQueue.size self ->
  OfflineQueue.enqueue self event
  = Ok (OfflineQueue.with_queue self (rest ++ [event]))
  /\ OfflineQueue.size (OfflineQueue.with_queue self (rest ++ [event]))
     = OfflineQueue.size self.
Proof.
  intros Hq Hfull. unfold OfflineQueue.size in *.
  unfold OfflineQueue.enqueue. rewrite Hq in *.
  destruct (Z.geb_spec (Z.of_nat (length (oldest :: rest)))
                       (OfflineQueue._max_size self)); [ | lia ].
  split; [ reflexivity | ].
  cbn [OfflineQueue.with_queue OfflineQueue._queue].
  rewrite length_app. cbn [length]. lia.
Qed.

(** X5. [enqueue] keeps the bound: a queue of at most [max_size] entries
    ([max_size >= 1]) still has at most [max_size] entries afterwards,
    the same [max_size], and the new event at its end. *)
Theorem enqueue_keeps_bound
    (self : OfflineQueue.t) (event : TelemetryEvent.t) :
  1 <= OfflineQueue._max_size self ->
  OfflineQueue.size self <= OfflineQueue._max_size self ->
  exists q,
    OfflineQueue.enqueue self event = Ok q
    /\ OfflineQueue._max_size q = OfflineQueue._max_size self
    /\ OfflineQueue.size q <= OfflineQueue._max_size self
    /\ exists older, OfflineQueue.get_all q = older ++ [event].
Proof.
  intros Hmax Hinv. unfold OfflineQueue.size in *.
  rewrite enqueue_lastn by assumption.
  eexists. split; [ reflexivity | ].
  cbn [OfflineQueue.with_queue OfflineQueue._max_size OfflineQueue._queue
       OfflineQueue.get_all].
  split; [ reflexivity | ]. split.
  - rewrite lastn_length. lia.
  - rewrite lastn_snoc by lia. eauto.
Qed.

(** X6. [remove] takes out every entry with the given id and nothing
    else: no entry with that id is left, entries with another id are kept,
    and removing the same id again changes nothing. *)
Theorem remove_clears_id (q : OfflineQueue.t) (event_id : string) :
  ~ In event_id
      (map TelemetryEvent.event_id
           (OfflineQueue.get_all (OfflineQueue.remove q event_id)))
  /\ (forall e,
        TelemetryEvent.event_id e <> event_id ->
        In e (OfflineQueue.get_all q) ->
        In e (OfflineQueue.get_all (OfflineQueue.remove q event_id)))
  /\ OfflineQueue.remove (OfflineQueue.remove q event_id) event_id
     = OfflineQueue.remove q event_id.
Proof.
  unfold OfflineQueue.remove, OfflineQueue.get_all.
  cbn [OfflineQueue.with_queue OfflineQueue._queue
       OfflineQueue._max_size OfflineQueue._debug].
  split; [ | split ].
  - rewrite in_map_iff. intros [e [Hid Hin]].
    apply filter_In in Hin as [_ Hneq].
    rewrite Hid, String.eqb_refl in Hneq. discriminate.
  - intros e Hneq Hin. apply filter_In. split; [ exact Hin | ].
    now apply String.eqb_neq in Hneq as ->.
  - unfold OfflineQueue.with_queue. simpl. f_equal.
    rewrite filter_filter. apply filter_ext.
    intros e. now rewrite andb_diag.
Qed.

(** X7. Removing an id that no queued event has leaves the queue as it
    is. *)
Theorem remove_absent_id (q : OfflineQueue.t) (event_id : string) :
  ~ In event_id (map TelemetryEvent.event_id (OfflineQueue.get_all q)) ->
  OfflineQueue.remove q event_id = q.
Proof.
  intros Hnotin. unfold OfflineQueue.remove, OfflineQueue.get_all in *.
  rewrite filter_all_true; [ now destruct q | ].
  intros e He.
  destruct (String.eqb_spec (TelemetryEvent.event_id e) event_id)
    as [ Heq | ]; [ | reflexivity ].
  exfalso. apply Hnotin. rewrite <- Heq. now apply in_map.
Qed.
(** ** Queue file: load after save, corrupt entries, required keys *)

Lemma deserialize_saved (events : list TelemetryEvent.t) :
  mapM OfflineQueue._deserialize_event
       (map OfflineQueue._serialize_event events)
  = Ok (map OfflineQueue.stored_form events).
Proof.
  rewrite mapM_map. apply mapM_ok.
  intros e _. apply deserialize_serialize_stored_form.
Qed.

(** X8. A queue built from the payload another queue saved holds the
    same events in the same order when every one of them fits the storage
    format; the new queue's [max_size] plays no part, so the loaded queue
    may be longer than [max_size]. *)
Theorem load_saved_queue
    (saved : OfflineQueue.t) (max_size : Z) (debug : bool) :
  forallb OfflineQueue.storable (OfflineQueue._queue saved) = true ->
  OfflineQueue.get_all
    (OfflineQueue.init max_size debug
       (Some (OfflineQueue._save_payload saved)))
  = OfflineQueue.get_all saved.
Proof.
  intros Hok.
  unfold OfflineQueue.init, OfflineQueue._load, OfflineQueue._save_payload.
  cbn [py_iter bind]. rewrite deserialize_saved.
  cbn [OfflineQueue.get_all OfflineQueue.with_queue OfflineQueue._queue].
  unfold OfflineQueue.get_all.
  rewrite forallb_forall in Hok.
  rewrite <- (map_id (OfflineQueue._queue saved)) at 2.
  apply map_ext_in. intros e He.
  apply stored_form_fixed. now apply Hok.
Qed.


Lemma dict_item_in (k : string) (d : pydict) (v : pyval) :
  dict_item k d = Ok v -> In k (map fst d).
Proof.
  induction d as [ | [k' v'] d IH ]; simpl; [ discriminate | ].
  destruct (String.eqb_spec k' k); [ now left | right; now apply IH ].
Qed.

Ltac step_bind H :=
  match type of H with
  | bind ?r _ = Ok _ =>
      let v := fresh "v" in
      let E := fresh "E" in
      destruct r as [ v | ] eqn:E; [ cbn [bind] in H | discriminate H ]
  end.

(** X10. A stored entry deserializes only when it has the keys
    [event_id], [timestamp] and [level]; the event then carries the stored
    [event_id]. *)
Theorem deserialize_requires_keys (d : pydict) (event : TelemetryEvent.t) :
  OfflineQueue._deserialize_event (PDict d) = Ok event ->
  dict_item "event_id" d = Ok (PStr (TelemetryEvent.event_id event))
  /\ In "timestamp" (map fst d)
  /\ In "level" (map fst d).
Proof.
  intros H. unfold OfflineQueue._deserialize_event in H.
  do 6 step_bind H.
  step_bind H. step_bind H.
  step_bind H. step_bind H.
  step_bind H. step_bind H.
  repeat step_bind H.
  injection H as <-. cbn [TelemetryEvent.event_id].
  cbn [subscript] in *.
  repeat split.
  - match goal with
    | Hs : expect_str ?x = Ok ?s, Hi : dict_item "event_id" d = Ok ?x |- _ =>
        destruct x; try discriminate Hs; cbn in Hs;
        injection Hs as <-; exact Hi
    end.
  - match goal with
    | Hi : dict_item "timestamp" d = Ok _ |- _ => exact (dict_item_in _ _ _ Hi)
    end.
  - match goal with
    | Hi : dict_item "level" d = Ok _ |- _ => exact (dict_item_in _ _ _ Hi)
    end.
Qed.

(** X11. An entry with nothing but [event_id], [timestamp] and [level]
    deserializes to an event with the defaults of the loader: no message,
    exception, user or journey, empty tags, extra and breadcrumbs, and the
    platform named [python]. *)
Theorem deserialize_minimal_entry
    (event_id : string) (timestamp : datetime) (level : SeverityLevel) :
  OfflineQueue._deserialize_event
    (PDict [("event_id", PStr event_id);
            ("timestamp", PStr (isoformat timestamp));
            ("level", PStr (SeverityLevel_value level))])
  = Ok {| TelemetryEvent.event_id := event_id;
          TelemetryEvent.timestamp := timestamp;
          TelemetryEvent.level := level;
          TelemetryEvent.platform :=
            {| PlatformInfo.name := "python";
               PlatformInfo.version := None;
               PlatformInfo.os := None |};
          TelemetryEvent.tags := [];
          TelemetryEvent.extra := [];
          TelemetryEvent.breadcrumbs := [];
          TelemetryEvent.message := None;
          TelemetryEvent.exception := None;
          TelemetryEvent.user := None;
          TelemetryEvent.journey := None;
          TelemetryEvent.environment := None;
          TelemetryEvent.app_version := None |}.
Proof.
  unfold OfflineQueue._deserialize_event, OfflineQueue._deserialize_exception,
    OfflineQueue._deserialize_user, OfflineQueue._deserialize_journey,
    OfflineQueue._deserialize_platform.
  cbn - [datetime_fromisoformat isoformat SeverityLevel_call
         SeverityLevel_value].
  rewrite datetime_fromisoformat_isoformat. cbn [bind].
  rewrite SeverityLevel_call_value. reflexivity.
Qed.

(** X12. The enum constructors accept exactly the values of the enum:
    [SeverityLevel(s)] and [BreadcrumbCategory(s)] return a member if and
    only if [s] is that member's value, and raise otherwise. *)
Theorem enum_of_value_exact (s : string) :
  (forall l, SeverityLevel_of s = Ok l <-> SeverityLevel_value l = s)
  /\ (forall c,
        BreadcrumbCategory_of s = Ok c <-> BreadcrumbCategory_value c = s).
Proof.
  split.
  - intros l. split.
    + unfold SeverityLevel_of.
      repeat match goal with
             | |- context [String.eqb s ?v] =>
                 destruct (String.eqb_spec s v);
                 [ intros H; injection H as <-; now subst | ]
             end.
      discriminate.
    + intros <-. now destruct l.
  - intros c. split.
    + unfold BreadcrumbCategory_of.
      repeat match goal with
             | |- context [String.eqb s ?v] =>
                 destruct (String.eqb_spec s v);
                 [ intros H; injection H as <-; now subst | ]
             end.
      discriminate.
    + intros <-. now destruct c.
Qed.
(** ** Capture: what a result says, what reaches the network *)

Lemma interpret_reply_consistent (event : TelemetryEvent.t)
    (reply : result Response.t) :
  (SendResult.success (Transport.interpret_reply event reply) = true
   <-> SendResult.error (Transport.interpret_reply event reply) = None)
  /\ SendResult.queued (Transport.interpret_reply event reply) = false.
Proof.
  unfold Transport.interpret_reply.
  destruct reply as [ response | e ]; [ | now split ].
  destruct (Response.status_code response >=? 400); [ now split | ].
  destruct (Response.json response) as [ body | e ]; [ | now split ].
  destruct body; now split.
Qed.

Lemma enqueue_appends (q q' : OfflineQueue.t) (event : TelemetryEvent.t) :
  OfflineQueue.enqueue q event = Ok q' ->
  exists older, OfflineQueue.get_all q' = older ++ [event].
Proof.
  unfold OfflineQueue.enqueue.
  destruct (_ >=? _).
  - destruct (OfflineQueue._queue q) as [ | oldest rest ];
      [ discriminate | ].
    cbn. intros H. injection H as <-. now exists rest.
  - cbn. intros H. injection H as <-. now exists (OfflineQueue._queue q).
Qed.

(** X13. Whatever a capture call returns, [error] is set exactly when
    [success] is false, and a result flagged [queued] is never a
    success. *)
Theorem capture_result_consistent
    (self self' : TelemetryClient.t) (net : Network.t) (w : World.t)
    (env : Ambient.t) (call : TelemetryClient.capture_call)
    (result : SendResult.t) :
  fst (TelemetryClient.capture self net w env call) = Ok (result, self') ->
  (SendResult.success result = true <-> SendResult.error result = None)
  /\ (SendResult.queued result = true -> SendResult.success result = false).
Proof.
  rewrite capture_send_event.
  set (event := TelemetryClient.captured_event self env call).
  assert (Hdeliver : forall ev,
    fst (TelemetryClient.deliver self net w ev) = Ok (result, self') ->
    (SendResult.success result = true <-> SendResult.error result = None)
    /\ (SendResult.queued result = true
        -> SendResult.success result = false)).
  { intros ev. unfold TelemetryClient.deliver, Transport.send.
    pose proof (interpret_reply_consistent ev
                  (Network.post_reply net (length (World.posts w))))
      as [Hiff Hq].
    destruct (SendResult.success (Transport.interpret_reply ev _)) eqn:Hs.
    - cbn. intros H. injection H as <- <-. rewrite Hs, Hq.
      split; [ exact Hiff | discriminate ].
    - destruct (TelemetryClient._queue self) as [ q | ].
      + cbn. destruct (OfflineQueue.enqueue q ev); [ | discriminate ].
        cbn. intros H. injection H as <- <-. cbn.
        split; [ | reflexivity ].
        split; [ discriminate | ].
        intros Hnone. apply Hiff in Hnone. discriminate.
      + cbn. intros H. injection H as <- <-. rewrite Hs, Hq.
        split; [ exact Hiff | discriminate ]. }
  unfold TelemetryClient._send_event.
  destruct (Qlt_bool _ _).
  - cbn. intros H. injection H as <- <-. cbn. split; [ now split | discriminate ].
  - destruct (TelemetryOptions.before_send _) as [ hook | ];
      [ | apply Hdeliver ].
    destruct (hook event) as [ ev | ]; [ apply Hdeliver | ].
    cbn. intros H. injection H as <- <-. cbn.
    split; [ now split | discriminate ].
Qed.

(** X14. A capture that passes the sampling test, has no hook and whose
    send fails on a client with a queue of capacity at least 1 returns
    [success=False], [queued=True], the local event id and the
    transport's error; the event is then the last entry of the queue. *)
Theorem capture_failure_is_queued
    (self : TelemetryClient.t) (net : Network.t) (w : World.t)
    (env : Ambient.t) (call : TelemetryClient.capture_call)
    (q : OfflineQueue.t) :
  (Ambient.random env
   <= TelemetryOptions.sample_rate (TelemetryClient._options self))%Q ->
  TelemetryOptions.before_send (TelemetryClient._options self) = None ->
  TelemetryClient._queue self = Some q ->
  1 <= OfflineQueue._max_size q ->
  SendResult.success
    (fst (Transport.send (TelemetryClient._transport self) net w
            (TelemetryClient.captured_event self env call)))
  = false ->
  exists q' older,
    fst (TelemetryClient.capture self net w env call)
    = Ok ({| SendResult.success := false;
             SendResult.event_id :=
               PStr (TelemetryEvent.event_id
                       (TelemetryClient.captured_event self env call));
             SendResult.error :=
               SendResult.error
                 (fst (Transport.send (TelemetryClient._transport self) net w
                         (TelemetryClient.captured_event self env call)));
             SendResult.queued := true |},
          TelemetryClient.with_queue self (Some q'))
    /\ OfflineQueue.get_all q'
       = older ++ [TelemetryClient.captured_event self env call].
Proof.
  intros Hdraw Hhook Hq Hmax Hfail.
  rewrite capture_send_event, not_sampled_out by exact Hdraw.
  rewrite Hhook.
  set (event := TelemetryClient.captured_event self env call) in *.
  destruct (enqueue_total q event Hmax) as [q' Hq'].
  destruct (enqueue_appends q q' event Hq') as [older Holder].
  exists q', older. split; [ | exact Holder ].
  unfold TelemetryClient.deliver.
  destruct (Transport.send _ net w event) as [r w'].
  cbn [fst] in Hfail. rewrite Hfail, Hq, Hq'. reflexivity.
Qed.

(** X15. A capture call never issues a health probe and issues at most
    one POST. *)
Theorem capture_network_footprint
    (self : TelemetryClient.t) (net : Network.t) (w : World.t)
    (env : Ambient.t) (call : TelemetryClient.capture_call) :
  World.gets (snd (TelemetryClient.capture self net w env call))
  = World.gets w
  /\ (World.posts (snd (TelemetryClient.capture self net w env call))
      = World.posts w
      \/ exists request,
          World.posts (snd (TelemetryClient.capture self net w env call))
          = World.posts w ++ [request]).
Proof.
  rewrite capture_send_event.
  set (event := TelemetryClient.captured_event self env call).
  assert (Hdeliver : forall ev,
    World.gets (snd (TelemetryClient.deliver self net w ev)) = World.gets w
    /\ exists request,
        World.posts (snd (TelemetryClient.deliver self net w ev))
        = World.posts w ++ [request]).
  { intros ev. split; [ | rewrite deliver_posts; eauto ].
    unfold TelemetryClient.deliver, Transport.send.
    destruct (SendResult.success _); [ reflexivity | ].
    destruct (TelemetryClient._queue self); reflexivity. }
  unfold TelemetryClient._send_event.
  destruct (Qlt_bool _ _); [ now split; [ | left ] | ].
  destruct (TelemetryOptions.before_send _) as [ hook | ].
  - destruct (hook event) as [ ev | ]; [ | now split; [ | left ] ].
    destruct (Hdeliver ev) as [Hg Hp]. now split; [ | right ].
  - destruct (Hdeliver event) as [Hg Hp]. now split; [ | right ].
Qed.

(** ** Flush: requests issued, entries removed *)

Lemma process_queue_loop_world (tr : Transport.t) (net : Network.t)
    (rest : list TelemetryEvent.t) :
  forall (q : OfflineQueue.t) (w : World.t),
    snd (TelemetryClient._process_queue_loop tr net rest q w)
    = {| World.posts := World.posts w ++ map (Transport.post_request tr) rest;
         World.gets := World.gets w |}.
Proof.
  induction rest as [ | event rest IH ]; intros q w.
  - cbn. rewrite app_nil_r. now destruct w.
  - rewrite process_queue_loop_cons, IH. cbn.
    now rewrite <- app_assoc.
Qed.

(** X16. A flush that finds a non-empty queue and the transport online
    issues one health probe and then exactly one POST per queued event, in
    queue order, whatever the outcomes of the sends. *)
Theorem flush_posts_each_once
    (self : TelemetryClient.t) (net : Network.t) (w : World.t)
    (q : OfflineQueue.t) :
  TelemetryClient._queue self = Some q ->
  OfflineQueue._queue q <> [] ->
  fst (Transport.is_online (TelemetryClient._transport self) net w) = true ->
  World.posts (snd (TelemetryClient.flush self net w))
  = World.posts w
      ++ map (Transport.post_request (TelemetryClient._transport self))
             (OfflineQueue.get_all q)
  /\ length (World.gets (snd (TelemetryClient.flush self net w)))
     = S (length (World.gets w)).
Proof.
  intros Hq Hnonempty Honline.
  unfold TelemetryClient.flush, TelemetryClient._process_queue.
  rewrite Hq.
  assert (Hne : OfflineQueue.is_empty q = false).
  { unfold OfflineQueue.is_empty.
    destruct (OfflineQueue._queue q); [ congruence | reflexivity ]. }
  rewrite Hne.
  unfold Transport.is_online in *. cbn [fst] in Honline.
  rewrite Honline. cbn [negb].
  pose proof (process_queue_loop_world (TelemetryClient._transport self) net
                (OfflineQueue.get_all q) q) as Hworld.
  match goal with
  | |- context [TelemetryClient._process_queue_loop ?tr ?n ?l ?qq ?ww] =>
      specialize (Hworld ww);
      destruct (TelemetryClient._process_queue_loop tr n l qq ww)
        as [q' w2]
  end.
  cbn [snd] in *. subst w2. cbn.
  split; [ reflexivity | ].
  rewrite length_app. cbn. lia.
Qed.

(** X17. In general a flush that finds the transport online takes out of
    the queue every event whose id is the id of an event whose send
    succeeded, and keeps all the others in their order. *)
Theorem flush_removes_by_id
    (self : TelemetryClient.t) (net : Network.t) (w : World.t)
    (q : OfflineQueue.t) :
  TelemetryClient._queue self = Some q ->
  OfflineQueue._queue q <> [] ->
  fst (Transport.is_online (TelemetryClient._transport self) net w) = true ->
  TelemetryClient._queue (fst (TelemetryClient.flush self net w))
  = Some (OfflineQueue.with_queue q
            (filter
               (fun e =>
                  negb (existsb (String.eqb (TelemetryEvent.event_id e))
                          (TelemetryClient.sent_ids (OfflineQueue._queue q)
                             (TelemetryClient.send_outcomes
                                (TelemetryClient._transport self) net
                                (OfflineQueue._queue q)
                                (snd (Transport.is_online
                                        (TelemetryClient._transport self)
                                        net w))))))
               (OfflineQueue._queue q))).
Proof.
  intros Hq Hnonempty Honline.
  unfold TelemetryClient.flush, TelemetryClient._process_queue.
  rewrite Hq.
  assert (Hne : OfflineQueue.is_empty q = false).
  { unfold OfflineQueue.is_empty.
    destruct (OfflineQueue._queue q); [ congruence | reflexivity ]. }
  rewrite Hne.
  destruct (Transport.is_online _ net w) as [online w1].
  cbn [fst snd] in *. subst online. cbn [negb].
  unfold OfflineQueue.get_all.
  pose proof (process_queue_loop_by_id (TelemetryClient._transport self) net
                (OfflineQueue._queue q) q w1) as Hloop.
  destruct (TelemetryClient._process_queue_loop _ net _ q w1) as [q' w2].
  cbn [fst] in Hloop. subst q'. reflexivity.
Qed.
(** ** Options: the sample rate *)

(** X18. [resolve_options] brings any sample rate into [[0, 1]] and
    leaves a rate that is already there unchanged. *)
Theorem clamp_sample_rate_bounds (rate : Q) :
  (0 <= clamp_sample_rate rate)%Q
  /\ (clamp_sample_rate rate <= 1)%Q
  /\ ((0 <= rate)%Q -> (rate <= 1)%Q -> (clamp_sample_rate rate == rate)%Q).
Proof.
  unfold clamp_sample_rate, Qlt_bool.
  destruct (Qle_bool 1 rate) eqn:Hhi; cbn [negb].
  - apply Qle_bool_iff in Hhi.
    change (Qle_bool 1 0) with false. cbn [negb].
    repeat split; try apply Qle_refl; try discriminate.
    intros _ Hle. now apply Qle_antisym.
  - assert (Hlt : (rate < 1)%Q).
    { apply Qnot_le_lt. intros H. apply Qle_bool_iff in H. congruence. }
    destruct (Qle_bool rate 0) eqn:Hlo; cbn [negb].
    + apply Qle_bool_iff in Hlo.
      repeat split; try apply Qle_refl; try discriminate.
      intros Hge _. now apply Qle_antisym.
    + assert (Hpos : (0 < rate)%Q).
      { apply Qnot_le_lt. intros H. apply Qle_bool_iff in H. congruence. }
      repeat split; try reflexivity; now apply Qlt_le_weak.
Qed.

Lemma init_options (options : TelemetryOptions.t)
    (parsed_dsn : result ParsedDsn.t) (stored : option pyval)
    (c : TelemetryClient.t) :
  TelemetryClient.init options parsed_dsn stored = Ok c ->
  TelemetryOptions.sample_rate (TelemetryClient._options c)
  = clamp_sample_rate (TelemetryOptions.sample_rate options)
  /\ TelemetryOptions.before_send (TelemetryClient._options c)
     = TelemetryOptions.before_send options
  /\ TelemetryClient._user c = None
  /\ TelemetryClient._current_journey c = None.
Proof.
  unfold TelemetryClient.init, resolve_options.
  destruct parsed_dsn as [ parsed | e ]; [ | discriminate ].
  cbn. intros H. injection H as <-. cbn. auto.
Qed.

(** X19. On a client built with a configured [sample_rate] of 1.0 or
    more and no hook, every capture attempts delivery: whatever the draw
    in [[0, 1)], exactly one POST is issued, for the captured event. *)
Theorem full_sample_rate_always_delivers
    (options : TelemetryOptions.t) (parsed_dsn : result ParsedDsn.t)
    (stored : option pyval) (c : TelemetryClient.t)
    (net : Network.t) (w : World.t) (env : Ambient.t)
    (call : TelemetryClient.capture_call) :
  TelemetryClient.init options parsed_dsn stored = Ok c ->
  (1 <= TelemetryOptions.sample_rate options)%Q ->
  TelemetryOptions.before_send options = None ->
  (Ambient.random env < 1)%Q ->
  World.posts (snd (TelemetryClient.capture c net w env call))
  = World.posts w
      ++ [Transport.post_request (TelemetryClient._transport c)
            (TelemetryClient.captured_event c env call)].
Proof.
  intros Hinit Hrate Hhook Hdraw.
  destruct (init_options _ _ _ _ Hinit) as (Hsr & Hbs & _).
  rewrite capture_send_event, not_sampled_out.
  - rewrite Hbs, Hhook. apply deliver_posts.
  - rewrite Hsr. unfold clamp_sample_rate, Qlt_bool.
    apply Qle_bool_iff in Hrate. rewrite Hrate. cbn.
    now apply Qlt_le_weak.
Qed.

(** ** Context: tags and extra in the events that follow *)

Lemma dict_get_set_same (k : string) (v default : pyval) (d : pydict) :
  dict_get_default k (dict_set k v d) default = v.
Proof.
  induction d as [ | [k' v'] d IH ]; cbn.
  - now rewrite String.eqb_refl.
  - destruct (String.eqb k' k) eqn:E; cbn; rewrite E; [ reflexivity | exact IH ].
Qed.

Lemma dict_get_set_other (k k' : string) (v default : pyval) (d : pydict) :
  k' <> k ->
  dict_get_default k' (dict_set k v d) default = dict_get_default k' d default.
Proof.
  intros Hneq. induction d as [ | [k0 v0] d IH ]; cbn.
  - apply String.eqb_neq in Hneq. rewrite String.eqb_sym in Hneq.
    now rewrite Hneq.
  - destruct (String.eqb_spec k0 k) as [ -> | Hk0 ]; cbn.
    + apply String.eqb_neq in Hneq. rewrite String.eqb_sym in Hneq.
      now rewrite Hneq.
    + destruct (String.eqb k0 k'); [ reflexivity | exact IH ].
Qed.

Lemma dict_get_update (k : string) (default : pyval) (other : pydict) :
  forall d : pydict,
    NoDup (map fst other) ->
    dict_get_default k (dict_update d other) default
    = dict_get_default k other (dict_get_default k d default).
Proof.
  unfold dict_update.
  induction other as [ | [k1 v1] other IH ]; intros d Hnodup;
    [ reflexivity | ].
  cbn [fold_left fst snd map] in *.
  apply NoDup_cons_iff in Hnodup as [Hnotin Hnodup].
  rewrite IH by exact Hnodup. cbn [dict_get_default].
  destruct (String.eqb_spec k1 k) as [ -> | Hneq ].
  - rewrite dict_get_default_absent by exact Hnotin.
    apply dict_get_set_same.
  - rewrite dict_get_set_other by congruence. reflexivity.
Qed.

Lemma captured_event_tags (self : TelemetryClient.t) (env : Ambient.t)
    (call : TelemetryClient.capture_call) :
  TelemetryEvent.tags (TelemetryClient.captured_event self env call)
  = TelemetryClient._tags self.
Proof.
  destruct call as [ message level | error extra ]; [ reflexivity | ].
  unfold TelemetryClient.captured_event, TelemetryClient.exception_event.
  destruct extra as [ [ | kv d ] | ]; reflexivity.
Qed.

(** X20. After [set_tag(key, value)] every event the client builds has
    [value] under [key] in its tags, and every other key as before the
    call. *)
Theorem set_tag_in_next_event
    (self : TelemetryClient.t) (env : Ambient.t)
    (call : TelemetryClient.capture_call) (key value : string)
    (default : pyval) :
  dict_get_default key
    (TelemetryEvent.tags
       (TelemetryClient.captured_event
          (TelemetryClient.set_tag self key value) env call))
    default
  = PStr value
  /\ forall other,
      other <> key ->
      dict_get_default other
        (TelemetryEvent.tags
           (TelemetryClient.captured_event
              (TelemetryClient.set_tag self key value) env call))
        default
      = dict_get_default other
          (TelemetryEvent.tags
             (TelemetryClient.captured_event self env call))
          default.
Proof.
  rewrite !captured_event_tags. cbn [TelemetryClient.set_tag
    TelemetryClient.with_context TelemetryClient._tags].
  split; [ apply dict_get_set_same | ].
  intros other Hneq. now apply dict_get_set_other.
Qed.

(** X21. In the event of [capture_exception(error, extra)] a key of the
    per-call [extra] carries the per-call value, and every other key the
    value the client's ambient extra has for it. *)
Theorem exception_extra_overrides_ambient
    (self : TelemetryClient.t) (env : Ambient.t) (error : BaseException.t)
    (extra : pydict) (key : string) (default : pyval) :
  NoDup (map fst extra) ->
  dict_get_default key
    (TelemetryEvent.extra
       (TelemetryClient.captured_event self env
          (TelemetryClient.Exception error (Some extra))))
    default
  = dict_get_default key extra
      (dict_get_default key (TelemetryClient._extra self) default).
Proof.
  intros Hnodup.
  unfold TelemetryClient.captured_event, TelemetryClient.exception_event.
  destruct extra as [ | kv extra ]; [ reflexivity | ].
  cbn [TelemetryEvent.update_extra TelemetryEvent.extra
       TelemetryClient._create_event].
  now apply dict_get_update.
Qed.

(** ** Events the client builds fit the queue file *)

Lemma capture_keeps_context
    (self self' : TelemetryClient.t) (net : Network.t) (w : World.t)
    (env : Ambient.t) (call : TelemetryClient.capture_call)
    (result : SendResult.t) :
  fst (TelemetryClient.capture self net w env call) = Ok (result, self') ->
  TelemetryClient._user self' = TelemetryClient._user self
  /\ TelemetryClient._current_journey self'
     = TelemetryClient._current_journey self.
Proof.
  rewrite capture_send_event.
  set (event := TelemetryClient.captured_event self env call).
  assert (Hdeliver : forall ev,
    fst (TelemetryClient.deliver self net w ev) = Ok (result, self') ->
    TelemetryClient._user self' = TelemetryClient._user self
    /\ TelemetryClient._current_journey self'
       = TelemetryClient._current_journey self).
  { intros ev. unfold TelemetryClient.deliver, Transport.send.
    destruct (SendResult.success _).
    - cbn. intros H. now injection H as _ <-.
    - destruct (TelemetryClient._queue self) as [ q | ].
      + cbn. destruct (OfflineQueue.enqueue q ev); [ | discriminate ].
        cbn. intros H. now injection H as _ <-.
      + cbn. intros H. now injection H as _ <-. }
  unfold TelemetryClient._send_event.
  destruct (Qlt_bool _ _).
  - cbn. intros H. now injection H as _ <-.
  - destruct (TelemetryOptions.before_send _) as [ hook | ];
      [ | apply Hdeliver ].
    destruct (hook event) as [ ev | ]; [ apply Hdeliver | ].
    cbn. intros H. now injection H as _ <-.
Qed.

Lemma flush_keeps_context
    (self : TelemetryClient.t) (net : Network.t) (w : World.t) :
  TelemetryClient._user (fst (TelemetryClient.flush self net w))
  = TelemetryClient._user self
  /\ TelemetryClient._current_journey (fst (TelemetryClient.flush self net w))
     = TelemetryClient._current_journey self.
Proof.
  unfold TelemetryClient.flush, TelemetryClient._process_queue.
  destruct (TelemetryClient._queue self) as [ q | ]; [ | now split ].
  destruct (OfflineQueue.is_empty q); [ now split | ].
  destruct (Transport.is_online _ net w) as [online w1].
  destruct online; cbn [negb]; [ | now split ].
  destruct (TelemetryClient._process_queue_loop _ net _ q w1).
  now split.
Qed.

Lemma reachable_names_unset (c : TelemetryClient.t) :
  TelemetryClient.reachable c -> TelemetryClient.names_unset c.
Proof.
  unfold TelemetryClient.names_unset.
  induction 1 as
    [ options parsed_dsn stored c Hinit
    | c now message category level data _ IH
    | c id email data _ IH
    | c _ IH
    | c key value _ IH
    | c key value _ IH
    | c env name _ IH
    | c _ IH
    | c id email data _ IH
    | c key value _ IH
    | c now _ IH
    | c now _ IH
    | c now name category c' _ IH Hstep
    | c net w env call result c' _ IH Hcapture
    | c net w _ IH ].
  - destruct (init_options _ _ _ _ Hinit) as (_ & _ & -> & ->). now split.
  - exact IH.
  - cbn. destruct IH as [_ IH]. now split.
  - cbn. destruct IH as [_ IH]. now split.
  - exact IH.
  - exact IH.
  - destruct IH as [IHu _].
    unfold TelemetryClient.start_journey. cbn.
    split; [ exact IHu | ].
    now destruct (TelemetryClient._user c).
  - cbn. destruct IH as [IH _]. now split.
  - destruct IH as [IHu IHj].
    unfold TelemetryClient.journey_set_user.
    destruct (TelemetryClient._current_journey c) eqn:Hj; cbn;
      [ now split | rewrite Hj; now split ].
  - destruct IH as [IHu IHj].
    unfold TelemetryClient.journey_set_metadata.
    destruct (TelemetryClient._current_journey c) eqn:Hj; cbn;
      [ now split | rewrite Hj; now split ].
  - destruct IH as [IHu IHj].
    unfold TelemetryClient.journey_complete.
    destruct (TelemetryClient._current_journey c) eqn:Hj; cbn;
      [ now split | rewrite Hj; now split ].
  - destruct IH as [IHu IHj].
    unfold TelemetryClient.journey_fail.
    destruct (TelemetryClient._current_journey c) eqn:Hj; cbn;
      [ now split | rewrite Hj; now split ].
  - destruct IH as [IHu IHj].
    unfold TelemetryClient.start_step in Hstep.
    destruct (TelemetryClient._current_journey c) eqn:Hj;
      [ | discriminate ].
    injection Hstep as <-. cbn. now split.
  - destruct (capture_keeps_context _ _ _ _ _ _ _ Hcapture) as [-> ->].
    exact IH.
  - destruct (flush_keeps_context c net w) as [-> ->]. exact IH.
Qed.

Lemma parse_exception_storable (error : BaseException.t) :
  OfflineQueue.exception_storable (TelemetryClient._parse_exception error)
  = true.
Proof.
  unfold TelemetryClient._parse_exception, OfflineQueue.exception_storable.
  destruct (BaseException.traceback error) as [ [ | fs tb ] | ];
    [ reflexivity | | reflexivity ].
  cbn. apply forallb_forall. intros f Hf.
  apply in_map_iff in Hf as [x [<- _]]. reflexivity.
Qed.

(** X22. Every event built by a client that was made by the constructor
    and driven through its methods fits the storage format of the queue:
    it comes back unchanged from [_deserialize_event] applied to
    [_serialize_event]. *)
Theorem reachable_events_round_trip
    (c : TelemetryClient.t) (env : Ambient.t)
    (call : TelemetryClient.capture_call) :
  TelemetryClient.reachable c ->
  OfflineQueue._deserialize_event
    (OfflineQueue._serialize_event
       (TelemetryClient.captured_event c env call))
  = Ok (TelemetryClient.captured_event c env call).
Proof.
  intros Hreach. apply reachable_names_unset in Hreach as [Hu Hj].
  rewrite deserialize_serialize_stored_form. f_equal.
  apply stored_form_fixed. unfold OfflineQueue.storable.
  assert (Huser :
    match TelemetryEvent.user (TelemetryClient.captured_event c env call) with
    | Some u => OfflineQueue.user_storable u
    | None => true
    end = true).
  { assert (Heq :
      TelemetryEvent.user (TelemetryClient.captured_event c env call)
      = match TelemetryClient._current_journey c with
        | Some j => Journey.get_user j
        | None => TelemetryClient._user c
        end).
    { destruct call as [ message level | error extra ]; [ reflexivity | ].
      unfold TelemetryClient.captured_event, TelemetryClient.exception_event.
      destruct extra as [ [ | kv d ] | ]; reflexivity. }
    rewrite Heq. unfold OfflineQueue.user_storable, Journey.get_user.
    destruct (TelemetryClient._current_journey c) as [ j | ].
    - destruct (Journey._user j) as [ u | ]; [ now rewrite Hj | reflexivity ].
    - destruct (TelemetryClient._user c) as [ u | ];
        [ now rewrite Hu | reflexivity ]. }
  rewrite Huser, andb_true_r.
  destruct call as [ message level | error extra ]; [ reflexivity | ].
  unfold TelemetryClient.captured_event, TelemetryClient.exception_event.
  destruct extra as [ [ | kv d ] | ]; cbn; apply parse_exception_storable.
Qed.
(** ** Journeys *)

Lemma captured_event_journey (self : TelemetryClient.t) (env : Ambient.t)
    (call : TelemetryClient.capture_call) :
  TelemetryEvent.journey (TelemetryClient.captured_event self env call)
  = option_map Journey.get_context (TelemetryClient._current_journey self).
Proof.
  destruct call as [ message level | error extra ].
  - cbn. now destruct (TelemetryClient._current_journey self).
  - unfold TelemetryClient.captured_event, TelemetryClient.exception_event.
    destruct extra as [ [ | kv d ] | ]; cbn;
      now destruct (TelemetryClient._current_journey self).
Qed.

(** X23. After [start_journey(name)] and [start_step(step)] every event
    carries the context of that journey: its id, name and start time, the
    step as current step, and empty metadata.  Once the scope's
    [on_complete] has run, events carry no journey. *)
Theorem journey_context_in_events
    (self : TelemetryClient.t) (started : Ambient.t) (name : string)
    (now : datetime) (step : string) (category : option string)
    (env : Ambient.t) (call : TelemetryClient.capture_call) :
  exists c,
    TelemetryClient.start_step
      (TelemetryClient.start_journey self started name) now step category
    = Ok c
    /\ TelemetryEvent.journey (TelemetryClient.captured_event c env call)
       = Some {| JourneyContext.journey_id := Ambient.uuid4 started;
                 JourneyContext.name := name;
                 JourneyContext.started_at := Ambient.now started;
                 JourneyContext.current_step := Some step;
                 JourneyContext.metadata := [] |}
    /\ TelemetryEvent.journey
         (TelemetryClient.captured_event (TelemetryClient.on_complete c)
            env call)
       = None.
Proof.
  eexists. split; [ reflexivity | ].
  rewrite !captured_event_journey. cbn.
  split; [ | reflexivity ].
  now destruct (TelemetryClient._user self).
Qed.

(** X24. When a journey scope exits the journey is complete whatever its
    state was; an exit through an exception marks it failed, an exit
    without one never does and marks it completed unless it had failed
    before. *)
Theorem scope_exit_completes
    (j : Journey.t) (raised : bool) (now : datetime) :
  Journey.is_complete (Journey.scope_exit j raised now) = true
  /\ (raised = true -> Journey._failed (Journey.scope_exit j raised now) = true)
  /\ (raised = false ->
      Journey._failed (Journey.scope_exit j raised now) = Journey._failed j
      /\ Journey._completed (Journey.scope_exit j raised now)
         = Journey._completed j || negb (Journey._failed j)).
Proof.
  unfold Journey.scope_exit, Journey.is_complete.
  destruct raised; cbn.
  - split; [ apply orb_true_r | ]. split; [ reflexivity | discriminate ].
  - destruct (Journey._completed j) eqn:Hc, (Journey._failed j) eqn:Hf;
      cbn; rewrite ?Hc, ?Hf; repeat split; discriminate.
Qed.

(** X25. Completing or failing a journey closes its current step only
    when that step is still in progress: a step that has already ended
    keeps its status and end time. *)
Theorem journey_end_keeps_ended_step
    (j : Journey.t) (s : Step.t) (now : datetime) :
  Journey._current_step j = Some s ->
  Step.in_progress s = false ->
  Journey._current_step (Journey.complete j now) = Some s
  /\ Journey._current_step (Journey.fail j now) = Some s.
Proof.
  intros Hs Hended.
  unfold Journey.complete, Journey.fail, Journey.close_step. cbn.
  now rewrite Hs, Hended.
Qed.

(** ** DSN *)

(** X26. When [parse_dsn] returns, the public key starts with [pk_] and
    the base URL is the scheme, [://] and the host. *)
Theorem parse_dsn_ok (dsn : string) (urlparse : result UrlParts.t)
    (parsed : ParsedDsn.t) :
  parse_dsn dsn urlparse = Ok parsed ->
  String.prefix "pk_" (ParsedDsn.public_key parsed) = true
  /\ ParsedDsn.api_base_url parsed
     = (ParsedDsn.protocol parsed ++ "://" ++ ParsedDsn.host parsed)%string.
Proof.
  unfold parse_dsn.
  destruct urlparse as [ parts | e ]; cbn [bind].
  - destruct (UrlParts.username parts) as [ [ pk | ] | e ]; cbn [bind].
    + destruct (negb (String.eqb pk "")); cbn [andb].
      * destruct (String.prefix "pk_" pk) eqn:Hpk.
        -- destruct (UrlParts.hostname parts) as [ h | e ]; cbn [bind].
           ++ intros H. injection H as <-. now split.
           ++ destruct (contains _ _); discriminate.
        -- cbn. discriminate.
      * cbn. discriminate.
    + cbn. discriminate.
    + destruct (contains _ _); discriminate.
  - destruct (contains _ _); discriminate.
Qed.

(** X27. A DSN whose user part is missing or does not start with [pk_]
    makes [parse_dsn], and with it the constructor of the client, raise
    the [ValueError] that names the [pk_] requirement. *)
Theorem init_rejects_key_without_prefix
    (options : TelemetryOptions.t) (parts : UrlParts.t)
    (key : option string) (stored : option pyval) :
  UrlParts.username parts = Ok key ->
  match key with
  | Some k => String.prefix "pk_" k = false
  | None => True
  end ->
  TelemetryClient.init options
    (parse_dsn (TelemetryOptions.dsn options) (Ok parts)) stored
  = Raise (ValueError
             "DSN must contain a valid public key starting with pk_").
Proof.
  intros Huser Hkey.
  assert (Hparse :
    parse_dsn (TelemetryOptions.dsn options) (Ok parts)
    = Raise (ValueError
               "DSN must contain a valid public key starting with pk_")).
  { unfold parse_dsn. cbn [bind]. rewrite Huser. cbn [bind].
    destruct key as [ k | ]; [ | reflexivity ].
    rewrite Hkey, andb_false_r. reflexivity. }
  rewrite Hparse. reflexivity.
Qed.

(** ** The module-level client *)

(** X28. When the module-level client has nothing queued, passes the
    sampling test, has no hook and its send succeeds, the unhandled
    exception hook issues exactly one POST, for the exception, and no
    health probe: the flush that follows finds nothing to do. *)
Theorem exception_handler_single_post
    (c : TelemetryClient.t) (net : Network.t) (w : World.t)
    (env : Ambient.t) (error : BaseException.t) :
  (Ambient.random env
   <= TelemetryOptions.sample_rate (TelemetryClient._options c))%Q ->
  TelemetryOptions.before_send (TelemetryClient._options c) = None ->
  match TelemetryClient._queue c with
  | Some q => OfflineQueue.get_all q = []
  | None => True
  end ->
  SendResult.success
    (fst (Transport.send (TelemetryClient._transport c) net w
            (TelemetryClient.exception_event c env error None)))
  = true ->
  Global.exception_handler (Some c) net w env error
  = (Ok (Some c),
     {| World.posts :=
          World.posts w
            ++ [Transport.post_request (TelemetryClient._transport c)
                  (TelemetryClient.exception_event c env error None)];
        World.gets := World.gets w |}).
Proof.
  intros Hdraw Hhook Hempty Hok.
  unfold Global.exception_handler, TelemetryClient.capture_exception.
  rewrite not_sampled_out by exact Hdraw. rewrite Hhook.
  unfold TelemetryClient.deliver.
  destruct (Transport.send _ net w _) as [r w1] eqn:Hsend.
  cbn [fst] in Hok. rewrite Hok.
  unfold Transport.send in Hsend. injection Hsend as _ <-.
  unfold TelemetryClient.flush, TelemetryClient._process_queue.
  destruct (TelemetryClient._queue c) as [ q | ]; [ | reflexivity ].
  unfold OfflineQueue.is_empty. unfold OfflineQueue.get_all in Hempty.
  rewrite Hempty. reflexivity.
Qed.
End MoreProperties.

(** * The properties at concrete inputs *)

Section Concrete.
#[local] Existing Instance IsoText.
Import Examples.

Ltac distinct_ids :=
  repeat (apply NoDup_cons;
          [ simpl; intuition discriminate | ]);
  apply NoDup_nil.

(** [Examples.client] is what the constructor builds. *)
Example client_init (sample_rate : Q)
    (hook : option (TelemetryEvent.t -> option TelemetryEvent.t))
    (size : Z) :
  TelemetryClient.init (options sample_rate hook size) (Ok parsed_dsn) None
  = Ok (client (options sample_rate hook size)).
Proof. reflexivity. Qed.

(** *** Breadcrumbs and queue capacity *)

Lemma breadcrumbs_keep_most_recent_witness :
  BreadcrumbManager.get_all
    (BreadcrumbManager.add_all (BreadcrumbManager.init 2)
       [add_call "12:00:00" "a"; add_call "12:00:01" "b";
        add_call "12:00:02" "c"])
  = lastn (Z.to_nat 2)
      (map BreadcrumbManager.breadcrumb_of
         [add_call "12:00:00" "a"; add_call "12:00:01" "b";
          add_call "12:00:02" "c"])
  /\ Z.of_nat (length (BreadcrumbManager.get_all
                         (BreadcrumbManager.add_all (BreadcrumbManager.init 2)
                            [add_call "12:00:00" "a"; add_call "12:00:01" "b";
                             add_call "12:00:02" "c"])))
     = 2.
Proof.
  apply (breadcrumbs_keep_most_recent (BreadcrumbManager.init 2)
           [add_call "12:00:00" "a"; add_call "12:00:01" "b";
            add_call "12:00:02" "c"]); simpl; lia.
Defined.

Example breadcrumbs_after_three_adds :
  map Breadcrumb.message
    (BreadcrumbManager.get_all
       (BreadcrumbManager.add_all (BreadcrumbManager.init 2)
          [add_call "12:00:00" "a"; add_call "12:00:01" "b";
           add_call "12:00:02" "c"]))
  = ["b"; "c"].
Proof. reflexivity. Qed.

Lemma enqueue_overflow_keeps_last_witness :
  exists q,
    OfflineQueue.enqueue_all (OfflineQueue.init 2 false None)
      [event "id-1" "a"; event "id-2" "b"; event "id-3" "c"]
    = Ok q
    /\ OfflineQueue.get_all q
       = lastn (Z.to_nat 2)
           [event "id-1" "a"; event "id-2" "b"; event "id-3" "c"]
    /\ OfflineQueue.size q = 2.
Proof.
  apply (enqueue_overflow_keeps_last (OfflineQueue.init 2 false None)
           [event "id-1" "a"; event "id-2" "b"; event "id-3" "c"] 1);
    [ reflexivity | simpl; lia | lia | reflexivity ].
Defined.

Lemma enqueue_without_capacity_raises_witness :
  OfflineQueue.enqueue (OfflineQueue.init 0 false None) (event "id-1" "a")
  = Raise (IndexError "pop from empty list")
  /\ forall q,
      OfflineQueue.enqueue (OfflineQueue.init 0 false None) (event "id-1" "a")
      <> Ok q.
Proof.
  apply (enqueue_without_capacity_raises (OfflineQueue.init 0 false None)
           (event "id-1" "a")); [ simpl; lia | reflexivity ].
Defined.

(** A capture that fails to send on a client built with
    [max_offline_queue_size=0] raises out of [capture_message]. *)
Example capture_with_zero_capacity_raises :
  fst (TelemetryClient.capture (client (options 1 None 0)) net_down
         World.empty (env "2024-05-01T12:00:00" "id-1" (1 # 2))
         (TelemetryClient.Message "hi" WARNING))
  = Raise (IndexError "pop from empty list").
Proof. reflexivity. Qed.

(** *** Storage format *)

Lemma deserialize_serialize_witness :
  OfflineQueue._deserialize_event
    (OfflineQueue._serialize_event (rich_event None None None))
  = Ok (rich_event None None None).
Proof.
  apply (deserialize_serialize (rich_event None None None)). reflexivity.
Defined.

(** A stack frame's source [context] does not survive the trip through
    the storage format. *)
Lemma deserialize_serialize_loses_context :
  OfflineQueue._deserialize_event
    (OfflineQueue._serialize_event
       (rich_event (Some ["charge(card, total)"]) None None))
  <> Ok (rich_event (Some ["charge(card, total)"]) None None).
Proof. vm_compute. intros H. discriminate H. Qed.

(** Neither does an empty stack trace list: it comes back as [None]. *)
Example deserialize_serialize_empty_stacktrace :
  let e :=
    {| TelemetryEvent.event_id := "id-1";
       TelemetryEvent.timestamp := "2024-05-01T12:00:00";
       TelemetryEvent.level := ERROR;
       TelemetryEvent.platform :=
         TelemetryEvent.platform (event "id-1" "boom");
       TelemetryEvent.tags := []; TelemetryEvent.extra := [];
       TelemetryEvent.breadcrumbs := [];
       TelemetryEvent.message := Some "boom";
       TelemetryEvent.exception :=
         Some {| ExceptionInfo.type := "KeyError";
                 ExceptionInfo.message := "boom";
                 ExceptionInfo.stacktrace := Some [] |};
       TelemetryEvent.user := None; TelemetryEvent.journey := None;
       TelemetryEvent.environment := None;
       TelemetryEvent.app_version := None |} in
  option_map ExceptionInfo.stacktrace
    match OfflineQueue._deserialize_event (OfflineQueue._serialize_event e)
    with
    | Ok e' => TelemetryEvent.exception e'
    | Raise _ => None
    end
  = Some None.
Proof. reflexivity. Qed.

(** The user's [name] and a frame's [colno] are written to the wire by
    the transport but not to the queue file; an event that went through
    the file has lost them. *)
Example stored_event_loses_name_and_colno :
  OfflineQueue._deserialize_event
    (OfflineQueue._serialize_event (rich_event None (Some 7) (Some "Ada")))
  = Ok (rich_event None None None).
Proof. reflexivity. Qed.

Example wire_format_has_name_and_colno :
  (u <- get (Transport._serialize_event
               (rich_event None (Some 7) (Some "Ada"))) "user" ;;
   get u "name")
  = Ok (PStr "Ada")
  /\ (x <- get (Transport._serialize_event
                  (rich_event None (Some 7) (Some "Ada"))) "exception" ;;
      st <- get x "stacktrace" ;;
      fs <- py_iter st ;;
      mapM (fun f => get f "colno") fs)
     = Ok [PInt 7].
Proof. split; reflexivity. Qed.

(** *** Sampling and the hook *)

(** C3 at the draw 0.0: with [sample_rate] 0.0 and [random.random()]
    returning 0.0, the test [0.0 > 0.0] fails, the event is not dropped
    and [Transport.send] issues a POST. *)
Lemma sample_rate_zero_draw_zero_sends :
  (TelemetryOptions.sample_rate
     (TelemetryClient._options (client (options 0 None 500))) == 0)%Q
  /\ World.posts
       (snd (TelemetryClient.capture (client (options 0 None 500)) net_up
               World.empty (env "2024-05-01T12:00:00" "id-1" 0)
               (TelemetryClient.Message "hi" INFO)))
     = [Transport.post_request transport
          (TelemetryClient.captured_event (client (options 0 None 500))
             (env "2024-05-01T12:00:00" "id-1" 0)
             (TelemetryClient.Message "hi" INFO))].
Proof. split; reflexivity. Qed.

Lemma before_send_drop_witness :
  exists result,
    TelemetryClient.capture (client (options 1 (Some drop_all) 500)) net_up
      World.empty (env "2024-05-01T12:00:00" "id-1" (1 # 2))
      (TelemetryClient.Message "hi" INFO)
    = (Ok (result, client (options 1 (Some drop_all) 500)), World.empty)
    /\ SendResult.success result = true
    /\ SendResult.queued result = false.
Proof.
  apply (before_send_drop (client (options 1 (Some drop_all) 500)) net_up
           World.empty (env "2024-05-01T12:00:00" "id-1" (1 # 2))
           (TelemetryClient.Message "hi" INFO) drop_all);
    reflexivity.
Defined.

(** *** Journey user *)

(** A journey started before [set_user]: the journey has no user, the
    client has one, the event carries none. *)
Lemma journey_without_user_hides_client_user :
  exists j u,
    TelemetryClient._current_journey journey_then_user = Some j
    /\ Journey.get_user j = None
    /\ TelemetryClient._user journey_then_user = Some u
    /\ TelemetryEvent.user
         (TelemetryClient.captured_event journey_then_user
            (env "2024-05-01T12:00:05" "id-1" 0)
            (TelemetryClient.Message "hi" INFO))
       <> Some u.
Proof.
  do 2 eexists. repeat split; try reflexivity.
  simpl. discriminate.
Qed.

(** *** Transport *)

(** A 2xx answer with an empty body: [response.json()] raises, the
    blanket [except] turns it into a failure, and the event is reported
    as not sent. *)
Lemma send_empty_2xx_body_fails :
  exists response,
    Network.post_reply net_empty_2xx (length (World.posts World.empty))
    = Ok response
    /\ Response.status_code response < 400
    /\ fst (Transport.send transport net_empty_2xx World.empty
              (event "id-1" "hi"))
       = {| SendResult.success := false;
            SendResult.event_id := PNone;
            SendResult.error :=
              Some "Expecting value: line 1 column 1 (char 0)";
            SendResult.queued := false |}.
Proof. eexists. split; [ reflexivity | ]. split; [ simpl; lia | reflexivity ]. Qed.

Lemma send_json_object_witness :
  SendResult.success
    (fst (Transport.send transport
            {| Network.post_reply :=
                 fun _ => ok_json 201 (PDict [("eventId", PStr "srv-9")]);
               Network.get_reply := fun _ => unreachable |}
            World.empty (event "id-1" "hi")))
  = true
  /\ (forall v,
        dict_item "eventId" [("eventId", PStr "srv-9")] = Ok v ->
        SendResult.event_id
          (fst (Transport.send transport
                  {| Network.post_reply :=
                       fun _ =>
                         ok_json 201 (PDict [("eventId", PStr "srv-9")]);
                     Network.get_reply := fun _ => unreachable |}
                  World.empty (event "id-1" "hi")))
        = v)
  /\ (~ In "eventId" (map fst [("eventId", PStr "srv-9")]) ->
      SendResult.event_id
        (fst (Transport.send transport
                {| Network.post_reply :=
                     fun _ =>
                       ok_json 201 (PDict [("eventId", PStr "srv-9")]);
                   Network.get_reply := fun _ => unreachable |}
                World.empty (event "id-1" "hi")))
      = PStr (TelemetryEvent.event_id (event "id-1" "hi"))).
Proof.
  apply (send_json_object transport _ World.empty (event "id-1" "hi")
           {| Response.status_code := 201; Response.text := "";
              Response.json := Ok (PDict [("eventId", PStr "srv-9")]) |}
           [("eventId", PStr "srv-9")]);
    [ reflexivity | simpl; lia | reflexivity ].
Defined.

Example send_2xx_with_event_id :
  fst (Transport.send transport
         {| Network.post_reply :=
              fun _ => ok_json 201 (PDict [("eventId", PStr "srv-9")]);
            Network.get_reply := fun _ => unreachable |}
         World.empty (event "id-1" "hi"))
  = {| SendResult.success := true; SendResult.event_id := PStr "srv-9";
       SendResult.error := None; SendResult.queued := false |}.
Proof. reflexivity. Qed.

Example send_2xx_without_event_id :
  fst (Transport.send transport net_up World.empty (event "id-1" "hi"))
  = {| SendResult.success := true; SendResult.event_id := PStr "id-1";
       SendResult.error := None; SendResult.queued := false |}.
Proof. reflexivity. Qed.

Example send_http_500 :
  SendResult.error
    (fst (Transport.send transport net_flaky
            {| World.posts :=
                 [Transport.post_request transport (event "a" "a");
                  Transport.post_request transport (event "b" "b");
                  Transport.post_request transport (event "c" "c")];
               World.gets := [] |}
            (event "id-1" "hi")))
  = Some "HTTP 500: boom".
Proof. reflexivity. Qed.

(** *** Flush *)

Lemma flush_offline_is_noop_witness :
  fst (TelemetryClient.flush (client_with_queue [event "id-1" "first"])
         net_down World.empty)
  = client_with_queue [event "id-1" "first"]
  /\ World.posts
       (snd (TelemetryClient.flush (client_with_queue [event "id-1" "first"])
               net_down World.empty))
     = World.posts World.empty.
Proof.
  apply (flush_offline_is_noop (client_with_queue [event "id-1" "first"])
           net_down World.empty).
  reflexivity.
Defined.

Lemma flush_removes_sent_witness :
  TelemetryClient._queue
    (fst (TelemetryClient.flush
            (client_with_queue
               [event "id-1" "a"; event "id-2" "b"; event "id-3" "c"])
            net_flaky World.empty))
  = Some (OfflineQueue.with_queue
            {| OfflineQueue._max_size := 500; OfflineQueue._debug := false;
               OfflineQueue._queue :=
                 [event "id-1" "a"; event "id-2" "b"; event "id-3" "c"] |}
            (TelemetryClient.unsent
               [event "id-1" "a"; event "id-2" "b"; event "id-3" "c"]
               (TelemetryClient.send_outcomes transport net_flaky
                  [event "id-1" "a"; event "id-2" "b"; event "id-3" "c"]
                  (snd (Transport.is_online transport net_flaky
                          World.empty))))).
Proof.
  apply (flush_removes_sent
           (client_with_queue
              [event "id-1" "a"; event "id-2" "b"; event "id-3" "c"])
           net_flaky World.empty
           {| OfflineQueue._max_size := 500; OfflineQueue._debug := false;
              OfflineQueue._queue :=
                [event "id-1" "a"; event "id-2" "b"; event "id-3" "c"] |});
    [ reflexivity | discriminate | reflexivity | distinct_ids ].
Defined.

Example flush_keeps_failed_in_order :
  option_map (fun q => map TelemetryEvent.event_id (OfflineQueue.get_all q))
    (TelemetryClient._queue
       (fst (TelemetryClient.flush
               (client_with_queue
                  [event "id-1" "a"; event "id-2" "b"; event "id-3" "c"])
               net_flaky World.empty)))
  = Some ["id-1"; "id-2"].
Proof. reflexivity. Qed.

(** Two captures under a hook that gives every event the id
    ["anonymous"], both queued while the network is down.  At the next
    flush the first send succeeds and the second fails; [remove] filters
    by id and takes both out, so the event that was not delivered is gone
    from the queue too. *)
Lemma flush_duplicate_ids_removes_unsent :
  exists q,
    TelemetryClient._queue (fst twice_queued) = Some q
    /\ map TelemetryEvent.message (OfflineQueue._queue q)
       = [Some "first"; Some "second"]
    /\ fst (Transport.is_online
              (TelemetryClient._transport (fst twice_queued)) net_flaky
              (snd twice_queued))
       = true
    /\ TelemetryClient.send_outcomes
         (TelemetryClient._transport (fst twice_queued)) net_flaky
         (OfflineQueue._queue q)
         (snd (Transport.is_online
                 (TelemetryClient._transport (fst twice_queued)) net_flaky
                 (snd twice_queued)))
       = [true; false]
    /\ TelemetryClient._queue
         (fst (TelemetryClient.flush (fst twice_queued) net_flaky
                 (snd twice_queued)))
       <> Some (OfflineQueue.with_queue q
                  (TelemetryClient.unsent (OfflineQueue._queue q)
                     (TelemetryClient.send_outcomes
                        (TelemetryClient._transport (fst twice_queued))
                        net_flaky (OfflineQueue._queue q)
                        (snd (Transport.is_online
                                (TelemetryClient._transport (fst twice_queued))
                                net_flaky (snd twice_queued)))))).
Proof.
  eexists. split; [ reflexivity | ].
  repeat split; try reflexivity.
  vm_compute. intros H. discriminate H.
Qed.
End Concrete.

(** * The further properties at concrete inputs *)

Section ConcreteMore.
#[local] Existing Instance IsoText.
Import Examples.

Ltac distinct_keys :=
  repeat (apply NoDup_cons;
          [ simpl; intuition discriminate | ]);
  apply NoDup_nil.

Lemma add_breadcrumb_bounded_witness :
  BreadcrumbManager.count
    (BreadcrumbManager.add_breadcrumb
       {| BreadcrumbManager._max_breadcrumbs := 2;
          BreadcrumbManager._breadcrumbs :=
            [crumb "12:00:00" "a"; crumb "12:00:01" "b";
             crumb "12:00:02" "c"] |}
       (crumb "12:00:03" "d"))
  <= 2
  /\ exists older,
      BreadcrumbManager.get_all
        (BreadcrumbManager.add_breadcrumb
           {| BreadcrumbManager._max_breadcrumbs := 2;
              BreadcrumbManager._breadcrumbs :=
                [crumb "12:00:00" "a"; crumb "12:00:01" "b";
                 crumb "12:00:02" "c"] |}
           (crumb "12:00:03" "d"))
      = older ++ [crumb "12:00:03" "d"].
Proof.
  apply (add_breadcrumb_bounded
           {| BreadcrumbManager._max_breadcrumbs := 2;
              BreadcrumbManager._breadcrumbs :=
                [crumb "12:00:00" "a"; crumb "12:00:01" "b";
                 crumb "12:00:02" "c"] |}
           (crumb "12:00:03" "d")).
  simpl. lia.
Defined.

Lemma breadcrumbs_zero_capacity_keeps_all_witness :
  BreadcrumbManager.get_all
    (BreadcrumbManager.add_all (BreadcrumbManager.init 0)
       [add_call "12:00:00" "a"; add_call "12:00:01" "b"])
  = BreadcrumbManager.get_all (BreadcrumbManager.init 0)
      ++ map BreadcrumbManager.breadcrumb_of
           [add_call "12:00:00" "a"; add_call "12:00:01" "b"].
Proof.
  apply (breadcrumbs_zero_capacity_keeps_all
           [add_call "12:00:00" "a"; add_call "12:00:01" "b"]
           (BreadcrumbManager.init 0)).
  reflexivity.
Defined.

Lemma breadcrumbs_negative_capacity_keeps_none_witness :
  BreadcrumbManager.get_all
    (BreadcrumbManager.add_all (BreadcrumbManager.init (-3))
       [add_call "12:00:00" "a"; add_call "12:00:01" "b"])
  = [].
Proof.
  apply (breadcrumbs_negative_capacity_keeps_none
           [add_call "12:00:00" "a"; add_call "12:00:01" "b"]
           (BreadcrumbManager.init (-3)));
    [ simpl; lia | reflexivity ].
Defined.

Lemma enqueue_at_capacity_evicts_oldest_witness :
  OfflineQueue.enqueue
    (queue_of 2 [event "id-1" "a"; event "id-2" "b"; event "id-3" "c"])
    (event "id-4" "d")
  = Ok (OfflineQueue.with_queue
          (queue_of 2 [event "id-1" "a"; event "id-2" "b"; event "id-3" "c"])
          ([event "id-2" "b"; event "id-3" "c"] ++ [event "id-4" "d"]))
  /\ OfflineQueue.size
       (OfflineQueue.with_queue
          (queue_of 2 [event "id-1" "a"; event "id-2" "b"; event "id-3" "c"])
          ([event "id-2" "b"; event "id-3" "c"] ++ [event "id-4" "d"]))
     = OfflineQueue.size
         (queue_of 2 [event "id-1" "a"; event "id-2" "b"; event "id-3" "c"]).
Proof.
  apply (enqueue_at_capacity_evicts_oldest
           (queue_of 2 [event "id-1" "a"; event "id-2" "b"; event "id-3" "c"])
           (event "id-4" "d") (event "id-1" "a")
           [event "id-2" "b"; event "id-3" "c"]);
    [ reflexivity | unfold OfflineQueue.size, queue_of; simpl; lia ].
Defined.

Lemma enqueue_keeps_bound_witness :
  exists q,
    OfflineQueue.enqueue (queue_of 2 [event "id-1" "a"; event "id-2" "b"])
                         (event "id-3" "c")
    = Ok q
    /\ OfflineQueue._max_size q
       = OfflineQueue._max_size
           (queue_of 2 [event "id-1" "a"; event "id-2" "b"])
    /\ OfflineQueue.size q
       <= OfflineQueue._max_size
            (queue_of 2 [event "id-1" "a"; event "id-2" "b"])
    /\ exists older, OfflineQueue.get_all q = older ++ [event "id-3" "c"].
Proof.
  apply (enqueue_keeps_bound
           (queue_of 2 [event "id-1" "a"; event "id-2" "b"])
           (event "id-3" "c"));
    unfold OfflineQueue.size, queue_of; simpl; lia.
Defined.

Lemma remove_absent_id_witness :
  OfflineQueue.remove (queue_of 2 [event "id-1" "a"; event "id-2" "b"])
                      "id-9"
  = queue_of 2 [event "id-1" "a"; event "id-2" "b"].
Proof.
  apply (remove_absent_id (queue_of 2 [event "id-1" "a"; event "id-2" "b"])
           "id-9").
  simpl. intuition discriminate.
Defined.

Lemma load_saved_queue_witness :
  OfflineQueue.get_all
    (OfflineQueue.init 1 false
       (Some (OfflineQueue._save_payload
                (queue_of 500 [rich_event None None None;
                               event "id-1" "a"]))))
  = OfflineQueue.get_all
      (queue_of 500 [rich_event None None None; event "id-1" "a"]).
Proof.
  apply (load_saved_queue
           (queue_of 500 [rich_event None None None; event "id-1" "a"])
           1 false).
  reflexivity.
Defined.


Lemma deserialize_requires_keys_witness :
  dict_item "event_id"
    [("event_id", PStr "id-1"); ("timestamp", PStr "2024-05-01T12:00:00");
     ("level", PStr "warning"); ("message", PStr "a")]
  = Ok (PStr (TelemetryEvent.event_id
                {| TelemetryEvent.event_id := "id-1";
                   TelemetryEvent.timestamp := "2024-05-01T12:00:00";
                   TelemetryEvent.level := WARNING;
                   TelemetryEvent.platform :=
                     {| PlatformInfo.name := "python";
                        PlatformInfo.version := None;
                        PlatformInfo.os := None |};
                   TelemetryEvent.tags := []; TelemetryEvent.extra := [];
                   TelemetryEvent.breadcrumbs := [];
                   TelemetryEvent.message := Some "a";
                   TelemetryEvent.exception := None;
                   TelemetryEvent.user := None;
                   TelemetryEvent.journey := None;
                   TelemetryEvent.environment := None;
                   TelemetryEvent.app_version := None |}))
  /\ In "timestamp"
       (map fst
          [("event_id", PStr "id-1");
           ("timestamp", PStr "2024-05-01T12:00:00");
           ("level", PStr "warning"); ("message", PStr "a")])
  /\ In "level"
       (map fst
          [("event_id", PStr "id-1");
           ("timestamp", PStr "2024-05-01T12:00:00");
           ("level", PStr "warning"); ("message", PStr "a")]).
Proof.
  apply (deserialize_requires_keys
           [("event_id", PStr "id-1");
            ("timestamp", PStr "2024-05-01T12:00:00");
            ("level", PStr "warning"); ("message", PStr "a")]).
  reflexivity.
Defined.

Lemma capture_result_consistent_witness :
  (SendResult.success
     {| SendResult.success := false;
        SendResult.event_id := PStr "id-1";
        SendResult.error := Some "[Errno 111] Connection refused";
        SendResult.queued := true |}
   = true
   <-> SendResult.error
         {| SendResult.success := false;
            SendResult.event_id := PStr "id-1";
            SendResult.error := Some "[Errno 111] Connection refused";
            SendResult.queued := true |}
       = None)
  /\ (SendResult.queued
        {| SendResult.success := false;
           SendResult.event_id := PStr "id-1";
           SendResult.error := Some "[Errno 111] Connection refused";
           SendResult.queued := true |}
      = true ->
      SendResult.success
        {| SendResult.success := false;
           SendResult.event_id := PStr "id-1";
           SendResult.error := Some "[Errno 111] Connection refused";
           SendResult.queued := true |}
      = false).
Proof.
  apply (capture_result_consistent
           (client (options 1 None 500))
           (TelemetryClient.with_queue (client (options 1 None 500))
              (Some (queue_of 500
                       [TelemetryClient.captured_event
                          (client (options 1 None 500))
                          (env "2024-05-01T12:00:00" "id-1" (1 # 2))
                          (TelemetryClient.Message "hi" WARNING)])))
           net_down World.empty
           (env "2024-05-01T12:00:00" "id-1" (1 # 2))
           (TelemetryClient.Message "hi" WARNING)).
  reflexivity.
Defined.

Lemma capture_failure_is_queued_witness :
  exists q' older,
    fst (TelemetryClient.capture (client (options 1 None 500)) net_down
           World.empty (env "2024-05-01T12:00:00" "id-1" (1 # 2))
           (TelemetryClient.Message "hi" WARNING))
    = Ok ({| SendResult.success := false;
             SendResult.event_id :=
               PStr (TelemetryEvent.event_id
                       (TelemetryClient.captured_event
                          (client (options 1 None 500))
                          (env "2024-05-01T12:00:00" "id-1" (1 # 2))
                          (TelemetryClient.Message "hi" WARNING)));
             SendResult.error :=
               SendResult.error
                 (fst (Transport.send
                         (TelemetryClient._transport
                            (client (options 1 None 500)))
                         net_down World.empty
                         (TelemetryClient.captured_event
                            (client (options 1 None 500))
                            (env "2024-05-01T12:00:00" "id-1" (1 # 2))
                            (TelemetryClient.Message "hi" WARNING))));
             SendResult.queued := true |},
          TelemetryClient.with_queue (client (options 1 None 500)) (Some q'))
    /\ OfflineQueue.get_all q'
       = older
           ++ [TelemetryClient.captured_event
                 (client (options 1 None 500))
                 (env "2024-05-01T12:00:00" "id-1" (1 # 2))
                 (TelemetryClient.Message "hi" WARNING)].
Proof.
  apply (capture_failure_is_queued (client (options 1 None 500)) net_down
           World.empty (env "2024-05-01T12:00:00" "id-1" (1 # 2))
           (TelemetryClient.Message "hi" WARNING)
           (OfflineQueue.init 500 false None));
    [ unfold Qle; simpl; lia | reflexivity | reflexivity | simpl; lia
    | reflexivity ].
Defined.

Lemma flush_posts_each_once_witness :
  World.posts
    (snd (TelemetryClient.flush
            (client_with_queue [event "id-1" "a"; event "id-2" "b"])
            net_flaky World.empty))
  = World.posts World.empty
      ++ map (Transport.post_request
                (TelemetryClient._transport
                   (client_with_queue [event "id-1" "a"; event "id-2" "b"])))
             (OfflineQueue.get_all
                (queue_of 500 [event "id-1" "a"; event "id-2" "b"]))
  /\ length
       (World.gets
          (snd (TelemetryClient.flush
                  (client_with_queue [event "id-1" "a"; event "id-2" "b"])
                  net_flaky World.empty)))
     = S (length (World.gets World.empty)).
Proof.
  apply (flush_posts_each_once
           (client_with_queue [event "id-1" "a"; event "id-2" "b"])
           net_flaky World.empty
           (queue_of 500 [event "id-1" "a"; event "id-2" "b"]));
    [ reflexivity | discriminate | reflexivity ].
Defined.

Lemma flush_removes_by_id_witness :
  TelemetryClient._queue
    (fst (TelemetryClient.flush (fst twice_queued) net_flaky
            (snd twice_queued)))
  = Some (OfflineQueue.with_queue
            (queue_of 500
               [with_event_id
                  (TelemetryClient.captured_event
                     (client (options 1 (Some anonymise) 500))
                     (env "2024-05-01T12:00:00" "id-1" (1 # 2))
                     (TelemetryClient.Message "first" WARNING))
                  "anonymous";
                with_event_id
                  (TelemetryClient.captured_event
                     (client (options 1 (Some anonymise) 500))
                     (env "2024-05-01T12:00:01" "id-2" (1 # 2))
                     (TelemetryClient.Message "second" WARNING))
                  "anonymous"])
            []).
Proof.
  apply (flush_removes_by_id (fst twice_queued) net_flaky (snd twice_queued)
           (queue_of 500
              [with_event_id
                 (TelemetryClient.captured_event
                    (client (options 1 (Some anonymise) 500))
                    (env "2024-05-01T12:00:00" "id-1" (1 # 2))
                    (TelemetryClient.Message "first" WARNING))
                 "anonymous";
               with_event_id
                 (TelemetryClient.captured_event
                    (client (options 1 (Some anonymise) 500))
                    (env "2024-05-01T12:00:01" "id-2" (1 # 2))
                    (TelemetryClient.Message "second" WARNING))
                 "anonymous"]));
    [ reflexivity | discriminate | reflexivity ].
Defined.

Lemma full_sample_rate_always_delivers_witness :
  World.posts
    (snd (TelemetryClient.capture (client (options 2 None 500)) net_up
            World.empty (env "2024-05-01T12:00:00" "id-1" (999 # 1000))
            (TelemetryClient.Message "hi" INFO)))
  = World.posts World.empty
      ++ [Transport.post_request
            (TelemetryClient._transport (client (options 2 None 500)))
            (TelemetryClient.captured_event (client (options 2 None 500))
               (env "2024-05-01T12:00:00" "id-1" (999 # 1000))
               (TelemetryClient.Message "hi" INFO))].
Proof.
  apply (full_sample_rate_always_delivers (options 2 None 500)
           (Ok parsed_dsn) None (client (options 2 None 500)) net_up
           World.empty (env "2024-05-01T12:00:00" "id-1" (999 # 1000))
           (TelemetryClient.Message "hi" INFO));
    [ reflexivity | unfold Qle; simpl; lia | reflexivity
    | unfold Qlt; simpl; lia ].
Defined.

Lemma exception_extra_overrides_ambient_witness :
  dict_get_default "attempt"
    (TelemetryEvent.extra
       (TelemetryClient.captured_event
          (TelemetryClient.set_extra (client (options 1 None 500))
             "attempt" (PInt 1))
          (env "2024-05-01T12:00:00" "id-1" 0)
          (TelemetryClient.Exception
             {| BaseException.type_name := "ValueError";
                BaseException.str := "boom";
                BaseException.traceback := None |}
             (Some [("attempt", PInt 2); ("cart", PInt 3)]))))
    PNone
  = dict_get_default "attempt" [("attempt", PInt 2); ("cart", PInt 3)]
      (dict_get_default "attempt"
         (TelemetryClient._extra
            (TelemetryClient.set_extra (client (options 1 None 500))
               "attempt" (PInt 1)))
         PNone).
Proof.
  apply (exception_extra_overrides_ambient
           (TelemetryClient.set_extra (client (options 1 None 500))
              "attempt" (PInt 1))
           (env "2024-05-01T12:00:00" "id-1" 0)
           {| BaseException.type_name := "ValueError";
              BaseException.str := "boom";
              BaseException.traceback := None |}
           [("attempt", PInt 2); ("cart", PInt 3)] "attempt" PNone).
  distinct_keys.
Defined.

Lemma reachable_events_round_trip_witness :
  OfflineQueue._deserialize_event
    (OfflineQueue._serialize_event
       (TelemetryClient.captured_event journey_then_user
          (env "2024-05-01T12:00:05" "id-1" 0)
          (TelemetryClient.Exception
             {| BaseException.type_name := "ValueError";
                BaseException.str := "boom";
                BaseException.traceback :=
                  Some [ {| BaseException.fs_name := "pay";
                            BaseException.fs_filename := "shop.py";
                            BaseException.fs_lineno := Some 42 |} ] |}
             None)))
  = Ok (TelemetryClient.captured_event journey_then_user
          (env "2024-05-01T12:00:05" "id-1" 0)
          (TelemetryClient.Exception
             {| BaseException.type_name := "ValueError";
                BaseException.str := "boom";
                BaseException.traceback :=
                  Some [ {| BaseException.fs_name := "pay";
                            BaseException.fs_filename := "shop.py";
                            BaseException.fs_lineno := Some 42 |} ] |}
             None)).
Proof.
  apply (reachable_events_round_trip journey_then_user).
  apply TelemetryClient.reach_set_user, TelemetryClient.reach_start_journey.
  apply (TelemetryClient.reach_init (options 1 None 500) (Ok parsed_dsn) None).
  reflexivity.
Defined.

Lemma journey_end_keeps_ended_step_witness :
  Journey._current_step
    (Journey.complete journey_on_ended_step "2024-05-01T12:00:03")
  = Some ended_step
  /\ Journey._current_step
       (Journey.fail journey_on_ended_step "2024-05-01T12:00:03")
     = Some ended_step.
Proof.
  apply (journey_end_keeps_ended_step journey_on_ended_step ended_step
           "2024-05-01T12:00:03"); reflexivity.
Defined.

Lemma parse_dsn_ok_witness :
  String.prefix "pk_" (ParsedDsn.public_key parsed_dsn) = true
  /\ ParsedDsn.api_base_url parsed_dsn
     = (ParsedDsn.protocol parsed_dsn ++ "://"
          ++ ParsedDsn.host parsed_dsn)%string.
Proof.
  apply (parse_dsn_ok "https://pk_live_abc@example.com" (Ok good_url)
           parsed_dsn).
  reflexivity.
Defined.

Lemma init_rejects_key_without_prefix_witness :
  TelemetryClient.init (TelemetryOptions.default "https://nopk@example.com")
    (parse_dsn
       (TelemetryOptions.dsn
          (TelemetryOptions.default "https://nopk@example.com"))
       (Ok url_without_key))
    None
  = Raise (ValueError
             "DSN must contain a valid public key starting with pk_").
Proof.
  apply (init_rejects_key_without_prefix
           (TelemetryOptions.default "https://nopk@example.com")
           url_without_key (Some "nopk") None); reflexivity.
Defined.

Lemma exception_handler_single_post_witness :
  Global.exception_handler (Some (client (options 1 None 500))) net_up
    World.empty (env "2024-05-01T12:00:00" "id-1" (1 # 2))
    {| BaseException.type_name := "ValueError";
       BaseException.str := "boom";
       BaseException.traceback := None |}
  = (Ok (Some (client (options 1 None 500))),
     {| World.posts :=
          World.posts World.empty
            ++ [Transport.post_request
                  (TelemetryClient._transport (client (options 1 None 500)))
                  (TelemetryClient.exception_event
                     (client (options 1 None 500))
                     (env "2024-05-01T12:00:00" "id-1" (1 # 2))
                     {| BaseException.type_name := "ValueError";
                        BaseException.str := "boom";
                        BaseException.traceback := None |}
                     None)];
        World.gets := World.gets World.empty |}).
Proof.
  apply (exception_handler_single_post (client (options 1 None 500)) net_up
           World.empty (env "2024-05-01T12:00:00" "id-1" (1 # 2))
           {| BaseException.type_name := "ValueError";
              BaseException.str := "boom";
              BaseException.traceback := None |});
    [ unfold Qle; simpl; lia | reflexivity | reflexivity | reflexivity ].
Defined.
End ConcreteMore.
